(** * Motivora Studio: the render-job orchestrator of [server.py]

    A shallow embedding of the job registry ([ACTIVE_JOBS]), the progress
    monitor ([_monitor_blender_job]), the frame-rate post-processor
    ([_interpolate_video]) and the HTTP-facing operations [render_page],
    [job_status] and [cancel_job].

    Conventions of the embedding:
    - Python [float] values (wall-clock times, durations, progress, ETA) are
      exact rationals [Q]; Python [int] values are [Z].
    - Text is ASCII: a line of renderer output is a [string], on which
      [str.isdigit] holds for the non-empty strings over ['0'..'9'] and
      [str.split] / [str.strip] cut at the ASCII white-space characters.
    - A job (a Python [dict] with a fixed set of keys) is a record whose
      fields carry the names of the keys.
    - Readings of the clock, exit codes and the outcomes of file and
      encoder operations are inputs of the functions that observe them. *)

From Stdlib Require Import ZArith QArith Qminmax Qround List String Ascii Bool Lia.
From Stdlib Require Import DecimalString Sorted.
From stdpp Require Import gmap strings.

Import ListNotations.
Local Open Scope string_scope.

(** ** Python primitives *)

Module Py.

(** [b if b > a else a], the value of [max(a, b)] on two floats. *)
Definition Qltb (a b : Q) : bool := negb (Qle_bool b a).

Definition max (a b : Q) : Q := if Qltb a b then b else a.

(** [min(a, b)]: the first argument unless the second is smaller. *)
Definition min (a b : Q) : Q := if Qltb b a then b else a.

(** Truth value of a float: every value but zero. *)
Definition truthy (q : Q) : bool := negb (Qeq_bool q 0).

Definition truthy_opt (o : option Q) : bool :=
  match o with
  | Some q => truthy q
  | None => false
  end.

(** The white-space characters of [str.split()] and [str.strip()] below
    code point 128: TAB, LF, VT, FF, CR, FS, GS, RS, US and the space. *)
Definition isspace (c : ascii) : bool :=
  let n := nat_of_ascii c in
  ((9 <=? n)%nat && (n <=? 13)%nat) || ((28 <=? n)%nat && (n <=? 32)%nat).

Definition isdigit_char (c : ascii) : bool :=
  let n := nat_of_ascii c in (48 <=? n)%nat && (n <=? 57)%nat.

(** [token.isdigit()]: at least one character, and all of them digits. *)
Definition isdigit (s : string) : bool :=
  match list_ascii_of_string s with
  | [] => false
  | cs => forallb isdigit_char cs
  end.

(** [int(token)] on a string of decimal digits. *)
Definition int (s : string) : Z :=
  fold_left (fun acc c => 10 * acc + (Z.of_nat (nat_of_ascii c) - 48))%Z
            (list_ascii_of_string s) 0%Z.

(** [str(n)] for an integer. *)
Definition str (n : Z) : string := NilZero.string_of_int (Z.to_int n).

Fixpoint lstrip (cs : list ascii) : list ascii :=
  match cs with
  | c :: cs' => if isspace c then lstrip cs' else cs
  | [] => []
  end.

Definition strip (s : string) : string :=
  string_of_list_ascii
    (rev (lstrip (rev (lstrip (list_ascii_of_string s))))).

(** [s.split()]: the maximal runs of non-white-space characters. *)
Fixpoint split_from (cur : list ascii) (cs : list ascii) : list string :=
  match cs with
  | [] =>
      match cur with
      | [] => []
      | _ => [string_of_list_ascii (rev cur)]
      end
  | c :: cs' =>
      if isspace c then
        match cur with
        | [] => split_from [] cs'
        | _ => string_of_list_ascii (rev cur) :: split_from [] cs'
        end
      else split_from (c :: cur) cs'
  end.

Definition split (s : string) : list string :=
  split_from [] (list_ascii_of_string s).

(** [s.replace(a, b)] for single characters. *)
Definition replace (a b : ascii) (s : string) : string :=
  string_of_list_ascii
    (map (fun c => if Ascii.eqb c a then b else c) (list_ascii_of_string s)).

Definition startswith (s p : string) : bool := String.prefix p s.

(** [s.split(sep)] for a one-character separator: the fields between the
    occurrences of [sep], empty fields included. *)
Fixpoint split_on_from (sep : ascii) (cur cs : list ascii) : list string :=
  match cs with
  | [] => [string_of_list_ascii (rev cur)]
  | c :: cs' =>
      if Ascii.eqb c sep
      then string_of_list_ascii (rev cur) :: split_on_from sep [] cs'
      else split_on_from sep (c :: cur) cs'
  end.

Definition split_on (sep : ascii) (s : string) : list string :=
  split_on_from sep [] (list_ascii_of_string s).

(** [s.strip(chars)]: drop the characters of [chars] at both ends. *)
Fixpoint lstrip_chars (chars cs : list ascii) : list ascii :=
  match cs with
  | c :: cs' =>
      if existsb (Ascii.eqb c) chars then lstrip_chars chars cs' else cs
  | [] => []
  end.

Definition strip_chars (chars s : string) : string :=
  let k := list_ascii_of_string chars in
  string_of_list_ascii
    (rev (lstrip_chars k (rev (lstrip_chars k (list_ascii_of_string s))))).

(** [sub in s] for a one-character [sub]. *)
Definition contains_char (c : ascii) (s : string) : bool :=
  existsb (Ascii.eqb c) (list_ascii_of_string s).

(** [l[-n:]], the last [n] elements of a list. *)
Definition last_n {A} (n : nat) (l : list A) : list A :=
  skipn (List.length l - n) l.

End Py.

(** ** Data model *)

(** The values of the ["state"] key of a job and of the [state] column of
    a render record. *)
Inductive State := running | finished | error | cancelled.

Definition State_eqb (a b : State) : bool :=
  match a, b with
  | running, running | finished, finished
  | error, error | cancelled, cancelled => true
  | _, _ => false
  end.

Definition terminal (s : State) : bool := negb (State_eqb s running).

(** An entry of [ACTIVE_JOBS], as [render_page] creates it. The keys
    [download_name], [mimetype], [render_size], [auto], [quality] and
    [base_fps] are only read by the download route and are left out;
    [cleanup_done] is absent from a fresh dictionary, which reads as
    [false]. *)
Record Job := {
  state : State;
  message : string;
  progress : Q;
  output_path : string;
  workdir : string;
  video_format : string;
  axis : string;
  offset : Q;
  started_at : Q;
  eta_seconds : option Q;
  total_frames : Z;
  last_frame_index : Z;
  last_frame_timestamp : option Q;
  avg_frame_time : option Q;
  needs_interpolation : bool;
  final_fps : Z;
  blender_output_path : string;
  user_id : option Z;
  cleanup_done : bool
}.

Definition set_state (v : State) (j : Job) : Job :=
  {| state := v; message := message j; progress := progress j;
     output_path := output_path j; workdir := workdir j;
     video_format := video_format j; axis := axis j; offset := offset j;
     started_at := started_at j; eta_seconds := eta_seconds j;
     total_frames := total_frames j; last_frame_index := last_frame_index j;
     last_frame_timestamp := last_frame_timestamp j;
     avg_frame_time := avg_frame_time j;
     needs_interpolation := needs_interpolation j; final_fps := final_fps j;
     blender_output_path := blender_output_path j; user_id := user_id j;
     cleanup_done := cleanup_done j |}.

Definition set_message (v : string) (j : Job) : Job :=
  {| state := state j; message := v; progress := progress j;
     output_path := output_path j; workdir := workdir j;
     video_format := video_format j; axis := axis j; offset := offset j;
     started_at := started_at j; eta_seconds := eta_seconds j;
     total_frames := total_frames j; last_frame_index := last_frame_index j;
     last_frame_timestamp := last_frame_timestamp j;
     avg_frame_time := avg_frame_time j;
     needs_interpolation := needs_interpolation j; final_fps := final_fps j;
     blender_output_path := blender_output_path j; user_id := user_id j;
     cleanup_done := cleanup_done j |}.

Definition set_progress (v : Q) (j : Job) : Job :=
  {| state := state j; message := message j; progress := v;
     output_path := output_path j; workdir := workdir j;
     video_format := video_format j; axis := axis j; offset := offset j;
     started_at := started_at j; eta_seconds := eta_seconds j;
     total_frames := total_frames j; last_frame_index := last_frame_index j;
     last_frame_timestamp := last_frame_timestamp j;
     avg_frame_time := avg_frame_time j;
     needs_interpolation := needs_interpolation j; final_fps := final_fps j;
     blender_output_path := blender_output_path j; user_id := user_id j;
     cleanup_done := cleanup_done j |}.

Definition set_axis (v : string) (j : Job) : Job :=
  {| state := state j; message := message j; progress := progress j;
     output_path := output_path j; workdir := workdir j;
     video_format := video_format j; axis := v; offset := offset j;
     started_at := started_at j; eta_seconds := eta_seconds j;
     total_frames := total_frames j; last_frame_index := last_frame_index j;
     last_frame_timestamp := last_frame_timestamp j;
     avg_frame_time := avg_frame_time j;
     needs_interpolation := needs_interpolation j; final_fps := final_fps j;
     blender_output_path := blender_output_path j; user_id := user_id j;
     cleanup_done := cleanup_done j |}.

Definition set_offset (v : Q) (j : Job) : Job :=
  {| state := state j; message := message j; progress := progress j;
     output_path := output_path j; workdir := workdir j;
     video_format := video_format j; axis := axis j; offset := v;
     started_at := started_at j; eta_seconds := eta_seconds j;
     total_frames := total_frames j; last_frame_index := last_frame_index j;
     last_frame_timestamp := last_frame_timestamp j;
     avg_frame_time := avg_frame_time j;
     needs_interpolation := needs_interpolation j; final_fps := final_fps j;
     blender_output_path := blender_output_path j; user_id := user_id j;
     cleanup_done := cleanup_done j |}.

Definition set_eta_seconds (v : option Q) (j : Job) : Job :=
  {| state := state j; message := message j; progress := progress j;
     output_path := output_path j; workdir := workdir j;
     video_format := video_format j; axis := axis j; offset := offset j;
     started_at := started_at j; eta_seconds := v;
     total_frames := total_frames j; last_frame_index := last_frame_index j;
     last_frame_timestamp := last_frame_timestamp j;
     avg_frame_time := avg_frame_time j;
     needs_interpolation := needs_interpolation j; final_fps := final_fps j;
     blender_output_path := blender_output_path j; user_id := user_id j;
     cleanup_done := cleanup_done j |}.

Definition set_last_frame (i : Z) (t : Q) (j : Job) : Job :=
  {| state := state j; message := message j; progress := progress j;
     output_path := output_path j; workdir := workdir j;
     video_format := video_format j; axis := axis j; offset := offset j;
     started_at := started_at j; eta_seconds := eta_seconds j;
     total_frames := total_frames j; last_frame_index := i;
     last_frame_timestamp := Some t;
     avg_frame_time := avg_frame_time j;
     needs_interpolation := needs_interpolation j; final_fps := final_fps j;
     blender_output_path := blender_output_path j; user_id := user_id j;
     cleanup_done := cleanup_done j |}.

Definition set_avg_frame_time (v : Q) (j : Job) : Job :=
  {| state := state j; message := message j; progress := progress j;
     output_path := output_path j; workdir := workdir j;
     video_format := video_format j; axis := axis j; offset := offset j;
     started_at := started_at j; eta_seconds := eta_seconds j;
     total_frames := total_frames j; last_frame_index := last_frame_index j;
     last_frame_timestamp := last_frame_timestamp j;
     avg_frame_time := Some v;
     needs_interpolation := needs_interpolation j; final_fps := final_fps j;
     blender_output_path := blender_output_path j; user_id := user_id j;
     cleanup_done := cleanup_done j |}.

Definition set_cleanup_done (v : bool) (j : Job) : Job :=
  {| state := state j; message := message j; progress := progress j;
     output_path := output_path j; workdir := workdir j;
     video_format := video_format j; axis := axis j; offset := offset j;
     started_at := started_at j; eta_seconds := eta_seconds j;
     total_frames := total_frames j; last_frame_index := last_frame_index j;
     last_frame_timestamp := last_frame_timestamp j;
     avg_frame_time := avg_frame_time j;
     needs_interpolation := needs_interpolation j; final_fps := final_fps j;
     blender_output_path := blender_output_path j; user_id := user_id j;
     cleanup_done := v |}.

(** A row of the [renders] table ([models.Render]); the columns that the
    orchestrator reads or writes. *)
Record Render := {
  r_job_id : string;
  r_user_id : option Z;
  r_file_path : string;
  r_file_size : option Z;
  r_state : State;
  r_progress : Q;
  r_message : string
}.

(** Effects on the world outside the registry, in the order performed. *)
Inductive Effect :=
| Mkdtemp (dir : string)
| SaveUpload (path : string)
| Rmtree (dir : string)
| Popen (command : list string)
| StartMonitor (job_id : string)
| Terminate (job_id : string)
| Kill (job_id : string)
| RunEncoder (cmd : list string)
| Unlink (path : string)
| Move (src dst : string)
| Copy2 (src dst : string)
| Print (text : string).

(** The process-wide state: the two module-level dictionaries, the
    [renders] table, the paths that exist on disk, and the effects so far
    (most recent last). *)
Record World := {
  ACTIVE_JOBS : gmap string Job;
  ACTIVE_PROCESSES : gmap string (list string);
  renders : list Render;
  files : gset string;
  trace : list Effect
}.

(** ** Exceptions and the monad of a handler *)

Inductive ExcKind :=
| ValueError | RuntimeError | FileNotFoundError | ZeroDivisionError
| KeyError | OSError | DatabaseError | TypeError.

Record Exc := { exc_kind : ExcKind; exc_str : string }.

Inductive Res (A : Type) :=
| Ok (a : A)
| Raise (e : Exc).
Arguments Ok {A} a.
Arguments Raise {A} e.

Definition M (A : Type) : Type := World -> Res A * World.

Definition ret {A} (a : A) : M A := fun w => (Ok a, w).

Definition raise {A} (k : ExcKind) (msg : string) : M A :=
  fun w => (Raise {| exc_kind := k; exc_str := msg |}, w).

Definition bind {A B} (m : M A) (k : A -> M B) : M B :=
  fun w =>
    match m w with
    | (Ok a, w') => k a w'
    | (Raise e, w') => (Raise e, w')
    end.

(** [try: m  except Exception as e: h e]. *)
Definition try_except {A} (m : M A) (h : Exc -> M A) : M A :=
  fun w =>
    match m w with
    | (Ok a, w') => (Ok a, w')
    | (Raise e, w') => h e w'
    end.

(** [try: m  finally: f]; an exception of [f] replaces that of [m]. *)
Definition try_finally {A} (m : M A) (f : M unit) : M A :=
  fun w =>
    match m w with
    | (r, w') =>
        match f w' with
        | (Ok _, w'') => (r, w'')
        | (Raise e, w'') => (Raise e, w'')
        end
    end.

Definition get : M World := fun w => (Ok w, w).

Definition modify (f : World -> World) : M unit := fun w => (Ok tt, f w).

Declare Scope py_scope.
Delimit Scope py_scope with py.
Notation "'let*' x ':=' m 'in' k" := (bind m (fun x => k))
  (at level 10, x name, m at level 100, k at level 200) : py_scope.
Local Open Scope py_scope.

Definition when (b : bool) (m : M unit) : M unit := if b then m else ret tt.

Definition set_jobs (f : gmap string Job -> gmap string Job) (w : World) : World :=
  {| ACTIVE_JOBS := f (ACTIVE_JOBS w); ACTIVE_PROCESSES := ACTIVE_PROCESSES w;
     renders := renders w; files := files w; trace := trace w |}.

Definition set_processes
    (f : gmap string (list string) -> gmap string (list string)) (w : World) : World :=
  {| ACTIVE_JOBS := ACTIVE_JOBS w; ACTIVE_PROCESSES := f (ACTIVE_PROCESSES w);
     renders := renders w; files := files w; trace := trace w |}.

Definition set_renders (f : list Render -> list Render) (w : World) : World :=
  {| ACTIVE_JOBS := ACTIVE_JOBS w; ACTIVE_PROCESSES := ACTIVE_PROCESSES w;
     renders := f (renders w); files := files w; trace := trace w |}.

Definition set_files (f : gset string -> gset string) (w : World) : World :=
  {| ACTIVE_JOBS := ACTIVE_JOBS w; ACTIVE_PROCESSES := ACTIVE_PROCESSES w;
     renders := renders w; files := f (files w); trace := trace w |}.

Definition emit (e : Effect) : M unit :=
  modify (fun w =>
    {| ACTIVE_JOBS := ACTIVE_JOBS w; ACTIVE_PROCESSES := ACTIVE_PROCESSES w;
       renders := renders w; files := files w; trace := (trace w ++ [e])%list |}).

(** A write through the reference [job] that a handler or the monitor
    holds: the dictionary stored under [job_id] is updated in place. *)
Definition update_job (job_id : string) (f : Job -> Job) : M unit :=
  modify (set_jobs (alter f job_id)).

(** [ACTIVE_JOBS.get(job_id)]. *)
Definition lookup_job (job_id : string) : M (option Job) :=
  fun w => (Ok (ACTIVE_JOBS w !! job_id), w).

(** [Path(p).exists()]. *)
Definition path_exists (p : string) : M bool :=
  fun w => (Ok (bool_decide (p ∈ files w)), w).

(** [shutil.rmtree(dir, ignore_errors=True)]: [dir] and every path below
    it are gone afterwards. *)
Definition under (dir p : string) : bool :=
  String.eqb dir p || String.prefix (dir ++ "/") p.

Definition rmtree (dir : string) : M unit :=
  let* _ := emit (Rmtree dir) in
  modify (set_files (filter (fun p => under dir p = false))).

(** [Path(p).suffix]: the last component of [p] from its last dot on,
    unless that dot is its first or its last character. *)
Fixpoint last_component (cur cs : list ascii) : list ascii :=
  match cs with
  | [] => rev cur
  | c :: cs' =>
      if Ascii.eqb c "/" then last_component [] cs'
      else last_component (c :: cur) cs'
  end.

Fixpoint suffix_rev (acc name_rev : list ascii) : option (list ascii) :=
  match name_rev with
  | [] => None
  | c :: rest =>
      if Ascii.eqb c "." then
        match rest, acc with
        | [], _ | _, [] => None
        | _, _ => Some (c :: acc)
        end
      else suffix_rev (c :: acc) rest
  end.

Definition suffix (p : string) : string :=
  match suffix_rev [] (rev (last_component [] (list_ascii_of_string p))) with
  | Some cs => string_of_list_ascii cs
  | None => EmptyString
  end.

(** ** The ETA estimator (the arithmetic of lines 449-468) *)

(** [[i + 1 for i in range(n)]]. *)
Definition weights (n : nat) : list Z :=
  map (fun i => (Z.of_nat i + 1)%Z) (seq 0 n).

(** [sum(d * w for d, w in zip(sample, weights))], summed from [0] in
    list order. *)
Definition weighted_sum (sample : list Q) : Q :=
  fold_left Qplus
    (map (fun dw => (fst dw * inject_Z (snd dw))%Q)
         (combine sample (weights (List.length sample))))
    0%Q.

Definition weight_total (sample : list Q) : Z :=
  fold_left Z.add (weights (List.length sample)) 0%Z.

Definition avg_frame (sample : list Q) : Q :=
  (weighted_sum sample / inject_Z (weight_total sample))%Q.

(** The window the estimator averages over. *)
Definition sample_of (frame_durations : list Q) : list Q :=
  if (20 <? List.length frame_durations)%nat
  then Py.last_n 20 frame_durations
  else frame_durations.

Definition frames_remaining (total_frames frame : Z) : Z :=
  Z.max 0 (total_frames - frame).

(** [max(0.0, base_eta * 1.25)]. *)
Definition eta_estimate (avg : Q) (remaining : Z) (current_frame_elapsed : Q) : Q :=
  Py.max 0 ((avg * inject_Z remaining + current_frame_elapsed) * (125 # 100))%Q.

(** [min(100.0, max(0.0, (frame / total_frames) * 100.0))]; the division
    is defined for [total_frames <> 0] only. *)
Definition progress_of (frame total_frames : Z) : Q :=
  Py.min 100 (Py.max 0 ((inject_Z frame / inject_Z total_frames) * 100))%Q.

(** ** Line classification *)

(** The all-digit tokens of a frame line: [line.replace(":", " ").split()]
    filtered twice. *)
Definition frame_numbers (line : string) : list string :=
  List.filter Py.isdigit
    (List.filter (fun token => negb (String.eqb token EmptyString))
       (Py.split (Py.replace ":" " " line))).

(** The frame index a line of output carries, if it is a frame-progress
    line with a decimal token. *)
Definition frame_of_line (raw_line : string) : option Z :=
  let line := Py.strip raw_line in
  if String.eqb line EmptyString then None
  else if Py.startswith line "[AUTO]" then None
  else if Py.startswith line "Fra:" then
    match frame_numbers line with
    | token :: _ => Some (Py.int token)
    | [] => None
    end
  else None.

(** [dict(segment.split("=") for segment in ... if "=" in segment)]: the
    key-value pairs in order, or [None] where [dict] raises because a
    segment does not split in two. *)
Fixpoint auto_pairs (segments : list string) : option (list (string * string)) :=
  match segments with
  | [] => Some []
  | segment :: rest =>
      if Py.contains_char "=" segment then
        match Py.split_on "=" segment with
        | [k; v] =>
            match auto_pairs rest with
            | Some ps => Some ((k, v) :: ps)
            | None => None
            end
        | _ => None
        end
      else auto_pairs rest
  end.

(** [parts[key]] when [key in parts]: the last pair with that key. *)
Definition parts_get (key : string) (parts : list (string * string)) : option string :=
  match List.filter (fun kv => String.eqb (fst kv) key) (rev parts) with
  | kv :: _ => Some (snd kv)
  | [] => None
  end.

(** ** Configuration *)

(** The module-level settings read from the environment at start-up. *)
Record Config := {
  FFMPEG_BIN : string;
  STORAGE_ROOT : string;
  TURN_TABLE_SCRIPT : string;
  OUTPUT_FORMAT : string;
  RENDER_SECONDS : Q;
  FINAL_VIDEO_FPS : Z;
  BASE_RENDER_FPS : Z;
  RENDER_SIZE : Z;
  ROTATION_AXIS : string;
  DEFAULT_QUALITY : string
}.

(** ** The progress monitor *)

(** The local variables of [_monitor_blender_job]: seven read from the job
    when the worker starts, four updated while it reads the stream. *)
Record Monitor := {
  m_output_path : string;
  m_workdir : string;
  m_blender_output_path : string;
  m_needs_interpolation : bool;
  m_final_fps : Z;
  m_video_format : string;
  m_axis : string;
  recent_lines : list string;
  frame_durations : list Q;
  m_last_frame_index : option Z;
  m_last_frame_timestamp : option Q
}.

Definition set_recent_lines (v : list string) (m : Monitor) : Monitor :=
  {| m_output_path := m_output_path m; m_workdir := m_workdir m;
     m_blender_output_path := m_blender_output_path m;
     m_needs_interpolation := m_needs_interpolation m;
     m_final_fps := m_final_fps m; m_video_format := m_video_format m;
     m_axis := m_axis m; recent_lines := v;
     frame_durations := frame_durations m;
     m_last_frame_index := m_last_frame_index m;
     m_last_frame_timestamp := m_last_frame_timestamp m |}.

Definition set_frame (durations : list Q) (frame : Z) (now : Q) (m : Monitor) : Monitor :=
  {| m_output_path := m_output_path m; m_workdir := m_workdir m;
     m_blender_output_path := m_blender_output_path m;
     m_needs_interpolation := m_needs_interpolation m;
     m_final_fps := m_final_fps m; m_video_format := m_video_format m;
     m_axis := m_axis m; recent_lines := recent_lines m;
     frame_durations := durations;
     m_last_frame_index := Some frame;
     m_last_frame_timestamp := Some now |}.

(** One iteration's input: the line read, the clock reading [time.time()]
    of that iteration, and whether the database commit for it fails. *)
Record LineEvent := {
  raw_line : string;
  now : Q;
  db_error : option string
}.

(** [xs.append(x)] followed by [xs.pop(0)] when longer than [cap]. *)
Definition push_bounded {A} (cap : nat) (x : A) (xs : list A) : list A :=
  let xs' := (xs ++ [x])%list in
  if (cap <? List.length xs')%nat then tl xs' else xs'.

(** The duration list after a frame observation (lines 439-444). *)
Definition record_duration (m : Monitor) (frame : Z) (now : Q) : list Q :=
  match m_last_frame_index m with
  | Some last =>
      if (last <? frame)%Z && Py.truthy_opt (m_last_frame_timestamp m) then
        match m_last_frame_timestamp m with
        | Some ts =>
            let delta := (now - ts)%Q in
            if Py.Qltb 0 delta
            then push_bounded 20 delta (frame_durations m)
            else frame_durations m
        | None => frame_durations m
        end
      else frame_durations m
  | None => frame_durations m
  end.

(** The ETA stored after a frame observation (lines 449-468), and the
    average stored with it. [last_frame_timestamp] is the value assigned
    on line 446, that is, [now]. *)
Definition eta_after (total_frames frame : Z) (now : Q) (durations : list Q)
    (last_frame_timestamp : option Q) : option Q :=
  if (5 <=? List.length durations)%nat then
    let avg := avg_frame (sample_of durations) in
    let current_frame_elapsed :=
      match last_frame_timestamp with
      | Some ts => if Py.truthy ts then (now - ts)%Q else 0%Q
      | None => 0%Q
      end in
    Some (eta_estimate avg (frames_remaining total_frames frame) current_frame_elapsed)
  else None.

Definition frame_message (frame total_frames : Z) (axis : string) : string :=
  "Rendering frame " ++ Py.str frame ++ " of " ++ Py.str total_frames
  ++ " (axis " ++ axis ++ ")".

(** [Render.query.filter_by(job_id=job_id).first()] and an update of the
    row it returns. *)
Definition render_first (job_id : string) (rows : list Render) : option Render :=
  List.find (fun r => String.eqb (r_job_id r) job_id) rows.

Fixpoint update_first (job_id : string) (f : Render -> Render) (rows : list Render)
    : list Render :=
  match rows with
  | [] => []
  | r :: rest =>
      if String.eqb (r_job_id r) job_id then f r :: rest
      else r :: update_first job_id f rest
  end.

Definition truthy_id (u : option Z) : bool :=
  match u with
  | Some n => negb (n =? 0)%Z
  | None => false
  end.

(** [ACTIVE_JOBS[job_id]], and the later reads through that reference. *)
Definition read_job (job_id : string) : M Job :=
  fun w =>
    match ACTIVE_JOBS w !! job_id with
    | Some j => (Ok j, w)
    | None => (Raise {| exc_kind := KeyError; exc_str := job_id |}, w)
    end.

Section Orchestrator.

(** The configuration in force, and Python's [float(s)] on strings
    ([None] where it raises [ValueError]). *)
Variable cfg : Config.
Variable float_of_str : string -> option Q.

(** The database update of a frame observation (lines 428-438): the
    failure of the query or of the commit is logged, never raised. *)
Definition db_progress (job_id : string) (ev : LineEvent) (p : Q) (msg : string)
    : M unit :=
  match db_error ev with
  | Some e =>
      emit (Print ("[Database] Update failed for job " ++ job_id ++ ": " ++ e))
  | None =>
      modify (set_renders (update_first job_id (fun r =>
        {| r_job_id := r_job_id r; r_user_id := r_user_id r;
           r_file_path := r_file_path r; r_file_size := r_file_size r;
           r_state := r_state r; r_progress := p; r_message := msg |})))
  end.

(** The [[AUTO]] branch (lines 402-415); every failure inside is
    swallowed by [except Exception: pass]. *)
Definition on_auto_line (job_id line : string) : M unit :=
  let* _ := update_job job_id (set_message line) in
  match auto_pairs (Py.split (Py.strip_chars "[]" line)) with
  | None => ret tt
  | Some parts =>
      let* _ :=
        match parts_get "axis" parts with
        | Some a => update_job job_id (set_axis a)
        | None => ret tt
        end in
      match parts_get "offset" parts with
      | Some o =>
          match float_of_str o with
          | Some q => update_job job_id (set_offset q)
          | None => ret tt
          end
      | None => ret tt
      end
  end.

(** The frame branch (lines 421-468) for the frame index [frame]. *)
Definition on_frame (job_id : string) (total_frames : Z) (m : Monitor)
    (ev : LineEvent) (frame : Z) : M Monitor :=
  if (total_frames =? 0)%Z then raise ZeroDivisionError "division by zero"
  else
    let p := progress_of frame total_frames in
    let msg := frame_message frame total_frames (m_axis m) in
    let* _ := update_job job_id (set_progress p) in
    let* _ := update_job job_id (set_message msg) in
    let* job := read_job job_id in
    let* _ := when (truthy_id (user_id job)) (db_progress job_id ev p msg) in
    let durations := record_duration m frame (now ev) in
    let m' := set_frame durations frame (now ev) m in
    let* _ := update_job job_id (set_last_frame frame (now ev)) in
    let* _ :=
      match eta_after total_frames frame (now ev) durations
              (m_last_frame_timestamp m') with
      | Some eta =>
          let* _ := update_job job_id
                      (set_avg_frame_time (avg_frame (sample_of durations))) in
          update_job job_id (set_eta_seconds (Some eta))
      | None => update_job job_id (set_eta_seconds None)
      end in
    ret m'.

(** The loop body after the blank-line test and the bookkeeping of
    [recent_lines] (lines 401-468), on the stripped line. *)
Definition on_line (job_id : string) (total_frames : Z) (m : Monitor)
    (ev : LineEvent) (line : string) : M Monitor :=
  if Py.startswith line "[AUTO]" then
    let* _ := on_auto_line job_id line in ret m
  else
    let* _ := update_job job_id (set_message line) in
    if Py.startswith line "Fra:" then
      match frame_numbers line with
      | token :: _ => on_frame job_id total_frames m ev (Py.int token)
      | [] => ret m
      end
    else ret m.

(** How the stream ends: at end-of-file, or with a read failure. *)
Inductive StreamEnd :=
| EOF
| ReadError (e : Exc).

(** The [for raw_line in stdout] loop: the locals when the loop is left,
    and the exception that left it, if any. *)
Fixpoint monitor_lines (job_id : string) (total_frames : Z) (m : Monitor)
    (evs : list LineEvent) (fin : StreamEnd) (w : World)
    : (Monitor * option Exc) * World :=
  match evs with
  | [] =>
      match fin with
      | EOF => ((m, None), w)
      | ReadError e => ((m, Some e), w)
      end
  | ev :: rest =>
      let line := Py.strip (raw_line ev) in
      if String.eqb line EmptyString then monitor_lines job_id total_frames m rest fin w
      else
        let m1 := set_recent_lines (push_bounded 10 line (recent_lines m)) m in
        match on_line job_id total_frames m1 ev line w with
        | (Ok m2, w') => monitor_lines job_id total_frames m2 rest fin w'
        | (Raise e, w') => ((m1, Some e), w')
        end
  end.

(** Lines 378-389. *)
Definition monitor_init (job_id : string) : M Monitor :=
  let* job := read_job job_id in
  ret {| m_output_path := output_path job; m_workdir := workdir job;
         m_blender_output_path := blender_output_path job;
         m_needs_interpolation := needs_interpolation job;
         m_final_fps := final_fps job; m_video_format := video_format job;
         m_axis := axis job; recent_lines := []; frame_durations := [];
         m_last_frame_index := None; m_last_frame_timestamp := None |}.

(** The [try] block with its [except] clause (lines 390-471): the loop,
    and on an exception the job marked [error]. *)
Definition monitor_stream (job_id : string) (total_frames : Z) (m : Monitor)
    (evs : list LineEvent) (fin : StreamEnd) : M Monitor :=
  fun w =>
    match monitor_lines job_id total_frames m evs fin w with
    | ((m', None), w') => (Ok m', w')
    | ((m', Some exc), w') =>
        (let* _ := update_job job_id (set_state error) in
         let* _ := update_job job_id
                     (set_message ("Blender output error: " ++ exc_str exc)) in
         ret m') w'
    end.

(** ** Post-processing and the terminal transition *)

(** What [subprocess.run] gave for the encoder. *)
Inductive RunResult :=
| Completed (returncode : Z) (stdout stderr : string)
| RunRaised (e : Exc).

(** What the worker observes once the stream has ended: the exit code of
    the renderer and the outcomes of the operations it then attempts. *)
Record Outcome := {
  return_code : Z;
  move_error : option Exc;
  encoder : RunResult;
  copy_result : Res Z;
  commit_error : option string
}.

Definition nl : string := String (ascii_of_nat 10) EmptyString.

Definition join (sep : string) (parts : list string) : string :=
  String.concat sep parts.

(** [shutil.move(src, dst)]. *)
Definition move (src dst : string) (err : option Exc) : M unit :=
  match err with
  | Some e => fun w => (Raise e, w)
  | None =>
      let* _ := emit (Move src dst) in
      modify (set_files (fun fs => (fs ∖ {[src]}) ∪ {[dst]}))
  end.

Definition encoder_cmd (input_path output_path : string) (fps : Z)
    (video_format : string) : list string :=
  let filter_expr :=
    "minterpolate=fps=" ++ Py.str fps
    ++ ":mi_mode=mci:mc_mode=aobmc:me_mode=bidir:vsbmc=1" in
  ([FFMPEG_BIN cfg; "-y"; "-i"; input_path; "-vf"; filter_expr; "-an"]
   ++ (if String.eqb video_format "mp4"
       then ["-c:v"; "libx264"; "-preset"; "medium"; "-crf"; "18";
             "-pix_fmt"; "yuv420p"]
       else ["-c:v"; "libvpx-vp9"; "-pix_fmt"; "yuva420p"; "-b:v"; "0";
             "-crf"; "12"])
   ++ [output_path])%list.

Definition _interpolate_video (input_path output_path : string) (fps : Z)
    (video_format : string) (o : Outcome) : M unit :=
  if (fps <=? 0)%Z then move input_path output_path (move_error o)
  else
    let cmd := encoder_cmd input_path output_path fps video_format in
    let* _ := emit (RunEncoder cmd) in
    match encoder o with
    | RunRaised e => fun w => (Raise e, w)
    | Completed returncode stdout stderr =>
        if negb (returncode =? 0)%Z then
          raise RuntimeError
            ("FFmpeg interpolation failed (" ++ Py.str returncode
             ++ "). Command: " ++ join " " cmd ++ nl ++ "Stdout: " ++ stdout
             ++ nl ++ "Stderr: " ++ stderr)
        else
          let* _ := emit (Unlink input_path) in
          modify (set_files (fun fs => fs ∖ {[input_path]}))
    end.

Definition persistent_path (job_id output_path : string) : string :=
  STORAGE_ROOT cfg ++ "/renders/" ++ job_id ++ suffix output_path.

(** Lines 484-504: the copy into durable storage and the completion of
    the render record; both failures are printed and go no further. *)
Definition persist (job_id : string) (m : Monitor) (o : Outcome) : M unit :=
  let dst := persistent_path job_id (m_output_path m) in
  match copy_result o with
  | Raise e =>
      emit (Print ("[Storage] Failed to copy file to persistent storage: "
                   ++ exc_str e))
  | Ok file_size =>
      let* _ := emit (Copy2 (m_output_path m) dst) in
      let* _ := modify (set_files (fun fs => fs ∪ {[dst]})) in
      match commit_error o with
      | Some e =>
          emit (Print ("[Database] Failed to update render record: " ++ e))
      | None =>
          modify (set_renders (update_first job_id (fun r =>
            {| r_job_id := r_job_id r; r_user_id := r_user_id r;
               r_file_path := dst; r_file_size := Some file_size;
               r_state := finished; r_progress := 100%Q;
               r_message := "Render complete (axis " ++ m_axis m ++ ")." |})))
      end
  end.

(** The unguarded database update of the two error paths (lines 525-532
    and 548-555): a failing commit propagates. *)
Definition db_mark_error (job_id msg : string) (o : Outcome) : M unit :=
  match commit_error o with
  | Some e => raise DatabaseError e
  | None =>
      modify (set_renders (update_first job_id (fun r =>
        {| r_job_id := r_job_id r; r_user_id := r_user_id r;
           r_file_path := r_file_path r; r_file_size := r_file_size r;
           r_state := error; r_progress := r_progress r;
           r_message := msg |})))
  end.

Definition mark_finished (m : Monitor) (j : Job) : Job :=
  set_eta_seconds (Some 0%Q)
    (set_progress 100%Q
       (set_message ("Render complete (axis " ++ m_axis m ++ ").")
          (set_state finished j))).

Definition mark_error (msg : string) (j : Job) : Job :=
  set_eta_seconds None (set_progress (progress j)
    (set_message msg (set_state error j))).

(** The success branch (lines 475-533). *)
Definition on_success (job_id : string) (m : Monitor) (o : Outcome) : M unit :=
  try_except
    (let* _ :=
       if m_needs_interpolation m then
         let* _ := update_job job_id
                     (set_message "Post-processing frames for smoother motion…") in
         _interpolate_video (m_blender_output_path m) (m_output_path m)
           (m_final_fps m) (m_video_format m) o
       else if negb (String.eqb (m_blender_output_path m) (m_output_path m))
       then move (m_blender_output_path m) (m_output_path m) (move_error o)
       else ret tt in
     let* job := read_job job_id in
     let* _ := when (truthy_id (user_id job)) (persist job_id m o) in
     update_job job_id (mark_finished m))
    (fun exc =>
       let error_msg := "Post-processing failed: " ++ exc_str exc in
       let* _ := update_job job_id (mark_error error_msg) in
       let* job := read_job job_id in
       let* _ := when (truthy_id (user_id job)) (db_mark_error job_id error_msg o) in
       emit (Print ("[Post] " ++ exc_str exc))).

(** The failure branch (lines 534-555), entered unless the job is already
    in state [error]. *)
Definition on_failure (job_id : string) (m : Monitor) (o : Outcome) : M unit :=
  let* job := read_job job_id in
  if negb (State_eqb (state job) error) then
    let detail := List.last (recent_lines m) "No additional output from Blender." in
    let tail := join nl (Py.last_n 5 (recent_lines m)) in
    let message := "Blender rendering failed (code " ++ Py.str (return_code o)
                   ++ "). Last line: " ++ detail in
    let* _ := update_job job_id (mark_error message) in
    let* _ := emit (Print ("[Turntable] " ++ message ++ nl
                           ++ "--- Blender tail ---" ++ nl ++ tail ++ nl
                           ++ "-------------------")) in
    let* job := read_job job_id in
    when (truthy_id (user_id job)) (db_mark_error job_id message o)
  else ret tt.

(** The [finally] block (lines 473-559), run once [process.wait()] has
    returned the exit code. *)
Definition monitor_finally (job_id : string) (m : Monitor) (o : Outcome) : M unit :=
  let* present := path_exists (m_blender_output_path m) in
  let* _ :=
    if (return_code o =? 0)%Z && present
    then on_success job_id m o
    else on_failure job_id m o in
  let* job := read_job job_id in
  let* _ :=
    when (State_eqb (state job) error)
      (let* _ := rmtree (m_workdir m) in
       update_job job_id (set_cleanup_done true)) in
  modify (set_processes (delete job_id)).

(** The worker from start to end. *)
Definition _monitor_blender_job (job_id : string) (total_frames : Z)
    (evs : list LineEvent) (fin : StreamEnd) (o : Outcome) : M unit :=
  let* m0 := monitor_init job_id in
  let* m := monitor_stream job_id total_frames m0 evs fin in
  monitor_finally job_id m o.
(** ** The HTTP-facing operations *)

(** The JSON view of a job that [/status] returns. *)
Record StatusView := {
  v_state : State;
  v_message : string;
  v_progress : Q;
  v_eta_seconds : option Q
}.

Inductive Body :=
| Page (message : option string) (status_message : string)
| Marketing
| JsonMessage (text : string)
| JsonJobId (job_id : string)
| JsonStatus (view : StatusView)
| JsonUnknown.

Record Response := { body : Body; status : Z }.

Definition respond (b : Body) (code : Z) : M Response :=
  ret {| body := b; status := code |}.

Definition mark_cancelled (j : Job) : Job :=
  set_cleanup_done true
    (set_eta_seconds None
       (set_progress (progress j)
          (set_message "Render cancelled by user." (set_state cancelled j)))).

(** [cancel_job]; [still_alive] tells whether [process.poll()] is [None]
    half a second after [terminate()]. *)
Definition cancel_job (job_id : string) (still_alive : bool) : M Response :=
  let* found := lookup_job job_id in
  match found with
  | None => respond (JsonMessage "Job not found.") 404
  | Some job =>
      if negb (State_eqb (state job) running)
      then respond (JsonMessage "Job is not running.") 400
      else
        let* w := get in
        let* _ :=
          match ACTIVE_PROCESSES w !! job_id with
          | Some _ =>
              let* _ := emit (Terminate job_id) in
              let* _ := when still_alive (emit (Kill job_id)) in
              modify (set_processes (delete job_id))
          | None => ret tt
          end in
        let* present := path_exists (workdir job) in
        let* _ := when present (rmtree (workdir job)) in
        let* _ := update_job job_id mark_cancelled in
        respond (JsonMessage "Job cancelled successfully.") 200
  end.

(** The ETA that [/status] reports for a running in-memory job (lines
    841-863) at clock reading [t]. *)
Definition status_eta (job : Job) (t : Q) : M (option Q) :=
  if State_eqb (state job) running then
    match avg_frame_time job, last_frame_timestamp job with
    | Some avg, Some last_ts =>
        if Py.truthy avg && Py.truthy last_ts
           && negb (total_frames job =? 0)%Z then
          let current_frame_time := (t - last_ts)%Q in
          if Py.Qltb (avg * (15 # 10))%Q current_frame_time then
            let adjustment := ((current_frame_time - avg) * (5 # 10))%Q in
            match eta_seconds job with
            | Some base_eta => ret (Some (Py.max 0 (base_eta + adjustment)%Q))
            | None =>
                raise TypeError
                  "unsupported operand type(s) for +: 'NoneType' and 'float'"
            end
          else ret (eta_seconds job)
        else if Py.truthy (started_at job) && Py.Qltb 0 (progress job) then
          let elapsed := Py.max 0 (t - started_at job)%Q in
          ret (Some (Py.max 0
                 (elapsed * (100 - progress job) / progress job)%Q))
        else ret (eta_seconds job)
    | _, _ =>
        if Py.truthy (started_at job) && Py.Qltb 0 (progress job) then
          let elapsed := Py.max 0 (t - started_at job)%Q in
          ret (Some (Py.max 0
                 (elapsed * (100 - progress job) / progress job)%Q))
        else ret (eta_seconds job)
    end
  else ret (eta_seconds job).

(** [job_status] at clock reading [t]. *)
Definition job_status (job_id : string) (t : Q) : M Response :=
  let* w := get in
  match render_first job_id (renders w) with
  | Some render_record =>
      respond (JsonStatus
        {| v_state := r_state render_record;
           v_message := r_message render_record;
           v_progress := r_progress render_record;
           v_eta_seconds := None |}) 200
  | None =>
      let* found := lookup_job job_id in
      match found with
      | None => respond JsonUnknown 404
      | Some job =>
          let* _ :=
            when (State_eqb (state job) error && negb (cleanup_done job))
              (let* _ := rmtree (workdir job) in
               update_job job_id (set_cleanup_done true)) in
          let* eta := status_eta job t in
          respond (JsonStatus
            {| v_state := state job; v_message := message job;
               v_progress := progress job; v_eta_seconds := eta |}) 200
      end
  end.

(** ** Submission *)

(** More of Python and of the libraries it runs on: [int(s)] on a string
    ([None] where it raises), [str(x)] and [f"{x:.1f}"] on a float, and
    werkzeug's [secure_filename]. *)
Variable int_of_str : string -> option Z.
Variable str_of_float : Q -> string.
Variable format_1f : Q -> string.
Variable secure_filename : string -> string.

Definition lower_char (c : ascii) : ascii :=
  let n := nat_of_ascii c in
  if (65 <=? n)%nat && (n <=? 90)%nat then ascii_of_nat (n + 32) else c.

Definition upper_char (c : ascii) : ascii :=
  let n := nat_of_ascii c in
  if (97 <=? n)%nat && (n <=? 122)%nat then ascii_of_nat (n - 32) else c.

Definition lower (s : string) : string :=
  string_of_list_ascii (map lower_char (list_ascii_of_string s)).

Definition upper (s : string) : string :=
  string_of_list_ascii (map upper_char (list_ascii_of_string s)).

Definition capitalize (s : string) : string :=
  match s with
  | EmptyString => EmptyString
  | String c rest => String (upper_char c) (lower rest)
  end.

Definition allowed_file (filename : string) : bool :=
  String.eqb (lower (suffix filename)) ".stl".

(** [int(round(x))]: to the nearest integer, ties to the even one. *)
Definition round (x : Q) : Z :=
  let f := Qfloor x in
  let r := (x - inject_Z f)%Q in
  if Py.Qltb r (1 # 2) then f
  else if Py.Qltb (1 # 2) r then (f + 1)%Z
  else if Z.even f then f else (f + 1)%Z.

(** The signed-in principal: its [id] and what [get_user_tier()] gives
    for it. *)
Record User := { id : Z; name : string; tier : string }.

(** A request to [/render] ([marketing] tells whether the query string
    has [marketing=1]), with what the handler obtains from its
    environment while serving it: the directory [tempfile.mkdtemp] makes,
    the size of the saved upload, [MOTIVORA_DEV_MODE], the renderer
    binary found (or not), the failure of [Popen] if any, the token drawn
    for the job, the clock, and the failure of the insert if any. *)
Record Submission := {
  method : string;
  marketing : bool;
  current_user : option User;
  upload_filename : option string;
  form : gmap string string;
  tmp_dir : string;
  stl_size : Z;
  dev_mode : bool;
  blender_bin : option string;
  popen_error : option Exc;
  token : string;
  clock : Q;
  add_error : option string
}.

(** [request.form.get(key, default)]. *)
Definition form_get (rq : Submission) (key default : string) : string :=
  match form rq !! key with
  | Some v => v
  | None => default
  end.

Definition one_of (choices : list string) (s : string) : bool :=
  existsb (String.eqb s) choices.

Definition parse_float (s : string) : M Q :=
  match float_of_str s with
  | Some q => ret q
  | None => raise ValueError ("could not convert string to float: '" ++ s ++ "'")
  end.

Definition parse_int (s : string) : M Z :=
  match int_of_str s with
  | Some n => ret n
  | None =>
      raise ValueError ("invalid literal for int() with base 10: '" ++ s ++ "'")
  end.

(** The options of a render after validation (lines 588-610). *)
Record Options := {
  o_auto_orientation : bool;
  o_axis : string;
  o_offset : Q;
  o_quality : string;
  o_video_format : string;
  o_render_size : Z;
  o_kelvin : Z;
  o_auto_brightness : bool;
  o_exposure : Q
}.

Definition parse_options (rq : Submission) : M Options :=
  let auto_orientation := String.eqb (form_get rq "auto_orientation" "1") "1" in
  let axis0 := upper (form_get rq "axis" (ROTATION_AXIS cfg)) in
  let axis := if one_of ["X"; "Y"; "Z"] axis0 then axis0 else ROTATION_AXIS cfg in
  let* offset0 := parse_float (form_get rq "offset" "0") in
  let offset := Py.max 0 (Py.min 360 offset0) in
  let quality0 := lower (form_get rq "quality" (DEFAULT_QUALITY cfg)) in
  let quality :=
    if one_of ["fast"; "standard"; "ultra"] quality0
    then quality0 else DEFAULT_QUALITY cfg in
  let format0 := lower (form_get rq "format" (OUTPUT_FORMAT cfg)) in
  let video_format :=
    if one_of ["webm"; "mp4"] format0 then format0 else OUTPUT_FORMAT cfg in
  let* size0 := parse_int (form_get rq "resolution" (Py.str (RENDER_SIZE cfg))) in
  let render_size :=
    if existsb (Z.eqb size0) [720; 1080; 1440; 2160]%Z
    then size0 else RENDER_SIZE cfg in
  let* kelvin0 := parse_int (form_get rq "kelvin" "5600") in
  let kelvin := Z.max 2000 (Z.min 10000 kelvin0) in
  let auto_brightness := String.eqb (form_get rq "auto_brightness" "1") "1" in
  let exposure :=
    if auto_brightness then 0%Q
    else match float_of_str (form_get rq "exposure" "0.0") with
         | Some e => Py.max (-2) (Py.min 2 e)
         | None => 0%Q
         end in
  ret {| o_auto_orientation := auto_orientation; o_axis := axis;
         o_offset := offset; o_quality := quality;
         o_video_format := video_format; o_render_size := render_size;
         o_kelvin := kelvin; o_auto_brightness := auto_brightness;
         o_exposure := exposure |}.

Definition MAX_CONCURRENT_RENDERS : nat := 5.

(** [Render.query.filter_by(user_id=user_id, state="running").count()]. *)
Definition running_renders (uid : Z) (rows : list Render) : nat :=
  List.length
    (List.filter
       (fun r =>
          match r_user_id r with
          | Some u => (u =? uid)%Z && State_eqb (r_state r) running
          | None => false
          end)
       rows).

Definition blender_command (bin input_model output : string) (o : Options)
    (watermark : bool) : list string :=
  ([bin; "-b"; "-P"; TURN_TABLE_SCRIPT cfg; "--";
    "--input"; input_model; "--out"; output;
    "--seconds"; str_of_float (RENDER_SECONDS cfg);
    "--fps"; Py.str (BASE_RENDER_FPS cfg);
    "--size"; Py.str (o_render_size o);
    "--axis"; o_axis o; "--format"; o_video_format o;
    "--offset"; str_of_float (o_offset o)]
   ++ (if o_auto_orientation o then ["--auto"] else [])
   ++ ["--quality"; o_quality o]
   ++ (if watermark then ["--watermark"] else [])
   ++ ["--kelvin"; Py.str (o_kelvin o)]
   ++ (if o_auto_brightness o then ["--auto_brightness"]
       else ["--exposure"; str_of_float (o_exposure o)]))%list.

(** [invoke_blender]: the process handle is the command it was started
    with. *)
Definition invoke_blender (rq : Submission) (bin input_model output : string)
    (o : Options) (watermark : bool) : M (list string) :=
  let command := blender_command bin input_model output o watermark in
  let* _ := emit (Print ("[Server] Launching Blender: " ++ join " " command)) in
  match popen_error rq with
  | Some e => fun w => (Raise e, w)
  | None => let* _ := emit (Popen command) in ret command
  end.

Definition new_job (rq : Submission) (o : Options) (workdir output blender_output : string)
    (launch_message : string) (frames : Z) (uid : option Z) : Job :=
  {| state := running; message := launch_message; progress := 0;
     output_path := output; workdir := workdir;
     video_format := o_video_format o; axis := o_axis o;
     offset := o_offset o; started_at := clock rq; eta_seconds := None;
     total_frames := frames; last_frame_index := 0;
     last_frame_timestamp := None; avg_frame_time := None;
     needs_interpolation :=
       negb (BASE_RENDER_FPS cfg =? FINAL_VIDEO_FPS cfg)%Z;
     final_fps := FINAL_VIDEO_FPS cfg;
     blender_output_path := blender_output; user_id := uid;
     cleanup_done := false |}.

(** Lines 648-745: the launch of the renderer and the registration of the
    job. *)
Definition launch (rq : Submission) (o : Options) (workdir input_path : string)
    (needs_watermark : bool) (uid : option Z) : M Response :=
  let sfx := if String.eqb (o_video_format o) "mp4" then ".mp4" else ".webm" in
  let output := workdir ++ "/turntable" ++ sfx in
  let needs_interp := negb (BASE_RENDER_FPS cfg =? FINAL_VIDEO_FPS cfg)%Z in
  let blender_output :=
    if needs_interp then workdir ++ "/turntable_base" ++ sfx else output in
  match blender_bin rq with
  | None =>
      raise FileNotFoundError
        "Blender executable not found. Update BLENDER_BIN in server.py."
  | Some bin =>
      let* process := invoke_blender rq bin input_path blender_output o
                        needs_watermark in
      let job_id := token rq in
      let frames :=
        Z.max 1 (round (RENDER_SECONDS cfg * inject_Z (BASE_RENDER_FPS cfg))%Q) in
      let quality_label := capitalize (o_quality o) in
      let launch_message :=
        if o_auto_orientation o
        then "Launching Blender (" ++ quality_label ++ ", auto orientation)…"
        else "Launching Blender (" ++ quality_label ++ ", axis " ++ o_axis o
             ++ ", start " ++ format_1f (o_offset o) ++ "°)…" in
      let* _ :=
        when (truthy_id uid)
          match add_error rq with
          | Some e => raise DatabaseError e
          | None =>
              modify (set_renders (fun rows =>
                (rows ++ [{| r_job_id := job_id; r_user_id := uid;
                             r_file_path := output; r_file_size := None;
                             r_state := running; r_progress := 0;
                             r_message := launch_message |}])%list))
          end in
      let* _ := modify (set_jobs (insert job_id
                  (new_job rq o workdir output blender_output launch_message
                     frames uid))) in
      let* _ := modify (set_processes (insert job_id process)) in
      let* _ := emit (StartMonitor job_id) in
      respond (JsonJobId job_id) 202
  end.

(** Lines 587-745, the body of the [try]. *)
Definition submit (rq : Submission) (workdir input_path : string) : M Response :=
  let* o := parse_options rq in
  let max_stl_size := (100 * 1024 * 1024)%Z in
  if (max_stl_size <? stl_size rq)%Z then
    let* _ := rmtree workdir in
    respond (JsonMessage
      ("STL file too large ("
       ++ format_1f (inject_Z (stl_size rq) / inject_Z (1024 * 1024))%Q
       ++ "MB). Maximum size is 100MB.")) 400
  else
    let needs_watermark :=
      if dev_mode rq then false
      else match current_user rq with
           | Some u => String.eqb (tier u) "free"
           | None => true
           end in
    match current_user rq with
    | Some u =>
        let* w := get in
        let current_renders := running_renders (id u) (renders w) in
        if (MAX_CONCURRENT_RENDERS <=? current_renders)%nat then
          let* _ := rmtree workdir in
          respond (JsonMessage
            ("Maximum " ++ Py.str (Z.of_nat MAX_CONCURRENT_RENDERS)
             ++ " concurrent renders allowed. Please wait for current renders to complete."))
            429
        else launch rq o workdir input_path needs_watermark (Some (id u))
    | None => launch rq o workdir input_path needs_watermark None
    end.

(** [render_page]. *)
Definition render_page (rq : Submission) : M Response :=
  if String.eqb (method rq) "GET" then
    if marketing rq then respond Marketing 200
    else
      respond (Page None
        match current_user rq with
        | Some u => "Welcome back, " ++ name u ++ "! Ready to render."
        | None => "Upload an STL file to get started. No account required!"
        end) 200
  else
    match upload_filename rq with
    | None => respond (JsonMessage "Please choose an STL file to upload.") 400
    | Some raw =>
        if String.eqb raw EmptyString
        then respond (JsonMessage "Please choose an STL file to upload.") 400
        else
          let filename := secure_filename raw in
          if negb (allowed_file filename)
          then respond (JsonMessage "Only .stl files are supported.") 400
          else
            let workdir := tmp_dir rq in
            let* _ := emit (Mkdtemp workdir) in
            let* _ := modify (set_files (fun fs => fs ∪ {[workdir]})) in
            let input_path := workdir ++ "/" ++ filename in
            let* _ := emit (SaveUpload input_path) in
            let* _ := modify (set_files (fun fs => fs ∪ {[input_path]})) in
            try_except (submit rq workdir input_path)
              (fun exc =>
                 let* _ := rmtree workdir in
                 match exc_kind exc with
                 | FileNotFoundError => respond (JsonMessage (exc_str exc)) 500
                 | ValueError => respond (JsonMessage (exc_str exc)) 400
                 | _ => respond
                          (JsonMessage ("Rendering failed: " ++ exc_str exc)) 500
                 end)
    end.

(** ** Definitions used to state the properties *)

(** The percentage of the specification: [100 * frame / total_frames]
    clamped to [[0, 100]]. *)
Definition clamped_percentage (frame total_frames : Z) : Q :=
  Qmin 100 (Qmax 0 (100 * inject_Z frame / inject_Z total_frames))%Q.

(** The frame index that a stripped, non-blank line carries. *)
Definition frame_of (line : string) : option Z :=
  if Py.startswith line "[AUTO]" then None
  else if Py.startswith line "Fra:" then
    match frame_numbers line with
    | token :: _ => Some (Py.int token)
    | [] => None
    end
  else None.

(** The job after the frame branch has run on it. *)
Definition job_after_frame (total : Z) (m : Monitor) (ev : LineEvent)
    (frame : Z) (j : Job) : Job :=
  let durations := record_duration m frame (now ev) in
  let j1 :=
    set_last_frame frame (now ev)
      (set_message (frame_message frame total (m_axis m))
         (set_progress (progress_of frame total) j)) in
  match eta_after total frame (now ev) durations (Some (now ev)) with
  | Some eta =>
      set_eta_seconds (Some eta)
        (set_avg_frame_time (avg_frame (sample_of durations)) j1)
  | None => set_eta_seconds None j1
  end.

Definition monitor_after_frame (m : Monitor) (ev : LineEvent) (frame : Z) : Monitor :=
  set_frame (record_duration m frame (now ev)) frame (now ev) m.

(** The fields that only the frame branch and the terminal transition
    write. *)
Definition same_but_text (j j' : Job) : Prop :=
  state j' = state j /\ progress j' = progress j
  /\ eta_seconds j' = eta_seconds j
  /\ last_frame_timestamp j' = last_frame_timestamp j
  /\ avg_frame_time j' = avg_frame_time j
  /\ user_id j' = user_id j /\ workdir j' = workdir j
  /\ cleanup_done j' = cleanup_done j.

(** The job once the monitor has consumed the lines [evs], and the
    progress values it shows after the first, the second, ... line. *)
Definition job_after (job_id : string) (total : Z) (m : Monitor)
    (evs : list LineEvent) (w : World) : option Job :=
  ACTIVE_JOBS (snd (monitor_lines job_id total m evs EOF w)) !! job_id.

Definition progress_history (job_id : string) (total : Z) (m : Monitor)
    (evs : list LineEvent) (w : World) : list (option Q) :=
  map (fun k => progress <$> job_after job_id total m (firstn k evs) w)
      (seq 1 (List.length evs)).

(** The recency-weighted mean of the specification: the durations are
    numbered [1..k], oldest first, and weighted by their number. *)
Fixpoint index_weighted_sum (i : Z) (ds : list Q) : Q :=
  match ds with
  | [] => 0
  | d :: rest => d * inject_Z i + index_weighted_sum (i + 1) rest
  end%Q.

Fixpoint index_sum (i : Z) (ds : list Q) : Z :=
  match ds with
  | [] => 0
  | _ :: rest => i + index_sum (i + 1) rest
  end%Z.

Definition recency_weighted_mean (ds : list Q) : Q :=
  (index_weighted_sum 1 ds / inject_Z (index_sum 1 ds))%Q.

(** The estimate of the specification from the durations recorded so
    far, the frame just observed and the time spent on it. *)
Definition eta_of_spec (durations : list Q) (total frame : Z) (elapsed : Q) : Q :=
  Qmax 0 ((5 # 4) * (recency_weighted_mean (Py.last_n 20 durations)
                     * inject_Z (Z.max 0 (total - frame)) + elapsed))%Q.

(** What the loop maintains between the stored ETA and the number of
    recorded durations. *)
Definition eta_guard (m : Monitor) (j : Job) : Prop :=
  (eta_seconds j = None <-> (List.length (frame_durations m) < 5)%nat)
  /\ (forall eta, eta_seconds j = Some eta -> (0 <= eta)%Q).

(** The step between the render and the copy (conversion by the encoder,
    or a move into place) raised nothing. *)
Definition postprocessing_succeeds (m : Monitor) (o : Outcome) : Prop :=
  if m_needs_interpolation m then
    if (m_final_fps m <=? 0)%Z then move_error o = None
    else exists out err, encoder o = Completed 0 out err
  else
    if String.eqb (m_blender_output_path m) (m_output_path m) then True
    else move_error o = None.

(** ** Sample inputs *)

Definition sample_cfg : Config :=
  {| FFMPEG_BIN := "ffmpeg"; STORAGE_ROOT := "/srv/storage";
     TURN_TABLE_SCRIPT := "/srv/turntable.py"; OUTPUT_FORMAT := "mp4";
     RENDER_SECONDS := 10; FINAL_VIDEO_FPS := 25; BASE_RENDER_FPS := 11;
     RENDER_SIZE := 1080; ROTATION_AXIS := "Z"; DEFAULT_QUALITY := "ultra" |}.

(** Stand-ins for the conversions of Python on the inputs used below:
    unsigned decimal numerals convert, everything else is refused. *)
Definition sample_float (s : string) : option Q :=
  if Py.isdigit s then Some (inject_Z (Py.int s)) else None.

Definition sample_int (s : string) : option Z :=
  if Py.isdigit s then Some (Py.int s) else None.

Definition sample_str (x : Q) : string := "0.0".

Definition sample_secure (s : string) : string := s.

Definition sample_id : string := "a1b2c3d4e5f60718".

Definition sample_job (st : State) (uid : option Z) : Job :=
  {| state := st; message := "Launching Blender (Ultra, auto orientation)…";
     progress := 0; output_path := "/tmp/bellarue_1/turntable.mp4";
     workdir := "/tmp/bellarue_1"; video_format := "mp4"; axis := "Z";
     offset := 0; started_at := 1000; eta_seconds := None;
     total_frames := 110; last_frame_index := 0;
     last_frame_timestamp := None; avg_frame_time := None;
     needs_interpolation := true; final_fps := 25;
     blender_output_path := "/tmp/bellarue_1/turntable_base.mp4";
     user_id := uid; cleanup_done := false |}.

(** A job in the middle of a render: frame 40 seen at time 1100, an
    average of one second per frame, 90 seconds estimated. *)
Definition sample_job_midway (uid : option Z) : Job :=
  {| state := running; message := "Rendering frame 40 of 110 (axis Z)";
     progress := 4000 # 110; output_path := "/tmp/bellarue_1/turntable.mp4";
     workdir := "/tmp/bellarue_1"; video_format := "mp4"; axis := "Z";
     offset := 0; started_at := 1000; eta_seconds := Some 90%Q;
     total_frames := 110; last_frame_index := 40;
     last_frame_timestamp := Some 1100%Q; avg_frame_time := Some 1%Q;
     needs_interpolation := true; final_fps := 25;
     blender_output_path := "/tmp/bellarue_1/turntable_base.mp4";
     user_id := uid; cleanup_done := false |}.

Definition sample_render (job_id : string) (uid : Z) (st : State) : Render :=
  {| r_job_id := job_id; r_user_id := Some uid;
     r_file_path := "/tmp/bellarue_1/turntable.mp4"; r_file_size := None;
     r_state := st; r_progress := 0; r_message := EmptyString |}.

Definition sample_world (job : Job) (rows : list Render) : World :=
  {| ACTIVE_JOBS := {[ sample_id := job ]};
     ACTIVE_PROCESSES := {[ sample_id := ["blender"; "-b"] ]};
     renders := rows;
     files := {[ "/tmp/bellarue_1"; "/tmp/bellarue_1/model.stl";
                 "/tmp/bellarue_1/turntable_base.mp4" ]};
     trace := [] |}.

Definition sample_monitor : Monitor :=
  {| m_output_path := "/tmp/bellarue_1/turntable.mp4";
     m_workdir := "/tmp/bellarue_1";
     m_blender_output_path := "/tmp/bellarue_1/turntable_base.mp4";
     m_needs_interpolation := true; m_final_fps := 25;
     m_video_format := "mp4"; m_axis := "Z"; recent_lines := [];
     frame_durations := []; m_last_frame_index := None;
     m_last_frame_timestamp := None |}.

(** The locals after frames 0 to 4 were seen one second apart. *)
Definition warm_monitor : Monitor :=
  {| m_output_path := "/tmp/bellarue_1/turntable.mp4";
     m_workdir := "/tmp/bellarue_1";
     m_blender_output_path := "/tmp/bellarue_1/turntable_base.mp4";
     m_needs_interpolation := true; m_final_fps := 25;
     m_video_format := "mp4"; m_axis := "Z"; recent_lines := [];
     frame_durations := [1; 1; 1; 1]%Q; m_last_frame_index := Some 4%Z;
     m_last_frame_timestamp := Some 1004%Q |}.

Definition line_at (text : string) (t : Q) : LineEvent :=
  {| raw_line := text; now := t; db_error := None |}.

(** Six frame lines one second apart, frames 0 to 5. *)
Definition six_frames : list LineEvent :=
  [line_at "Fra:0 Mem:12.3M" 1000; line_at "Fra:1 Mem:12.3M" 1001;
   line_at "Fra:2 Mem:12.3M" 1002; line_at "Fra:3 Mem:12.3M" 1003;
   line_at "Fra:4 Mem:12.3M" 1004; line_at "Fra:5 Mem:12.3M" 1005].

(** The renderer was killed by [SIGTERM]. *)
Definition killed : Outcome :=
  {| return_code := -15; move_error := None;
     encoder := Completed 0 EmptyString EmptyString; copy_result := Ok 0%Z;
     commit_error := None |}.

(** The renderer succeeded and the encoder failed. *)
Definition encoder_failed : Outcome :=
  {| return_code := 0; move_error := None;
     encoder := Completed 1 EmptyString "Unknown encoder 'libx264'";
     copy_result := Ok 0%Z; commit_error := None |}.

(** The renderer and the encoder succeeded and the copy failed. *)
Definition copy_failed : Outcome :=
  {| return_code := 0; move_error := None;
     encoder := Completed 0 EmptyString EmptyString;
     copy_result := Raise {| exc_kind := OSError;
                             exc_str := "No space left on device" |};
     commit_error := None |}.

(** A submission of [model.stl] with an empty form. *)
Definition sample_submission (who : option User) : Submission :=
  {| method := "POST"; marketing := false; current_user := who;
     upload_filename := Some "model.stl"; form := ∅;
     tmp_dir := "/tmp/bellarue_9"; stl_size := 4096; dev_mode := false;
     blender_bin := Some "/usr/bin/blender"; popen_error := None;
     token := "00ff00ff00ff00ff"; clock := 2000; add_error := None |}.

Definition sample_user : User := {| id := 7; name := "Ada"; tier := "pro" |}.

Definition five_running : list Render :=
  [sample_render "r1" 7 running; sample_render "r2" 7 running;
   sample_render "r3" 7 running; sample_render "r4" 7 running;
   sample_render "r5" 7 running].

(** ** Definitions used to state further properties *)

(** [w'] differs from [w] in the entry of [job_id] (rewritten by some
    function, if it is there), in the render records and in the effects
    performed; every other job, the process handles and the files are
    the same. *)
Definition job_step (job_id : string) (w w' : World) : Prop :=
  (exists F, ACTIVE_JOBS w' = alter F job_id (ACTIVE_JOBS w))
  /\ files w' = files w
  /\ ACTIVE_PROCESSES w' = ACTIVE_PROCESSES w.

(** A computation all of whose runs are such steps. *)
Definition touches_only {A} (job_id : string) (c : M A) : Prop :=
  forall w, job_step job_id w (snd (c w)).

(** The directory deletions among the effects performed so far. *)
Definition is_rmtree (e : Effect) : bool :=
  match e with
  | Rmtree _ => true
  | _ => false
  end.

Definition deletions (w : World) : list Effect :=
  List.filter is_rmtree (trace w).

(** [w'] differs from [w] in the entry of [job_id], in render records,
    files and effects, but keeps every other job and every process
    handle, and no directory was deleted on the way. *)
Definition keeps_handles (job_id : string) (w w' : World) : Prop :=
  (exists F, ACTIVE_JOBS w' = alter F job_id (ACTIVE_JOBS w))
  /\ ACTIVE_PROCESSES w' = ACTIVE_PROCESSES w
  /\ deletions w' = deletions w.

Definition quiet {A} (job_id : string) (c : M A) : Prop :=
  forall w, keeps_handles job_id w (snd (c w)).

(** What an accepted submission leaves behind: the job and the handle of
    its renderer under the token drawn, the renderer started and the
    monitor thread with it, and a row for a signed-in owner. *)
Definition registered (rq : Submission) (wd : string) (uid : option Z)
    (watermark : bool) (w w' : World) : Prop :=
  exists job command row,
    ACTIVE_JOBS w' = <[token rq := job]> (ACTIVE_JOBS w)
    /\ ACTIVE_PROCESSES w' = <[token rq := command]> (ACTIVE_PROCESSES w)
    /\ state job = running /\ progress job = 0%Q
    /\ eta_seconds job = None /\ avg_frame_time job = None
    /\ cleanup_done job = false
    /\ (1 <= total_frames job)%Z
    /\ workdir job = wd /\ user_id job = uid /\ started_at job = clock rq
    /\ trace w'
       = (trace w
          ++ [Print ("[Server] Launching Blender: " ++ join " " command);
              Popen command; StartMonitor (token rq)])%list
    /\ renders w' = (renders w ++ (if truthy_id uid then [row] else []))%list
    /\ r_job_id row = token rq /\ r_state row = running
    /\ r_progress row = 0%Q /\ r_message row = message job
    /\ (watermark = true -> In "--watermark" command).

(** What a refused submission leaves behind: the registry as it was, and
    no path that was not there before. *)
Definition nothing_registered (w w' : World) : Prop :=
  ACTIVE_JOBS w' = ACTIVE_JOBS w
  /\ ACTIVE_PROCESSES w' = ACTIVE_PROCESSES w
  /\ renders w' = renders w.

(** Whether [render_page] asks for the watermark (lines 625-631). *)
Definition needs_watermark (rq : Submission) : bool :=
  if dev_mode rq then false
  else match current_user rq with
       | Some u => String.eqb (tier u) "free"
       | None => true
       end.

(** The owner that [render_page] records for a submission. *)
Definition owner_of (rq : Submission) : option Z :=
  match current_user rq with
  | Some u => Some (id u)
  | None => None
  end.

(** The world once [render_page] has made the workspace and saved the
    upload in it (lines 583-585). *)
Definition uploaded (wd input_path : string) (w : World) : World :=
  {| ACTIVE_JOBS := ACTIVE_JOBS w; ACTIVE_PROCESSES := ACTIVE_PROCESSES w;
     renders := renders w; files := files w ∪ {[wd]} ∪ {[input_path]};
     trace := (trace w ++ [Mkdtemp wd; SaveUpload input_path])%list |}.

(** ** Download *)

(** [can_download] of [license_checker]. *)
Definition can_download (tier : string) : bool :=
  one_of ["pro"; "enterprise"] tier.

(** A request to [/download/<job_id>] with what the handler obtains from
    its environment while serving it: the signed-in principal,
    [MOTIVORA_DEV_MODE], [Path.resolve] ([None] where it raises
    [OSError]), and whether [send_file] raises [FileNotFoundError]. *)
Record DownloadRequest := {
  d_user : option User;
  d_dev_mode : bool;
  d_resolve : string -> option string;
  d_send_fails : bool
}.

(** [get_user_tier]: [pro] for everyone in development mode, [free] for
    an anonymous visitor; for a signed-in principal the [tier] that the
    subscription and licence lookups of lines 134-159 give. *)
Definition get_user_tier (rq : DownloadRequest) : string :=
  if d_dev_mode rq then "pro"
  else match d_user rq with
       | Some u => tier u
       | None => "free"
       end.

Definition user_can_download (rq : DownloadRequest) : bool :=
  can_download (get_user_tier rq).

(** [current_user.is_authenticated]. *)
Definition is_authenticated (rq : DownloadRequest) : bool :=
  match d_user rq with
  | Some _ => true
  | None => false
  end.

(** [render_record.user_id != current_user.id], for a signed-in
    principal. *)
Definition differs_from_user (rq : DownloadRequest) (owner : option Z) : bool :=
  match d_user rq, owner with
  | Some u, Some n => negb (n =? id u)%Z
  | _, _ => true
  end.

(** What [download] answers: the file as an attachment, a JSON refusal
    with status 403 (carrying the upgrade link or not), or the form page
    with a message. *)
Inductive DownloadAnswer :=
| Attachment (path : string)
| Forbidden (message : string) (upgrade_url : bool)
| FormPage (message : string).

Definition send_file (rq : DownloadRequest) (path : string) : M DownloadAnswer :=
  if d_send_fails rq
  then raise FileNotFoundError
         ("[Errno 2] No such file or directory: '" ++ path ++ "'")
  else ret (Attachment path).

(** [except FileNotFoundError: h]; any other exception goes on. *)
Definition except_file_not_found {A} (m : M A) (h : M A) : M A :=
  try_except m
    (fun exc =>
       match exc_kind exc with
       | FileNotFoundError => h
       | _ => fun w => (Raise exc, w)
       end).

(** Lines 917-950: the download of a render that has a record. *)
Definition download_record (rq : DownloadRequest) (render_record : Render)
    : M DownloadAnswer :=
  if truthy_id (r_user_id render_record)
     && (negb (is_authenticated rq)
         || differs_from_user rq (r_user_id render_record))
  then ret (Forbidden "Unauthorized" false)
  else if negb (d_dev_mode rq) && is_authenticated rq
          && negb (user_can_download rq)
  then ret (Forbidden
         "Download requires Pro subscription. Upgrade to download watermark-free videos."
         true)
  else
    let file_path := r_file_path render_record in
    match d_resolve rq file_path, d_resolve rq (STORAGE_ROOT cfg) with
    | Some file_path_resolved, Some storage_root_resolved =>
        if negb (Py.startswith file_path_resolved storage_root_resolved)
        then ret (Forbidden "Invalid file path" false)
        else
          let* sent :=
            except_file_not_found
              (let* present := path_exists file_path in
               if present
               then let* response := send_file rq file_path in
                    ret (Some response)
               else ret None)
              (ret None) in
          match sent with
          | Some response => ret response
          | None => ret (FormPage "Rendered file could not be found.")
          end
    | _, _ => ret (Forbidden "Invalid file path" false)
    end.

(** [if workdir.exists(): shutil.rmtree(workdir, ignore_errors=True)]
    followed by [ACTIVE_JOBS.pop(job_id, None)]. *)
Definition discard_job (job_id : string) (job : Job) : M unit :=
  let* present := path_exists (workdir job) in
  let* _ := when present (rmtree (workdir job)) in
  modify (set_jobs (delete job_id)).

(** Lines 952-1013: the download of a render that is only in the
    registry. The key [cleanup_needed] that line 987 sets is read
    nowhere, and its dictionary is dropped two lines later. The function
    registered with [after_this_request] runs once the view has
    returned. *)
Definition download_job (job_id : string) (rq : DownloadRequest)
    : M DownloadAnswer :=
  let* found := lookup_job job_id in
  match found with
  | None => ret (FormPage "Render job not found.")
  | Some job =>
      if negb (State_eqb (state job) finished)
      then ret (FormPage "Render is not finished yet.")
      else if negb (d_dev_mode rq) && negb (is_authenticated rq)
      then ret (Forbidden
             "Sign up to download videos. Free accounts get watermarked previews. Upgrade to Pro for downloads."
             true)
      else if negb (d_dev_mode rq) && negb (user_can_download rq)
      then ret (Forbidden
             "Download requires Pro subscription. Upgrade to download watermark-free videos."
             true)
      else
        except_file_not_found
          (let* present := path_exists (output_path job) in
           if negb present then
             let* _ := discard_job job_id job in
             ret (FormPage "Rendered file could not be found.")
           else
             let* response := send_file rq (output_path job) in
             let* _ := discard_job job_id job in
             ret response)
          (let* _ := modify (set_jobs (delete job_id)) in
           ret (FormPage "Rendered file could not be found."))
  end.

(** [download]. *)
Definition download (job_id : string) (rq : DownloadRequest) : M DownloadAnswer :=
  let* w := get in
  match render_first job_id (renders w) with
  | Some render_record => download_record rq render_record
  | None => download_job job_id rq
  end.

(** A download request outside development mode, whose paths resolve to
    themselves and whose file can be sent. *)
Definition sample_download (who : option User) : DownloadRequest :=
  {| d_user := who; d_dev_mode := false; d_resolve := fun p => Some p;
     d_send_fails := false |}.

(** A submission of a signed-in owner whose record cannot be inserted. *)
Definition sample_submission_db_down : Submission :=
  {| method := "POST"; marketing := false; current_user := Some sample_user;
     upload_filename := Some "model.stl"; form := ∅;
     tmp_dir := "/tmp/bellarue_9"; stl_size := 4096; dev_mode := false;
     blender_bin := Some "/usr/bin/blender"; popen_error := None;
     token := "00ff00ff00ff00ff"; clock := 2000;
     add_error := Some "database is locked" |}.

(** The renderer failed and the update of the record fails too. *)
Definition failed_and_db_down : Outcome :=
  {| return_code := 1; move_error := None;
     encoder := Completed 0 EmptyString EmptyString; copy_result := Ok 0%Z;
     commit_error := Some "database is locked" |}.

(** A finished anonymous job whose artifact is on disk. *)
Definition sample_finished_world : World :=
  set_files (fun fs => fs ∪ {[ "/tmp/bellarue_1/turntable.mp4" ]})
    (sample_world (sample_job finished None) []).

(** A finished render of owner 7 in durable storage, with its record. *)
Definition stored_render : Render :=
  {| r_job_id := sample_id; r_user_id := Some 7%Z;
     r_file_path := "/srv/storage/renders/a1b2c3d4e5f60718.mp4";
     r_file_size := Some 4096%Z; r_state := finished; r_progress := 100;
     r_message := "Render complete (axis Z)." |}.

Definition stored_world : World :=
  {| ACTIVE_JOBS := ∅; ACTIVE_PROCESSES := ∅; renders := [stored_render];
     files := {[ "/srv/storage/renders/a1b2c3d4e5f60718.mp4" ]};
     trace := [] |}.

(** A job whose renderer writes the final artifact itself (no frame-rate
    conversion), the locals its monitor reads from it, and the world once
    the artifact is written. *)
Definition direct_job : Job :=
  {| state := running; message := "Rendering frame 110 of 110 (axis Z)";
     progress := 100; output_path := "/tmp/bellarue_1/turntable.mp4";
     workdir := "/tmp/bellarue_1"; video_format := "mp4"; axis := "Z";
     offset := 0; started_at := 1000; eta_seconds := Some 0%Q;
     total_frames := 110; last_frame_index := 110;
     last_frame_timestamp := Some 1110%Q; avg_frame_time := Some 1%Q;
     needs_interpolation := false; final_fps := 25;
     blender_output_path := "/tmp/bellarue_1/turntable.mp4";
     user_id := None; cleanup_done := false |}.

Definition direct_monitor : Monitor :=
  {| m_output_path := output_path direct_job;
     m_workdir := workdir direct_job;
     m_blender_output_path := blender_output_path direct_job;
     m_needs_interpolation := needs_interpolation direct_job;
     m_final_fps := final_fps direct_job;
     m_video_format := video_format direct_job; m_axis := axis direct_job;
     recent_lines := ["Fra:110 Mem:12.3M"]; frame_durations := [1; 1; 1; 1; 1]%Q;
     m_last_frame_index := Some 110%Z; m_last_frame_timestamp := Some 1110%Q |}.

Definition rendered_world : World :=
  set_files (fun fs => fs ∪ {[ "/tmp/bellarue_1/turntable.mp4" ]})
    (sample_world direct_job []).

(** * Properties *)

(** ** The Python primitives on examples *)

Example strip_ex : Py.strip "  Fra:12 Mem " = "Fra:12 Mem".
Proof. reflexivity. Qed.

Example split_ex :
  Py.split (Py.replace ":" " " "Fra:12 Mem:3.1M") = ["Fra"; "12"; "Mem"; "3.1M"].
Proof. reflexivity. Qed.

Example int_ex : Py.int "0123" = 123%Z.
Proof. reflexivity. Qed.

Example str_ex : Py.str 110 = "110" /\ Py.str 0 = "0" /\ Py.str (-15) = "-15".
Proof. repeat split; reflexivity. Qed.

Example suffix_ex :
  suffix "/tmp/bellarue_x/turntable.mp4" = ".mp4" /\ suffix "/a.b/c" = EmptyString
  /\ suffix ".profile" = EmptyString.
Proof. repeat split; reflexivity. Qed.

Example frame_of_line_ex :
  frame_of_line "Fra:12 Mem:3.1M (Peak 4M) | Time:00:01.20" = Some 12%Z
  /\ frame_of_line "  Fra: x" = None
  /\ frame_of_line "Saved: 'turntable.mp4'" = None.
Proof. repeat split; reflexivity. Qed.

Example auto_pairs_ex :
  auto_pairs (Py.split (Py.strip_chars "[]" "[AUTO] axis=Z offset=90.0"))
  = Some [("axis", "Z"); ("offset", "90.0")]
  /\ auto_pairs ["a=b=c"] = None.
Proof. repeat split; reflexivity. Qed.

(** ** Arithmetic of [max], [min] and the clamped percentage *)

Lemma Qltb_true (a b : Q) : Py.Qltb a b = true <-> (a < b)%Q.
Proof.
  unfold Py.Qltb. rewrite negb_true_iff.
  split.
  - intros H. apply Qnot_le_lt. intros Hle.
    apply Qle_bool_iff in Hle. congruence.
  - intros H. destruct (Qle_bool b a) eqn:E; [|reflexivity].
    apply Qle_bool_iff in E. exfalso. exact (Qlt_not_le _ _ H E).
Qed.

Lemma Qltb_false (a b : Q) : Py.Qltb a b = false <-> (b <= a)%Q.
Proof.
  unfold Py.Qltb. rewrite negb_false_iff. apply Qle_bool_iff.
Qed.

Lemma py_max_Qmax (a b : Q) : (Py.max a b == Qmax a b)%Q.
Proof.
  unfold Py.max. destruct (Py.Qltb a b) eqn:E.
  - apply Qltb_true in E. symmetry. apply Q.max_r. apply Qlt_le_weak, E.
  - apply Qltb_false in E. symmetry. apply Q.max_l, E.
Qed.

Lemma py_min_Qmin (a b : Q) : (Py.min a b == Qmin a b)%Q.
Proof.
  unfold Py.min. destruct (Py.Qltb b a) eqn:E.
  - apply Qltb_true in E. symmetry. apply Q.min_r. apply Qlt_le_weak, E.
  - apply Qltb_false in E. symmetry. apply Q.min_l, E.
Qed.

Lemma py_max_nonneg (x : Q) : (0 <= Py.max 0 x)%Q.
Proof.
  rewrite py_max_Qmax. apply Q.le_max_l.
Qed.

Lemma progress_of_clamped (frame total : Z) :
  (progress_of frame total == clamped_percentage frame total)%Q.
Proof.
  unfold progress_of, clamped_percentage.
  rewrite py_min_Qmin, py_max_Qmax.
  assert (E : (inject_Z frame / inject_Z total * 100
               == 100 * inject_Z frame / inject_Z total)%Q).
  { unfold Qdiv. ring. }
  rewrite E. reflexivity.
Qed.

Lemma percentage_mono (f1 f2 total : Z) :
  (0 < total)%Z -> (f1 <= f2)%Z ->
  (100 * inject_Z f1 / inject_Z total <= 100 * inject_Z f2 / inject_Z total)%Q.
Proof.
  intros Ht Hf. unfold Qdiv.
  apply Qmult_le_compat_r.
  - apply Qmult_le_l; [reflexivity|]. rewrite <- Zle_Qle. exact Hf.
  - apply Qinv_le_0_compat. change 0%Q with (inject_Z 0).
    rewrite <- Zle_Qle. lia.
Qed.

Lemma clamped_percentage_mono (f1 f2 total : Z) :
  (0 < total)%Z -> (f1 <= f2)%Z ->
  (clamped_percentage f1 total <= clamped_percentage f2 total)%Q.
Proof.
  intros Ht Hf. unfold clamped_percentage.
  apply Q.min_le_compat_l. apply Q.max_le_compat_l.
  apply percentage_mono; assumption.
Qed.

Lemma progress_of_mono (f1 f2 total : Z) :
  (0 < total)%Z -> (f1 <= f2)%Z ->
  (progress_of f1 total <= progress_of f2 total)%Q.
Proof.
  intros Ht Hf. rewrite !progress_of_clamped.
  apply clamped_percentage_mono; assumption.
Qed.

(** ** One iteration of the monitor loop, seen from the job *)

Lemma same_but_text_refl (j : Job) : same_but_text j j.
Proof. repeat split. Qed.

Lemma same_but_text_trans (a b c : Job) :
  same_but_text a b -> same_but_text b c -> same_but_text a c.
Proof.
  unfold same_but_text. intros H1 H2.
  destruct H1 as (?&?&?&?&?&?&?&?), H2 as (?&?&?&?&?&?&?&?).
  repeat split; congruence.
Qed.

Ltac run_monad :=
  unfold bind, ret, raise, update_job, modify, read_job, lookup_job, emit,
    when, get, path_exists, respond; cbn [ACTIVE_JOBS ACTIVE_PROCESSES renders files trace set_jobs set_renders set_files set_processes fst snd].

Lemma on_frame_ok (job_id : string) (total : Z) (m : Monitor) (ev : LineEvent)
    (frame : Z) (w : World) (j : Job) :
  ACTIVE_JOBS w !! job_id = Some j ->
  total <> 0%Z ->
  exists w',
    on_frame job_id total m ev frame w = (Ok (monitor_after_frame m ev frame), w')
    /\ ACTIVE_JOBS w' !! job_id = Some (job_after_frame total m ev frame j)
    /\ files w' = files w
    /\ ACTIVE_PROCESSES w' = ACTIVE_PROCESSES w.
Proof.
  intros Hj Ht. unfold on_frame.
  destruct (total =? 0)%Z eqn:E; [apply Z.eqb_eq in E; contradiction|].
  unfold job_after_frame, monitor_after_frame.
  run_monad.
  rewrite !lookup_alter_eq, Hj. cbn [fmap option_fmap option_map].
  cbn [user_id set_message set_progress m_last_frame_timestamp set_frame].
  assert (Hdb : forall w0 : World, exists w1,
            (if truthy_id (user_id j)
             then db_progress job_id ev (progress_of frame total)
                    (frame_message frame total (m_axis m))
             else ret ()) w0 = (Ok tt, w1)
            /\ ACTIVE_JOBS w1 = ACTIVE_JOBS w0 /\ files w1 = files w0
            /\ ACTIVE_PROCESSES w1 = ACTIVE_PROCESSES w0).
  { intros w0. destruct (truthy_id (user_id j)).
    - unfold db_progress. destruct (db_error ev); run_monad; eauto.
    - run_monad. eauto. }
  match goal with
  | |- context [(if truthy_id _ then _ else _) ?w0] =>
      destruct (Hdb w0) as (w1 & -> & Hjobs & Hfiles & Hprocs)
  end.
  destruct (eta_after total frame (now ev) (record_duration m frame (now ev))
              (Some (now ev))) as [eta|];
    eexists; (split; [reflexivity|]);
    cbn [ACTIVE_JOBS files ACTIVE_PROCESSES set_jobs];
    rewrite ?lookup_alter_eq, Hjobs, Hfiles, Hprocs;
    cbn [ACTIVE_JOBS files ACTIVE_PROCESSES set_jobs];
    rewrite ?lookup_alter_eq, Hj; auto.
Qed.

Lemma on_auto_line_ok (job_id line : string) (w : World) (j : Job) :
  ACTIVE_JOBS w !! job_id = Some j ->
  exists w' j',
    on_auto_line job_id line w = (Ok tt, w')
    /\ ACTIVE_JOBS w' !! job_id = Some j'
    /\ same_but_text j j'
    /\ files w' = files w
    /\ ACTIVE_PROCESSES w' = ACTIVE_PROCESSES w.
Proof.
  intros Hj. unfold on_auto_line.
  destruct (auto_pairs _) as [parts|]; run_monad.
  - destruct (parts_get "axis" parts) as [a|];
      destruct (parts_get "offset" parts) as [o|];
      try destruct (float_of_str o) as [q|];
      run_monad; do 2 eexists; (split; [reflexivity|]);
      cbn [ACTIVE_JOBS files ACTIVE_PROCESSES set_jobs];
      rewrite ?lookup_alter_eq, Hj; (split; [reflexivity|]);
      repeat split.
  - do 2 eexists. split; [reflexivity|].
    cbn [ACTIVE_JOBS files ACTIVE_PROCESSES set_jobs].
    rewrite ?lookup_alter_eq, Hj. split; [reflexivity|]. repeat split.
Qed.

(** What one iteration on the stripped line [line] does to the job and
    to the locals. *)
Lemma on_line_cases (job_id : string) (total : Z) (m : Monitor) (ev : LineEvent)
    (line : string) (w : World) (j : Job) :
  ACTIVE_JOBS w !! job_id = Some j ->
  exists r w' j',
    on_line job_id total m ev line w = (r, w')
    /\ ACTIVE_JOBS w' !! job_id = Some j'
    /\ files w' = files w
    /\ ACTIVE_PROCESSES w' = ACTIVE_PROCESSES w
    /\ ((exists f, frame_of line = Some f /\ total <> 0%Z
                   /\ r = Ok (monitor_after_frame m ev f)
                   /\ j' = job_after_frame total m ev f (set_message line j))
        \/ (frame_of line = None /\ r = Ok m /\ same_but_text j j')
        \/ (exists e, total = 0%Z /\ r = Raise e /\ same_but_text j j')).
Proof.
  intros Hj. unfold on_line, frame_of.
  destruct (Py.startswith line "[AUTO]").
  - destruct (on_auto_line_ok job_id line w j Hj)
      as (w' & j' & Hrun & Hj' & Hsame & Hf & Hp).
    exists (Ok m), w', j'. unfold bind. rewrite Hrun.
    repeat split; auto.
  - destruct (Py.startswith line "Fra:").
    + destruct (frame_numbers line) as [|token rest].
      * run_monad. exists (Ok m), (set_jobs (alter (set_message line) job_id) w),
          (set_message line j).
        cbn [ACTIVE_JOBS files ACTIVE_PROCESSES set_jobs].
        rewrite lookup_alter_eq, Hj. repeat split; auto.
        right. left. repeat split.
      * destruct (Z.eq_dec total 0%Z) as [Ez|Ez].
        -- subst total. unfold on_frame. change (0 =? 0)%Z with true.
           run_monad. do 3 eexists. split; [reflexivity|].
           cbn [ACTIVE_JOBS files ACTIVE_PROCESSES set_jobs].
           rewrite lookup_alter_eq, Hj. repeat split; auto.
           right. right. eexists. repeat split.
        -- unfold bind at 1. unfold update_job at 1. unfold modify at 1.
           assert (Hj1 : ACTIVE_JOBS (set_jobs (alter (set_message line) job_id) w)
                           !! job_id = Some (set_message line j)).
           { cbn [ACTIVE_JOBS set_jobs]. rewrite lookup_alter_eq, Hj. reflexivity. }
           destruct (on_frame_ok job_id total m ev (Py.int token) _ _ Hj1 Ez)
             as (w' & Hrun & Hj' & Hf & Hp).
           exists (Ok (monitor_after_frame m ev (Py.int token))), w',
             (job_after_frame total m ev (Py.int token) (set_message line j)).
           repeat split; auto.
           left. exists (Py.int token). repeat split; auto.
    + run_monad. exists (Ok m), (set_jobs (alter (set_message line) job_id) w),
        (set_message line j).
      cbn [ACTIVE_JOBS files ACTIVE_PROCESSES set_jobs].
      rewrite lookup_alter_eq, Hj. repeat split; auto.
      right. left. repeat split.
Qed.

(** ** The loop as a whole *)

(** An invariant rule for the loop: a property of the locals and the job
    that the bookkeeping of [recent_lines], the writes of text fields and
    the frame branch preserve holds when the loop is left; the loop keeps
    the job registered and touches neither files nor process handles, and
    with a non-zero frame count it is only left at the end of the
    stream. *)
Lemma monitor_lines_invariant (P : Monitor -> Job -> Prop)
    (job_id : string) (total : Z) (fin : StreamEnd) :
  (forall m j line,
      P m j -> P (set_recent_lines (push_bounded 10 line (recent_lines m)) m) j) ->
  (forall m j j', P m j -> same_but_text j j' -> P m j') ->
  (forall m j ev f,
      P m j -> total <> 0%Z ->
      P (monitor_after_frame m ev f) (job_after_frame total m ev f j)) ->
  forall evs m w j,
    ACTIVE_JOBS w !! job_id = Some j -> P m j ->
    exists m' exc w' j',
      monitor_lines job_id total m evs fin w = ((m', exc), w')
      /\ ACTIVE_JOBS w' !! job_id = Some j'
      /\ P m' j'
      /\ files w' = files w
      /\ ACTIVE_PROCESSES w' = ACTIVE_PROCESSES w
      /\ (total <> 0%Z -> fin = EOF -> exc = None).
Proof.
  intros Hrec Htext Hframe evs.
  induction evs as [|ev rest IH]; intros m w j Hj HP.
  - cbn [monitor_lines]. destruct fin as [|e].
    + exists m, None, w, j. repeat split; auto.
    + exists m, (Some e), w, j. repeat split; auto. discriminate.
  - cbn [monitor_lines].
    destruct (String.eqb (Py.strip (raw_line ev)) EmptyString) eqn:Eblank.
    + apply (IH m w j); assumption.
    + set (line := Py.strip (raw_line ev)) in *.
      set (m1 := set_recent_lines (push_bounded 10 line (recent_lines m)) m).
      destruct (on_line_cases job_id total m1 ev line w j Hj)
        as (r & w1 & j1 & Hrun & Hj1 & Hf1 & Hp1 & Hcases).
      rewrite Hrun.
      assert (HP1 : P m1 j) by (apply Hrec; exact HP).
      destruct Hcases as [(f & _ & Ht & -> & ->)|[(_ & -> & Hsame)|(e & Ht & -> & Hsame)]].
      * destruct (IH (monitor_after_frame m1 ev f) w1 _ Hj1)
          as (m' & exc & w' & j' & Hrun' & Hj' & HP' & Hf' & Hp' & Hexc).
        { apply (Hframe m1 (set_message line j) ev f); [|exact Ht].
          apply (Htext m1 j (set_message line j)); [exact HP1|]. repeat split. }
        exists m', exc, w', j'. repeat split; auto; congruence.
      * destruct (IH m1 w1 j1 Hj1)
          as (m' & exc & w' & j' & Hrun' & Hj' & HP' & Hf' & Hp' & Hexc).
        { apply (Htext m1 j j1); assumption. }
        exists m', exc, w', j'. repeat split; auto; congruence.
      * exists m1, (Some e), w1, j1. repeat split; auto.
        -- apply (Htext m1 j j1); assumption.
        -- intros Hne. contradiction.
Qed.

Lemma monitor_lines_app (job_id : string) (total : Z) (fin : StreamEnd)
    (l1 l2 : list LineEvent) (m : Monitor) (w : World) :
  monitor_lines job_id total m (l1 ++ l2)%list fin w =
  match monitor_lines job_id total m l1 EOF w with
  | ((m1, None), w1) => monitor_lines job_id total m1 l2 fin w1
  | ((m1, Some e), w1) => ((m1, Some e), w1)
  end.
Proof.
  revert m w. induction l1 as [|ev rest IH]; intros m w.
  - reflexivity.
  - cbn [monitor_lines app].
    destruct (String.eqb (Py.strip (raw_line ev)) EmptyString); [apply IH|].
    destruct (on_line _ _ _ _ _ _) as [[m2|e] w2]; [apply IH|reflexivity].
Qed.

(** The loop with a non-zero frame count runs to the end of the stream. *)
Lemma monitor_lines_runs (job_id : string) (total : Z) (evs : list LineEvent)
    (m : Monitor) (w : World) (j : Job) :
  ACTIVE_JOBS w !! job_id = Some j -> total <> 0%Z ->
  exists m' w' j',
    monitor_lines job_id total m evs EOF w = ((m', None), w')
    /\ ACTIVE_JOBS w' !! job_id = Some j'.
Proof.
  intros Hj Ht.
  destruct (monitor_lines_invariant (fun _ _ => True) job_id total EOF
              ltac:(auto) ltac:(auto) ltac:(auto) evs m w j Hj I)
    as (m' & exc & w' & j' & Hrun & Hj' & _ & _ & _ & Hexc).
  rewrite (Hexc Ht eq_refl) in Hrun. eauto.
Qed.

(** ** Progress along a stream of frame lines *)

Lemma frame_of_line_strip (raw : string) (f : Z) :
  frame_of_line raw = Some f ->
  String.eqb (Py.strip raw) EmptyString = false /\ frame_of (Py.strip raw) = Some f.
Proof.
  unfold frame_of_line, frame_of.
  destruct (String.eqb (Py.strip raw) EmptyString); [discriminate|].
  intros H. split; [reflexivity|exact H].
Qed.

Lemma monitor_lines_frame_line (job_id : string) (total : Z) (m : Monitor)
    (ev : LineEvent) (f : Z) (w : World) (j : Job) :
  ACTIVE_JOBS w !! job_id = Some j -> total <> 0%Z ->
  frame_of_line (raw_line ev) = Some f ->
  let line := Py.strip (raw_line ev) in
  let m1 := set_recent_lines (push_bounded 10 line (recent_lines m)) m in
  exists w',
    monitor_lines job_id total m [ev] EOF w
    = ((monitor_after_frame m1 ev f, None), w')
    /\ ACTIVE_JOBS w' !! job_id
       = Some (job_after_frame total m1 ev f (set_message line j)).
Proof.
  intros Hj Ht Hfr line m1.
  destruct (frame_of_line_strip _ _ Hfr) as [Hblank Hfo].
  cbn [monitor_lines]. rewrite Hblank. fold line. fold m1.
  destruct (on_line_cases job_id total m1 ev line w j Hj)
    as (r & w1 & j1 & Hrun & Hj1 & _ & _ & Hcases).
  rewrite Hrun.
  destruct Hcases as [(f' & Hf' & _ & -> & ->)|[(Hnone & _)|(e & Hz & _)]].
  - fold line in Hfo. rewrite Hfo in Hf'. injection Hf' as <-.
    exists w1. split; [reflexivity|exact Hj1].
  - fold line in Hfo. congruence.
  - contradiction.
Qed.

Lemma progress_after_frame (total : Z) (m : Monitor) (ev : LineEvent)
    (f : Z) (j : Job) :
  progress (job_after_frame total m ev f j) = progress_of f total.
Proof.
  unfold job_after_frame. destruct (eta_after _ _ _ _ _); reflexivity.
Qed.

(** After a stream that ends with a frame line, the progress is the
    clamped percentage of that line's frame index. *)
Lemma job_after_snoc_frame (job_id : string) (total : Z) (m : Monitor)
    (pre : list LineEvent) (ev : LineEvent) (f : Z) (w : World) (j : Job) :
  ACTIVE_JOBS w !! job_id = Some j -> total <> 0%Z ->
  frame_of_line (raw_line ev) = Some f ->
  progress <$> job_after job_id total m (pre ++ [ev])%list w
  = Some (progress_of f total).
Proof.
  intros Hj Ht Hfr. unfold job_after. rewrite monitor_lines_app.
  destruct (monitor_lines_runs job_id total pre m w j Hj Ht)
    as (m1 & w1 & j1 & Hrun & Hj1).
  rewrite Hrun.
  destruct (monitor_lines_frame_line job_id total m1 ev f w1 j1 Hj1 Ht Hfr)
    as (w2 & Hrun2 & Hj2).
  rewrite Hrun2. cbn [snd]. rewrite Hj2. cbn [fmap option_fmap option_map].
  rewrite progress_after_frame. reflexivity.
Qed.

Lemma progress_history_snoc (job_id : string) (total : Z) (m : Monitor)
    (pre : list LineEvent) (ev : LineEvent) (w : World) :
  progress_history job_id total m (pre ++ [ev])%list w
  = (progress_history job_id total m pre w
     ++ [progress <$> job_after job_id total m (pre ++ [ev])%list w])%list.
Proof.
  unfold progress_history.
  rewrite length_app. cbn [List.length].
  rewrite seq_app, map_app. cbn [seq map].
  f_equal.
  - apply map_ext_in. intros k Hk. apply in_seq in Hk.
    rewrite firstn_app.
    replace (k - List.length pre)%nat with 0%nat by lia.
    cbn [firstn]. rewrite app_nil_r. reflexivity.
  - replace (1 + List.length pre)%nat with (List.length (pre ++ [ev])%list)
      by (rewrite length_app; cbn; lia).
    rewrite firstn_all. reflexivity.
Qed.

Lemma progress_history_frames (job_id : string) (total : Z) (m : Monitor)
    (w : World) (j : Job) (evs : list LineEvent) (frames : list Z) :
  ACTIVE_JOBS w !! job_id = Some j -> total <> 0%Z ->
  Forall2 (fun ev f => frame_of_line (raw_line ev) = Some f) evs frames ->
  progress_history job_id total m evs w
  = map (fun f => Some (progress_of f total)) frames.
Proof.
  intros Hj Ht. revert frames.
  induction evs as [|ev pre IH] using rev_ind; intros frames HF.
  - inversion HF. reflexivity.
  - apply Forall2_app_inv_l in HF.
    destruct HF as (fs1 & fs2 & H1 & H2 & ->).
    inversion H2 as [|? f ? ? Hf Hnil]; subst. inversion Hnil; subst.
    rewrite progress_history_snoc, (IH fs1 H1), map_app.
    cbn [map]. f_equal. f_equal.
    apply (job_after_snoc_frame job_id total m pre ev f w j); assumption.
Qed.

Lemma progress_of_sorted (total : Z) (frames : list Z) :
  (0 < total)%Z ->
  StronglySorted Z.le frames ->
  StronglySorted Qle (map (fun f => progress_of f total) frames).
Proof.
  intros Ht Hs. induction Hs as [|f fs Hs IH Hall]; cbn [map].
  - constructor.
  - constructor; [exact IH|].
    apply Forall_map. eapply Forall_impl; [exact Hall|].
    intros g Hg. cbn beta. apply progress_of_mono; assumption.
Qed.

Lemma sorted_lt_le (frames : list Z) :
  StronglySorted Z.lt frames -> StronglySorted Z.le frames.
Proof.
  intros Hs. induction Hs as [|f fs Hs IH Hall]; constructor; auto.
  eapply Forall_impl; [exact Hall|]. intros; lia.
Qed.

(** C3. For every sequence of frame-progress lines with strictly
    increasing frame indices delivered to the monitor of a job with a
    fixed positive [total_frames], the progress of the job after each
    line is [100 * frame / total_frames] clamped to [[0, 100]], where
    [frame] is the first all-digit token of the line once [':'] is
    replaced by a space, and the progress values are non-decreasing. *)
Theorem progress_follows_increasing_frames (job_id : string) (total : Z)
    (m : Monitor) (w : World) (j : Job) (evs : list LineEvent)
    (frames : list Z) :
  ACTIVE_JOBS w !! job_id = Some j ->
  (0 < total)%Z ->
  Forall2 (fun ev f => frame_of_line (raw_line ev) = Some f) evs frames ->
  StronglySorted Z.lt frames ->
  exists ps : list Q,
    progress_history job_id total m evs w = map Some ps
    /\ Forall2 (fun p f => (p == clamped_percentage f total)%Q) ps frames
    /\ StronglySorted Qle ps.
Proof.
  intros Hj Ht HF Hs.
  exists (map (fun f => progress_of f total) frames).
  split; [|split].
  - rewrite (progress_history_frames job_id total m w j evs frames Hj);
      [|lia|exact HF].
    rewrite map_map. reflexivity.
  - clear. induction frames as [|f fs IH]; cbn [map]; constructor.
    + apply progress_of_clamped.
    + exact IH.
  - apply progress_of_sorted; [exact Ht|]. apply sorted_lt_le, Hs.
Qed.

(** C4, as amended. For every sequence of frame-progress lines
    delivered to the monitor whose frame indices never decrease, the
    progress of the job never decreases across the updates. *)
Theorem progress_monotone_for_ordered_frames (job_id : string) (total : Z)
    (m : Monitor) (w : World) (j : Job) (evs : list LineEvent)
    (frames : list Z) :
  ACTIVE_JOBS w !! job_id = Some j ->
  (0 < total)%Z ->
  Forall2 (fun ev f => frame_of_line (raw_line ev) = Some f) evs frames ->
  StronglySorted Z.le frames ->
  exists ps : list Q,
    progress_history job_id total m evs w = map Some ps
    /\ StronglySorted Qle ps.
Proof.
  intros Hj Ht HF Hs.
  exists (map (fun f => progress_of f total) frames). split.
  - rewrite (progress_history_frames job_id total m w j evs frames Hj);
      [|lia|exact HF].
    rewrite map_map. reflexivity.
  - apply progress_of_sorted; assumption.
Qed.

(** ** The estimator against its description *)

Lemma fold_left_Qplus (l : list Q) (a : Q) :
  (fold_left Qplus l a == a + fold_left Qplus l 0)%Q.
Proof.
  revert a. induction l as [|x l IH]; intros a; cbn [fold_left].
  - ring.
  - rewrite (IH (a + x)%Q), (IH (0 + x)%Q). ring.
Qed.

Lemma fold_left_Zadd (l : list Z) (a : Z) :
  fold_left Z.add l a = (a + fold_left Z.add l 0)%Z.
Proof.
  revert a. induction l as [|x l IH]; intros a; cbn [fold_left].
  - lia.
  - rewrite (IH (a + x)%Z), (IH (0 + x)%Z). lia.
Qed.

Lemma weighted_sum_from (s : nat) (ds : list Q) :
  (fold_left Qplus
     (map (fun dw => fst dw * inject_Z (snd dw))
        (combine ds (map (fun i => (Z.of_nat i + 1)%Z) (seq s (List.length ds)))))
     0
   == index_weighted_sum (Z.of_nat s + 1) ds)%Q.
Proof.
  revert s. induction ds as [|d ds IH]; intros s.
  - reflexivity.
  - cbn [List.length seq map combine fold_left index_weighted_sum fst snd].
    rewrite fold_left_Qplus, (IH (S s)).
    replace (Z.of_nat (S s) + 1)%Z with (Z.of_nat s + 1 + 1)%Z by lia.
    ring.
Qed.

Lemma weight_total_from (s : nat) (ds : list Q) :
  fold_left Z.add (map (fun i => (Z.of_nat i + 1)%Z) (seq s (List.length ds))) 0%Z
  = index_sum (Z.of_nat s + 1) ds.
Proof.
  revert s. induction ds as [|d ds IH]; intros s.
  - reflexivity.
  - cbn [List.length seq map fold_left index_sum].
    rewrite fold_left_Zadd, (IH (S s)).
    replace (Z.of_nat (S s) + 1)%Z with (Z.of_nat s + 1 + 1)%Z by lia.
    lia.
Qed.

Lemma avg_frame_is_weighted_mean (ds : list Q) :
  (avg_frame ds == recency_weighted_mean ds)%Q.
Proof.
  unfold avg_frame, recency_weighted_mean, weighted_sum, weight_total, weights.
  rewrite (weighted_sum_from 0 ds), (weight_total_from 0 ds).
  reflexivity.
Qed.

Lemma sample_of_last_20 (ds : list Q) : sample_of ds = Py.last_n 20 ds.
Proof.
  unfold sample_of, Py.last_n.
  destruct (20 <? List.length ds)%nat eqn:E; [reflexivity|].
  apply Nat.ltb_ge in E.
  replace (List.length ds - 20)%nat with 0%nat by lia. reflexivity.
Qed.

Lemma eta_seconds_after_frame (total : Z) (m : Monitor) (ev : LineEvent)
    (f : Z) (j : Job) :
  eta_seconds (job_after_frame total m ev f j)
  = eta_after total f (now ev) (record_duration m f (now ev)) (Some (now ev)).
Proof.
  unfold job_after_frame. destruct (eta_after _ _ _ _ _); reflexivity.
Qed.

Lemma last_timestamp_after_frame (total : Z) (m : Monitor) (ev : LineEvent)
    (f : Z) (j : Job) :
  last_frame_timestamp (job_after_frame total m ev f j) = Some (now ev).
Proof.
  unfold job_after_frame. destruct (eta_after _ _ _ _ _); reflexivity.
Qed.

Lemma eta_after_spec (total f : Z) (t : Q) (durations : list Q) :
  (5 <= List.length durations)%nat ->
  exists eta,
    eta_after total f t durations (Some t) = Some eta
    /\ (eta == eta_of_spec durations total f (t - t))%Q.
Proof.
  intros Hlen. unfold eta_after.
  destruct (5 <=? List.length durations)%nat eqn:E;
    [|apply Nat.leb_gt in E; lia].
  eexists. split; [reflexivity|].
  unfold eta_estimate, eta_of_spec, frames_remaining.
  rewrite py_max_Qmax, sample_of_last_20, avg_frame_is_weighted_mean.
  apply Q.max_compat; [reflexivity|].
  destruct (Py.truthy t); ring.
Qed.

(** C2. Whenever at least 5 inter-frame durations are recorded, the ETA
    stored after a frame observation is
    [max(0, 1.25 * (avg * frames_remaining + elapsed_on_current_frame))],
    with [avg] the recency-weighted mean of the last at most 20
    durations and [frames_remaining = max(0, total_frames - frame)]; for
    five durations of one second, 10 frames in total and frame 5, the
    average is 1 and the ETA is 6.25. *)
Theorem eta_formula_after_warmup (job_id : string) (total : Z) (m : Monitor)
    (ev : LineEvent) (f : Z) (w : World) (j : Job) :
  ACTIVE_JOBS w !! job_id = Some j ->
  (0 < total)%Z ->
  frame_of_line (raw_line ev) = Some f ->
  (exists m' w' j',
      monitor_lines job_id total m [ev] EOF w = ((m', None), w')
      /\ ACTIVE_JOBS w' !! job_id = Some j'
      /\ ((5 <= List.length (frame_durations m'))%nat ->
          exists eta last_ts,
            eta_seconds j' = Some eta
            /\ last_frame_timestamp j' = Some last_ts
            /\ (eta == eta_of_spec (frame_durations m') total f
                         (now ev - last_ts))%Q))
  /\ (avg_frame (sample_of [1; 1; 1; 1; 1]) == 1)%Q
  /\ (forall t, exists eta,
         eta_after 10 5 t [1; 1; 1; 1; 1]%Q (Some t) = Some eta
         /\ (eta == 25 # 4)%Q).
Proof.
  intros Hj Ht Hfr. split; [|split].
  - destruct (monitor_lines_frame_line job_id total m ev f w j Hj
                ltac:(lia) Hfr) as (w' & Hrun & Hj').
    do 3 eexists. split; [exact Hrun|]. split; [exact Hj'|].
    intros Hlen. cbn [monitor_after_frame frame_durations set_frame] in Hlen.
    unfold monitor_after_frame in Hlen. cbn [frame_durations set_frame] in Hlen.
    destruct (eta_after_spec total f (now ev) _ Hlen) as (eta & Heta & Heq).
    exists eta, (now ev).
    rewrite eta_seconds_after_frame, last_timestamp_after_frame.
    split; [exact Heta|]. split; [reflexivity|].
    unfold monitor_after_frame. cbn [frame_durations set_frame]. exact Heq.
  - vm_compute. reflexivity.
  - intros t.
    destruct (eta_after_spec 10 5 t [1; 1; 1; 1; 1]%Q ltac:(cbn; lia))
      as (eta & Heta & Heq).
    exists eta. split; [exact Heta|]. rewrite Heq.
    unfold eta_of_spec.
    assert (E : (recency_weighted_mean (Py.last_n 20 [1; 1; 1; 1; 1]) == 1)%Q)
      by (vm_compute; reflexivity).
    rewrite E.
    assert (E2 : ((5 # 4) * (1 * inject_Z (Z.max 0 (10 - 5)) + (t - t))
                  == 25 # 4)%Q).
    { change (inject_Z (Z.max 0 (10 - 5))) with (5 # 1). ring. }
    rewrite E2. apply Q.max_r. discriminate.
Qed.

(** ** The cold-start guard *)

Lemma push_bounded_length {A} (cap : nat) (x : A) (xs : list A) :
  List.length (push_bounded cap x xs)
  = if (cap <? S (List.length xs))%nat then List.length xs
    else S (List.length xs).
Proof.
  unfold push_bounded.
  rewrite length_app. cbn [List.length].
  replace (List.length xs + 1)%nat with (S (List.length xs)) by lia.
  destruct (cap <? S (List.length xs))%nat; [|rewrite length_app; cbn; lia].
  destruct xs; cbn; [reflexivity|]. rewrite length_app. cbn. lia.
Qed.

Lemma record_duration_length (m : Monitor) (f : Z) (t : Q) :
  (5 <= List.length (frame_durations m))%nat ->
  (5 <= List.length (record_duration m f t))%nat.
Proof.
  intros H. unfold record_duration.
  destruct (m_last_frame_index m) as [last|]; [|exact H].
  destruct ((last <? f)%Z && Py.truthy_opt (m_last_frame_timestamp m));
    [|exact H].
  destruct (m_last_frame_timestamp m) as [ts|]; [|exact H].
  destruct (Py.Qltb 0 (t - ts)); [|exact H].
  rewrite push_bounded_length.
  destruct (20 <? S (List.length (frame_durations m)))%nat; lia.
Qed.

Lemma eta_guard_frame (total : Z) (m : Monitor) (ev : LineEvent) (f : Z) (j : Job) :
  eta_guard (monitor_after_frame m ev f) (job_after_frame total m ev f j).
Proof.
  unfold eta_guard. rewrite eta_seconds_after_frame.
  unfold monitor_after_frame. cbn [frame_durations set_frame].
  unfold eta_after.
  destruct (5 <=? List.length (record_duration m f (now ev)))%nat eqn:E.
  - apply Nat.leb_le in E. split.
    + split; [discriminate|lia].
    + intros eta [= <-]. apply py_max_nonneg.
  - apply Nat.leb_gt in E. split.
    + split; auto.
    + discriminate.
Qed.

Lemma durations_stay_warm (job_id : string) (total : Z) (fin : StreamEnd)
    (evs : list LineEvent) (m : Monitor) (w : World) (j : Job) :
  ACTIVE_JOBS w !! job_id = Some j ->
  (5 <= List.length (frame_durations m))%nat ->
  (5 <= List.length
          (frame_durations (fst (fst (monitor_lines job_id total m evs fin w)))))%nat.
Proof.
  intros Hj Hm.
  destruct (monitor_lines_invariant
              (fun m _ => (5 <= List.length (frame_durations m))%nat)
              job_id total fin) with (evs := evs) (m := m) (w := w) (j := j)
    as (m' & exc & w' & j' & Hrun & _ & HP & _); auto.
  - intros m0 j0 ev f H _. unfold monitor_after_frame.
    cbn [frame_durations set_frame]. apply record_duration_length, H.
  - rewrite Hrun. exact HP.
Qed.

(** C7. From the start of monitoring (no duration recorded, no ETA
    stored), the stored ETA is null exactly while fewer than 5
    inter-frame durations are recorded; once 5 are recorded the count
    stays at 5 or more, and every ETA the monitor stores is a
    non-negative number. *)
Theorem eta_null_until_five_durations (job_id : string) (total : Z)
    (fin : StreamEnd) (evs : list LineEvent) (m : Monitor) (w : World) (j : Job) :
  ACTIVE_JOBS w !! job_id = Some j ->
  eta_seconds j = None ->
  frame_durations m = [] ->
  exists m' exc w' j',
    monitor_lines job_id total m evs fin w = ((m', exc), w')
    /\ ACTIVE_JOBS w' !! job_id = Some j'
    /\ (eta_seconds j' = None <-> (List.length (frame_durations m') < 5)%nat)
    /\ ((5 <= List.length (frame_durations m'))%nat ->
        exists eta, eta_seconds j' = Some eta /\ (0 <= eta)%Q)
    /\ (forall pre suf,
           evs = (pre ++ suf)%list ->
           (5 <= List.length
                   (frame_durations
                      (fst (fst (monitor_lines job_id total m pre EOF w)))))%nat ->
           (5 <= List.length (frame_durations m'))%nat).
Proof.
  intros Hj Heta Hm.
  destruct (monitor_lines_invariant eta_guard job_id total fin)
    with (evs := evs) (m := m) (w := w) (j := j)
    as (m' & exc & w' & j' & Hrun & Hj' & [Hiff Hpos] & _); auto.
  - intros m0 j0 j1 [H1 H2] (_ & _ & He & _). unfold eta_guard.
    rewrite He. split; assumption.
  - intros m0 j0 ev f _ _. apply eta_guard_frame.
  - unfold eta_guard. rewrite Heta, Hm. cbn. split; [|discriminate].
    split; [lia|reflexivity].
  - exists m', exc, w', j'. split; [exact Hrun|]. split; [exact Hj'|].
    split; [exact Hiff|]. split.
    + intros Hlen. destruct (eta_seconds j') as [eta|] eqn:E.
      * exists eta. split; [reflexivity|]. apply Hpos. reflexivity.
      * exfalso. assert (List.length (frame_durations m') < 5)%nat
          by (apply Hiff; reflexivity). lia.
    + intros pre suf -> Hpre.
      rewrite monitor_lines_app in Hrun.
      destruct (monitor_lines job_id total m pre EOF w)
        as [[m1 [e|]] w1] eqn:E1; cbn [fst] in Hpre.
      * injection Hrun as <- _ _. exact Hpre.
      * destruct (monitor_lines_invariant (fun _ _ => True) job_id total EOF
                    ltac:(auto) ltac:(auto) ltac:(auto) pre m w j Hj I)
          as (m1' & exc1 & w1' & j1 & Hrun1 & Hj1 & _).
        rewrite E1 in Hrun1. injection Hrun1 as <- _ <-.
        pose proof (durations_stay_warm job_id total fin suf m1 w1 j1 Hj1 Hpre)
          as Hwarm.
        rewrite Hrun in Hwarm. exact Hwarm.
Qed.

(** ** The terminal transition *)

Ltac run_all := unfold rmtree, emit, respond; run_monad.

Ltac simpl_world :=
  cbn [ACTIVE_JOBS ACTIVE_PROCESSES renders files trace
       set_jobs set_renders set_files set_processes].

Ltac job_lookup H :=
  simpl_world; rewrite ?lookup_alter_eq, ?H;
  cbn [fmap option_fmap option_map].

(** C5. When the renderer exits with code 0, its output artifact exists,
    frame-rate conversion is configured and the encoder it invokes exits
    non-zero, the job ends in state [error], with a message that records
    the post-processing failure and the encoder's output. *)
Theorem encoder_failure_marks_error (job_id : string) (m : Monitor) (o : Outcome)
    (w : World) (j : Job) (rc : Z) (out err : string) :
  ACTIVE_JOBS w !! job_id = Some j ->
  return_code o = 0%Z ->
  m_blender_output_path m ∈ files w ->
  m_needs_interpolation m = true ->
  (0 < m_final_fps m)%Z ->
  encoder o = Completed rc out err ->
  rc <> 0%Z ->
  exists r w' j',
    monitor_finally job_id m o w = (r, w')
    /\ ACTIVE_JOBS w' !! job_id = Some j'
    /\ state j' = error
    /\ message j'
       = "Post-processing failed: FFmpeg interpolation failed (" ++ Py.str rc
         ++ "). Command: "
         ++ join " " (encoder_cmd (m_blender_output_path m) (m_output_path m)
                        (m_final_fps m) (m_video_format m))
         ++ nl ++ "Stdout: " ++ out ++ nl ++ "Stderr: " ++ err
    /\ eta_seconds j' = None
    /\ progress j' = progress j.
Proof.
  intros Hj Hrc Hex Hni Hfps Henc Hnz.
  unfold monitor_finally, on_success, try_except, _interpolate_video.
  rewrite Hrc, Hni, Henc.
  assert (Efps : (m_final_fps m <=? 0)%Z = false) by (apply Z.leb_gt; exact Hfps).
  assert (Erc : negb (rc =? 0)%Z = true)
    by (apply negb_true_iff, Z.eqb_neq; exact Hnz).
  rewrite Efps, Erc.
  run_all.
  rewrite (bool_decide_eq_true_2 _ Hex).
  cbn [andb Z.eqb].
  rewrite !lookup_alter_eq, Hj. cbn [fmap option_fmap option_map].
  cbn [user_id mark_error set_eta_seconds set_progress set_message set_state].
  destruct (truthy_id (user_id j)) eqn:Eu.
  - unfold db_mark_error. destruct (commit_error o) as [e|] eqn:Ec.
    + run_all. do 3 eexists. split; [reflexivity|].
      job_lookup Hj. split; [reflexivity|]. repeat split.
    + run_all. job_lookup Hj. cbn [state State_eqb mark_error set_eta_seconds
        set_progress set_message set_state].
      do 3 eexists. split; [reflexivity|].
      job_lookup Hj. split; [reflexivity|]. repeat split.
  - run_all. job_lookup Hj. cbn [state State_eqb mark_error set_eta_seconds
      set_progress set_message set_state].
    do 3 eexists. split; [reflexivity|].
    job_lookup Hj. split; [reflexivity|]. repeat split.
Qed.

(** C6. For an owned job whose renderer exits with code 0, whose
    artifact exists and whose post-processing succeeds, a failure of the
    copy into durable storage leaves the outcome as it is: the job ends
    in state [finished] with progress 100 and an ETA of 0. *)
Theorem copy_failure_keeps_finished (job_id : string) (m : Monitor) (o : Outcome)
    (w : World) (j : Job) (e : Exc) :
  ACTIVE_JOBS w !! job_id = Some j ->
  truthy_id (user_id j) = true ->
  return_code o = 0%Z ->
  m_blender_output_path m ∈ files w ->
  postprocessing_succeeds m o ->
  copy_result o = Raise e ->
  exists w' j',
    monitor_finally job_id m o w = (Ok tt, w')
    /\ ACTIVE_JOBS w' !! job_id = Some j'
    /\ state j' = finished
    /\ progress j' = 100%Q
    /\ eta_seconds j' = Some 0%Q.
Proof.
  intros Hj Hu Hrc Hex Hpost Hcopy.
  unfold monitor_finally, on_success, try_except, _interpolate_video, persist,
    move.
  unfold postprocessing_succeeds in Hpost.
  rewrite Hrc, Hcopy.
  destruct (m_needs_interpolation m).
  - destruct (m_final_fps m <=? 0)%Z.
    + rewrite Hpost. run_all. rewrite (bool_decide_eq_true_2 _ Hex).
      cbn [andb Z.eqb]. job_lookup Hj.
      cbn [user_id set_message]. rewrite Hu.
      job_lookup Hj. cbn [state mark_finished set_eta_seconds set_progress
        set_message set_state State_eqb].
      do 2 eexists. split; [reflexivity|]. job_lookup Hj.
      split; [reflexivity|]. repeat split.
    + destruct Hpost as (out & err & ->). run_all.
      rewrite (bool_decide_eq_true_2 _ Hex).
      cbn [andb Z.eqb negb]. job_lookup Hj.
      cbn [user_id set_message]. rewrite Hu.
      job_lookup Hj. cbn [state mark_finished set_eta_seconds set_progress
        set_message set_state State_eqb].
      do 2 eexists. split; [reflexivity|]. job_lookup Hj.
      split; [reflexivity|]. repeat split.
  - destruct (String.eqb (m_blender_output_path m) (m_output_path m)).
    + run_all. rewrite (bool_decide_eq_true_2 _ Hex).
      cbn [andb Z.eqb negb]. job_lookup Hj. rewrite Hu.
      job_lookup Hj. cbn [state mark_finished set_eta_seconds set_progress
        set_message set_state State_eqb].
      do 2 eexists. split; [reflexivity|]. job_lookup Hj.
      split; [reflexivity|]. repeat split.
    + rewrite Hpost. run_all. rewrite (bool_decide_eq_true_2 _ Hex).
      cbn [andb Z.eqb negb]. job_lookup Hj. rewrite Hu.
      job_lookup Hj. cbn [state mark_finished set_eta_seconds set_progress
        set_message set_state State_eqb].
      do 2 eexists. split; [reflexivity|]. job_lookup Hj.
      split; [reflexivity|]. repeat split.
Qed.

(** ** Status queries *)

Lemma rmtree_removes (dir : string) (w : World) :
  exists w',
    rmtree dir w = (Ok tt, w')
    /\ ACTIVE_JOBS w' = ACTIVE_JOBS w
    /\ ACTIVE_PROCESSES w' = ACTIVE_PROCESSES w
    /\ renders w' = renders w
    /\ trace w' = (trace w ++ [Rmtree dir])%list
    /\ (forall p, under dir p = true -> p ∉ files w').
Proof.
  run_all. eexists. split; [reflexivity|]. simpl_world.
  repeat split. intros p Hp Hin.
  apply elem_of_filter in Hin. destruct Hin as [Hf _]. congruence.
Qed.

(** C10, as amended. The status query is not read-only: for a job that
    is served from memory (no render record carries its identifier),
    whose state is [error] and whose cleanup has not been performed, the
    query deletes the workspace directory and marks the cleanup as done;
    no other field of the job, and no other job, changes. *)
Theorem status_query_cleans_failed_job (job_id : string) (t : Q) (w : World)
    (j : Job) :
  render_first job_id (renders w) = None ->
  ACTIVE_JOBS w !! job_id = Some j ->
  state j = error ->
  cleanup_done j = false ->
  exists view w',
    job_status job_id t w = (Ok {| body := JsonStatus view; status := 200 |}, w')
    /\ ACTIVE_JOBS w' = <[job_id := set_cleanup_done true j]> (ACTIVE_JOBS w)
    /\ trace w' = (trace w ++ [Rmtree (workdir j)])%list
    /\ (forall p, under (workdir j) p = true -> p ∉ files w')
    /\ v_state view = error.
Proof.
  intros Hdb Hj Hst Hcl.
  unfold job_status, status_eta.
  destruct (rmtree_removes (workdir j) w)
    as (w1 & Hrm & Hjobs & Hprocs & Hrows & Htrace & Hgone).
  unfold bind at 1. unfold get at 1. rewrite Hdb.
  unfold bind at 1. unfold lookup_job at 1. rewrite Hj.
  rewrite Hst, Hcl. cbn [State_eqb andb negb when].
  unfold bind at 1. unfold bind at 1. rewrite Hrm.
  run_monad.
  do 2 eexists. split; [reflexivity|]. simpl_world.
  rewrite Hjobs, Htrace.
  split; [|split; [reflexivity|split; [exact Hgone|reflexivity]]].
  apply map_eq. intros k. destruct (decide (k = job_id)) as [->|Hne].
  - rewrite lookup_alter_eq, lookup_insert_eq, Hj. reflexivity.
  - rewrite lookup_alter_ne, lookup_insert_ne by congruence. reflexivity.
Qed.

(** C9, as amended. For a status query on a running job that is served
    from memory (no render record carries its identifier) and has a
    recorded average frame time, last frame timestamp and total frames:
    when the time spent on the current frame exceeds 1.5 times the
    average, the ETA returned is
    [max(0, stored_eta + (current_elapsed - avg) * 0.5)]; otherwise the
    stored ETA is returned unchanged. *)
Theorem status_query_inflates_eta (job_id : string) (t : Q) (w : World) (j : Job)
    (avg last_ts stored : Q) :
  render_first job_id (renders w) = None ->
  ACTIVE_JOBS w !! job_id = Some j ->
  state j = running ->
  avg_frame_time j = Some avg -> Py.truthy avg = true ->
  last_frame_timestamp j = Some last_ts -> Py.truthy last_ts = true ->
  total_frames j <> 0%Z ->
  eta_seconds j = Some stored ->
  exists view,
    job_status job_id t w = (Ok {| body := JsonStatus view; status := 200 |}, w)
    /\ ((avg * (3 # 2) < t - last_ts)%Q ->
        exists eta,
          v_eta_seconds view = Some eta
          /\ (eta == Qmax 0 (stored + (t - last_ts - avg) * (1 # 2)))%Q)
    /\ (~ (avg * (3 # 2) < t - last_ts)%Q -> v_eta_seconds view = Some stored).
Proof.
  intros Hdb Hj Hst Havg Htavg Hts Htts Htot Heta.
  unfold job_status, status_eta.
  unfold bind at 1. unfold get at 1. rewrite Hdb.
  unfold bind at 1. unfold lookup_job at 1. rewrite Hj.
  rewrite Hst, Havg, Hts, Htavg, Htts, Heta.
  assert (Et : negb (total_frames j =? 0)%Z = true)
    by (apply negb_true_iff, Z.eqb_neq; exact Htot).
  rewrite Et. cbn [State_eqb andb negb when].
  assert (E15 : ((avg * (15 # 10)) == avg * (3 # 2))%Q) by ring.
  destruct (Py.Qltb (avg * (15 # 10)) (t - last_ts)) eqn:E.
  - run_monad. eexists. split; [reflexivity|]. cbn [v_eta_seconds].
    apply Qltb_true in E. split.
    + intros _. eexists. split; [reflexivity|].
      rewrite py_max_Qmax. apply Q.max_compat; [reflexivity|]. ring.
    + intros Hn. exfalso. apply Hn. rewrite <- E15. exact E.
  - run_monad. eexists. split; [reflexivity|]. cbn [v_eta_seconds].
    apply Qltb_false in E. split.
    + intros Hlt. exfalso. rewrite <- E15 in Hlt.
      exact (Qlt_not_le _ _ Hlt E).
    + intros _. reflexivity.
Qed.

(** ** Submission at the ceiling *)

Lemma parse_options_pure (rq : Submission) (w : World) :
  snd (parse_options rq w) = w.
Proof.
  unfold parse_options, parse_float, parse_int.
  destruct (float_of_str (form_get rq "offset" "0")); [|reflexivity].
  run_monad.
  destruct (int_of_str (form_get rq "resolution" (Py.str (RENDER_SIZE cfg))));
    [|reflexivity].
  cbn [fst snd].
  destruct (int_of_str (form_get rq "kelvin" "5600")); reflexivity.
Qed.

Lemma parse_options_ok (rq : Submission) (q : Q) (n k : Z) :
  float_of_str (form_get rq "offset" "0") = Some q ->
  int_of_str (form_get rq "resolution" (Py.str (RENDER_SIZE cfg))) = Some n ->
  int_of_str (form_get rq "kelvin" "5600") = Some k ->
  exists o, forall w, parse_options rq w = (Ok o, w).
Proof.
  intros Hq Hn Hk. unfold parse_options, parse_float, parse_int.
  rewrite Hq, Hn, Hk. run_monad. eexists. intros w. reflexivity.
Qed.

Lemma launch_status (rq : Submission) (o : Options) (workdir input_path : string)
    (wm : bool) (uid : option Z) (w w' : World) (r : Response) :
  launch rq o workdir input_path wm uid w = (Ok r, w') -> status r = 202%Z.
Proof.
  unfold launch, invoke_blender.
  destruct (blender_bin rq) as [bin|]; [|discriminate].
  destruct (popen_error rq) as [e|]; run_all; [discriminate|].
  destruct (truthy_id uid); [destruct (add_error rq)|]; run_all;
    intros [= <- _]; reflexivity.
Qed.

Lemma submit_anonymous_status (rq : Submission) (workdir input_path : string)
    (w w' : World) (r : Response) :
  current_user rq = None ->
  submit rq workdir input_path w = (Ok r, w') ->
  status r = 400%Z \/ status r = 202%Z.
Proof.
  intros Hanon. unfold submit. rewrite Hanon.
  unfold bind at 1.
  destruct (parse_options rq w) as [[o|e] w1]; [|discriminate].
  destruct (100 * 1024 * 1024 <? stl_size rq)%Z.
  - run_all. intros [= <- _]. left. reflexivity.
  - intros H. right. eapply launch_status, H.
Qed.

(** C8, as amended. A well-formed submission (an [.stl] upload within
    the size limit, convertible form fields) by a signed-in owner who
    already has 5 or more render records in state [running] is answered
    with the capacity error 429; no renderer is started, no process
    handle is allocated and no job is registered; the workspace made for
    the upload before the check is deleted again before the answer. An
    anonymous submission is never answered with 429. *)
Theorem submission_at_ceiling_rejected (rq : Submission) (w : World) (u : User)
    (raw : string) (q : Q) (n k : Z) :
  String.eqb (method rq) "GET" = false ->
  current_user rq = Some u ->
  upload_filename rq = Some raw ->
  String.eqb raw EmptyString = false ->
  allowed_file (secure_filename raw) = true ->
  float_of_str (form_get rq "offset" "0") = Some q ->
  int_of_str (form_get rq "resolution" (Py.str (RENDER_SIZE cfg))) = Some n ->
  int_of_str (form_get rq "kelvin" "5600") = Some k ->
  (stl_size rq <= 100 * 1024 * 1024)%Z ->
  (MAX_CONCURRENT_RENDERS <= running_renders (id u) (renders w))%nat ->
  (exists msg w',
      render_page rq w = (Ok {| body := JsonMessage msg; status := 429 |}, w')
      /\ ACTIVE_JOBS w' = ACTIVE_JOBS w
      /\ ACTIVE_PROCESSES w' = ACTIVE_PROCESSES w
      /\ renders w' = renders w
      /\ trace w'
         = (trace w
            ++ [Mkdtemp (tmp_dir rq);
                SaveUpload (tmp_dir rq ++ "/" ++ secure_filename raw);
                Rmtree (tmp_dir rq)])%list
      /\ (forall p, under (tmp_dir rq) p = true -> p ∉ files w'))
  /\ (forall rq' w0 r w1,
         current_user rq' = None ->
         render_page rq' w0 = (Ok r, w1) -> status r <> 429%Z).
Proof.
  intros Hm Hu Hup Hraw Hok Hq Hn Hk Hsize Hmax. split.
  - destruct (parse_options_ok rq q n k Hq Hn Hk) as (o & Ho).
    unfold render_page. rewrite Hm, Hup, Hraw, Hok. cbn [negb].
    unfold try_except, submit. rewrite Hu.
    assert (Es : (100 * 1024 * 1024 <? stl_size rq)%Z = false)
      by (apply Z.ltb_ge; exact Hsize).
    run_all. rewrite Ho, Es. simpl_world.
    assert (Ec : (MAX_CONCURRENT_RENDERS <=? running_renders (id u) (renders w))%nat
                 = true) by (apply Nat.leb_le; exact Hmax).
    rewrite Ec. do 2 eexists. split; [reflexivity|]. simpl_world.
    split; [reflexivity|]. split; [reflexivity|]. split; [reflexivity|].
    split.
    + rewrite <- !app_assoc. reflexivity.
    + intros p Hp Hin. apply elem_of_filter in Hin.
      destruct Hin as [Hf _]. congruence.
  - intros rq' w0 r w1 Hanon. unfold render_page.
    destruct (String.eqb (method rq') "GET").
    + destruct (marketing rq'); run_all; intros [= <- _]; discriminate.
    + destruct (upload_filename rq') as [raw'|];
        [|run_all; intros [= <- _]; discriminate].
      destruct (String.eqb raw' EmptyString); [run_all; intros [= <- _]; discriminate|].
      destruct (negb (allowed_file (secure_filename raw')));
        [run_all; intros [= <- _]; discriminate|].
      unfold try_except.
      unfold bind at 1. unfold emit at 1. unfold modify at 1.
      unfold bind at 1. unfold modify at 1.
      unfold bind at 1. unfold emit at 1. unfold modify at 1.
      unfold bind at 1. unfold modify at 1.
      match goal with
      | |- context [submit rq' ?d ?i ?w2] =>
          destruct (submit rq' d i w2) as [[r2|e] w2'] eqn:Esub
      end.
      * intros [= <- _].
        destruct (submit_anonymous_status _ _ _ _ _ _ Hanon Esub) as [->| ->];
          discriminate.
      * destruct (exc_kind e); run_all; intros [= <- _]; discriminate.
Qed.

(** * Further properties *)

(** ** What the monitor loop leaves alone *)

Lemma job_step_refl (job_id : string) (w : World) : job_step job_id w w.
Proof.
  split; [|split; reflexivity].
  exists (fun j => j). symmetry. apply map_eq. intros k.
  destruct (decide (k = job_id)) as [->|Hne].
  - rewrite lookup_alter_eq. destruct (ACTIVE_JOBS w !! job_id); reflexivity.
  - rewrite lookup_alter_ne by congruence. reflexivity.
Qed.

Lemma job_step_trans (job_id : string) (w1 w2 w3 : World) :
  job_step job_id w1 w2 -> job_step job_id w2 w3 -> job_step job_id w1 w3.
Proof.
  intros ([F HF] & Hf & Hp) ([G HG] & Hg & Hq).
  split; [|split; congruence].
  exists (fun j => G (F j)). rewrite HG, HF.
  apply map_eq. intros k. destruct (decide (k = job_id)) as [->|Hne].
  - rewrite !lookup_alter_eq. destruct (ACTIVE_JOBS w1 !! job_id); reflexivity.
  - rewrite !lookup_alter_ne by congruence. reflexivity.
Qed.

Lemma job_step_other (job_id other : string) (w w' : World) :
  job_step job_id w w' -> other <> job_id ->
  ACTIVE_JOBS w' !! other = ACTIVE_JOBS w !! other.
Proof.
  intros ([F HF] & _ & _) Hne. rewrite HF.
  apply lookup_alter_ne. congruence.
Qed.

Lemma touches_only_ret {A} (job_id : string) (a : A) :
  touches_only job_id (ret a).
Proof. intros w. apply job_step_refl. Qed.

Lemma touches_only_raise {A} (job_id : string) (k : ExcKind) (msg : string) :
  touches_only job_id (@raise A k msg).
Proof. intros w. apply job_step_refl. Qed.

Lemma touches_only_bind {A B} (job_id : string) (c : M A) (k : A -> M B) :
  touches_only job_id c -> (forall a, touches_only job_id (k a)) ->
  touches_only job_id (bind c k).
Proof.
  intros Hc Hk w. unfold bind. specialize (Hc w).
  destruct (c w) as [[a|e] w1]; cbn [snd] in *.
  - eapply job_step_trans; [exact Hc|]. apply Hk.
  - exact Hc.
Qed.

Lemma touches_only_update_job (job_id : string) (f : Job -> Job) :
  touches_only job_id (update_job job_id f).
Proof.
  intros w. unfold update_job, modify. cbn [snd].
  split; [|split; reflexivity]. exists f. reflexivity.
Qed.

Lemma touches_only_read_job (job_id : string) :
  touches_only job_id (read_job job_id).
Proof.
  intros w. unfold read_job.
  destruct (ACTIVE_JOBS w !! job_id); apply job_step_refl.
Qed.

Lemma touches_only_emit (job_id : string) (e : Effect) :
  touches_only job_id (emit e).
Proof.
  intros w. unfold emit, modify. cbn [snd].
  split; [|split; reflexivity].
  destruct (job_step_refl job_id w) as ([F HF] & _). exists F. exact HF.
Qed.

Lemma touches_only_renders (job_id : string) (f : list Render -> list Render) :
  touches_only job_id (modify (set_renders f)).
Proof.
  intros w. unfold modify. cbn [snd].
  split; [|split; reflexivity].
  destruct (job_step_refl job_id w) as ([F HF] & _). exists F. exact HF.
Qed.

Lemma touches_only_when (job_id : string) (b : bool) (c : M unit) :
  touches_only job_id c -> touches_only job_id (when b c).
Proof.
  intros Hc. destruct b; [exact Hc|apply touches_only_ret].
Qed.

Ltac touches :=
  repeat first
    [ apply touches_only_bind; [|intros ?]
    | apply touches_only_ret
    | apply touches_only_raise
    | apply touches_only_update_job
    | apply touches_only_read_job
    | apply touches_only_emit
    | apply touches_only_renders
    | apply touches_only_when
    | assumption
    | match goal with
      | H : _ |- touches_only _ _ => apply H
      | |- touches_only _ (match ?x with _ => _ end) => destruct x
      | |- touches_only _ (if ?b then _ else _) => destruct b
      end ].

Lemma touches_only_db_progress (job_id : string) (ev : LineEvent) (p : Q)
    (msg : string) :
  touches_only job_id (db_progress job_id ev p msg).
Proof. unfold db_progress. touches. Qed.

Lemma touches_only_on_auto_line (job_id line : string) :
  touches_only job_id (on_auto_line job_id line).
Proof. unfold on_auto_line. touches. Qed.

Lemma touches_only_on_frame (job_id : string) (total : Z) (m : Monitor)
    (ev : LineEvent) (frame : Z) :
  touches_only job_id (on_frame job_id total m ev frame).
Proof.
  unfold on_frame.
  pose proof (touches_only_db_progress job_id ev) as Hdb.
  touches.
Qed.

Lemma touches_only_on_line (job_id : string) (total : Z) (m : Monitor)
    (ev : LineEvent) (line : string) :
  touches_only job_id (on_line job_id total m ev line).
Proof.
  unfold on_line.
  pose proof (touches_only_on_auto_line job_id line) as Hauto.
  pose proof (touches_only_on_frame job_id total m ev) as Hframe.
  touches.
Qed.

Lemma monitor_lines_job_step (job_id : string) (total : Z) (fin : StreamEnd)
    (evs : list LineEvent) (m : Monitor) (w : World) :
  job_step job_id w (snd (monitor_lines job_id total m evs fin w)).
Proof.
  revert m w. induction evs as [|ev rest IH]; intros m w; cbn [monitor_lines].
  - destruct fin; apply job_step_refl.
  - destruct (String.eqb (Py.strip (raw_line ev)) EmptyString); [apply IH|].
    pose proof (touches_only_on_line job_id total
                  (set_recent_lines
                     (push_bounded 10 (Py.strip (raw_line ev)) (recent_lines m)) m)
                  ev (Py.strip (raw_line ev)) w) as Hstep.
    destruct (on_line _ _ _ _ _ _) as [[m2|e] w2]; cbn [snd] in *.
    + eapply job_step_trans; [exact Hstep|apply IH].
    + exact Hstep.
Qed.

(** X1. The monitor loop of one job writes to nothing but that job (and
    its render record): whatever the stream, every other registered job,
    every process handle and every file is as before. *)
Theorem monitor_loop_is_isolated (job_id other : string) (total : Z)
    (fin : StreamEnd) (evs : list LineEvent) (m : Monitor) (w : World) :
  other <> job_id ->
  let w' := snd (monitor_lines job_id total m evs fin w) in
  ACTIVE_JOBS w' !! other = ACTIVE_JOBS w !! other
  /\ ACTIVE_PROCESSES w' = ACTIVE_PROCESSES w
  /\ files w' = files w.
Proof.
  intros Hne w'.
  pose proof (monitor_lines_job_step job_id total fin evs m w) as Hstep.
  fold w' in Hstep.
  split; [exact (job_step_other _ _ _ _ Hstep Hne)|].
  destruct Hstep as (_ & Hf & Hp). split; assumption.
Qed.

(** ** Invariants of the monitor loop *)

(** X2. The two buffers of the monitor stay bounded: at most 10 recent
    lines and at most 20 durations, whatever the stream. *)
Theorem monitor_buffers_bounded (job_id : string) (total : Z) (fin : StreamEnd)
    (evs : list LineEvent) (m : Monitor) (w : World) (j : Job) :
  ACTIVE_JOBS w !! job_id = Some j ->
  (List.length (recent_lines m) <= 10)%nat ->
  (List.length (frame_durations m) <= 20)%nat ->
  let m' := fst (fst (monitor_lines job_id total m evs fin w)) in
  (List.length (recent_lines m') <= 10)%nat
  /\ (List.length (frame_durations m') <= 20)%nat.
Proof.
  intros Hj Hr Hd m'.
  destruct (monitor_lines_invariant
              (fun m _ => (List.length (recent_lines m) <= 10)%nat
                          /\ (List.length (frame_durations m) <= 20)%nat)
              job_id total fin) with (evs := evs) (m := m) (w := w) (j := j)
    as (m1 & exc & w1 & j1 & Hrun & _ & HP & _); auto.
  - intros m0 j0 line [H1 H2]. cbn [recent_lines frame_durations set_recent_lines].
    split; [|exact H2]. rewrite push_bounded_length.
    destruct (10 <? S (List.length (recent_lines m0)))%nat eqn:E; [exact H1|].
    apply Nat.ltb_ge in E. lia.
  - intros m0 j0 ev f [H1 H2] _. unfold monitor_after_frame.
    cbn [recent_lines frame_durations set_frame]. split; [exact H1|].
    unfold record_duration.
    destruct (m_last_frame_index m0) as [last|]; [|exact H2].
    destruct ((last <? f)%Z && Py.truthy_opt (m_last_frame_timestamp m0));
      [|exact H2].
    destruct (m_last_frame_timestamp m0) as [ts|]; [|exact H2].
    destruct (Py.Qltb 0 (now ev - ts)); [|exact H2].
    rewrite push_bounded_length.
    destruct (20 <? S (List.length (frame_durations m0)))%nat eqn:E; [exact H2|].
    apply Nat.ltb_ge in E. lia.
  - subst m'. rewrite Hrun. exact HP.
Qed.

Lemma progress_of_bounds (frame total : Z) :
  (0 <= progress_of frame total <= 100)%Q.
Proof.
  rewrite progress_of_clamped. unfold clamped_percentage. split.
  - apply Q.min_glb; [discriminate|apply Q.le_max_l].
  - apply Q.le_min_l.
Qed.

(** X3. While the monitor reads the stream, the progress of the job
    stays within 0 and 100 percent, even for frame indices beyond the
    frame count. *)
Theorem monitor_progress_in_range (job_id : string) (total : Z) (fin : StreamEnd)
    (evs : list LineEvent) (m : Monitor) (w : World) (j : Job) :
  ACTIVE_JOBS w !! job_id = Some j ->
  (0 <= progress j <= 100)%Q ->
  exists j',
    ACTIVE_JOBS (snd (monitor_lines job_id total m evs fin w)) !! job_id = Some j'
    /\ (0 <= progress j' <= 100)%Q.
Proof.
  intros Hj Hp.
  destruct (monitor_lines_invariant
              (fun _ j => (0 <= progress j <= 100)%Q) job_id total fin)
    with (evs := evs) (m := m) (w := w) (j := j)
    as (m1 & exc & w1 & j1 & Hrun & Hj1 & HP & _); auto.
  - intros m0 j0 j0' H (_ & Hpr & _). rewrite Hpr. exact H.
  - intros m0 j0 ev f _ _. rewrite progress_after_frame.
    apply progress_of_bounds.
  - exists j1. rewrite Hrun. split; assumption.
Qed.

Lemma index_weighted_sum_nonneg (i : Z) (ds : list Q) :
  (0 < i)%Z -> Forall (fun d => (0 < d)%Q) ds ->
  (0 <= index_weighted_sum i ds)%Q.
Proof.
  intros Hi Hall. revert i Hi.
  induction Hall as [|d ds Hd Hall IH]; intros i Hi; cbn [index_weighted_sum].
  - discriminate.
  - assert (H1 : (0 <= d * inject_Z i)%Q).
    { apply Qmult_le_0_compat; [apply Qlt_le_weak, Hd|].
      change 0%Q with (inject_Z 0). rewrite <- Zle_Qle. lia. }
    assert (H2 : (0 <= index_weighted_sum (i + 1) ds)%Q) by (apply IH; lia).
    change 0%Q with (0 + 0)%Q. apply Qplus_le_compat; assumption.
Qed.

Lemma index_weighted_sum_pos (i : Z) (d : Q) (ds : list Q) :
  (0 < i)%Z -> Forall (fun d => (0 < d)%Q) (d :: ds) ->
  (0 < index_weighted_sum i (d :: ds))%Q.
Proof.
  intros Hi Hall. inversion Hall as [|? ? Hd Hrest]; subst.
  cbn [index_weighted_sum].
  assert (H1 : (0 < d * inject_Z i)%Q).
  { apply Qmult_lt_0_compat; [exact Hd|].
    change 0%Q with (inject_Z 0). rewrite <- Zlt_Qlt. exact Hi. }
  assert (H2 : (0 <= index_weighted_sum (i + 1) ds)%Q)
    by (apply index_weighted_sum_nonneg; [lia|exact Hrest]).
  change 0%Q with (0 + 0)%Q. apply Qplus_lt_le_compat; assumption.
Qed.

Lemma index_sum_nonneg (i : Z) (ds : list Q) :
  (0 < i)%Z -> (0 <= index_sum i ds)%Z.
Proof.
  revert i. induction ds as [|d ds IH]; intros i Hi; cbn [index_sum]; [lia|].
  specialize (IH (i + 1)%Z ltac:(lia)). lia.
Qed.

Lemma avg_frame_pos (ds : list Q) :
  ds <> [] -> Forall (fun d => (0 < d)%Q) ds -> (0 < avg_frame ds)%Q.
Proof.
  intros Hne Hall. rewrite avg_frame_is_weighted_mean.
  unfold recency_weighted_mean. destruct ds as [|d ds]; [contradiction|].
  apply Qlt_shift_div_l.
  - cbn [index_sum]. change 0%Q with (inject_Z 0). rewrite <- Zlt_Qlt.
    pose proof (index_sum_nonneg (1 + 1) ds ltac:(lia)). lia.
  - rewrite Qmult_0_l. apply index_weighted_sum_pos; [lia|exact Hall].
Qed.

Lemma record_duration_positive (m : Monitor) (f : Z) (t : Q) :
  Forall (fun d => (0 < d)%Q) (frame_durations m) ->
  Forall (fun d => (0 < d)%Q) (record_duration m f t).
Proof.
  intros H. unfold record_duration.
  destruct (m_last_frame_index m) as [last|]; [|exact H].
  destruct ((last <? f)%Z && Py.truthy_opt (m_last_frame_timestamp m));
    [|exact H].
  destruct (m_last_frame_timestamp m) as [ts|]; [|exact H].
  destruct (Py.Qltb 0 (t - ts)) eqn:E; [|exact H].
  apply Qltb_true in E. unfold push_bounded.
  assert (Hall : Forall (fun d => (0 < d)%Q) (frame_durations m ++ [(t - ts)%Q])).
  { apply Forall_app. split; [exact H|]. constructor; [exact E|constructor]. }
  destruct (20 <? List.length (frame_durations m ++ [(t - ts)%Q]))%nat;
    [|exact Hall].
  destruct (frame_durations m ++ [(t - ts)%Q])%list as [|x xs]; cbn [tl];
    [constructor|]. inversion Hall; assumption.
Qed.

Lemma sample_of_positive (ds : list Q) :
  Forall (fun d => (0 < d)%Q) ds -> Forall (fun d => (0 < d)%Q) (sample_of ds).
Proof.
  intros H. rewrite sample_of_last_20. unfold Py.last_n.
  apply Forall_drop. exact H.
Qed.

Lemma sample_of_nonempty (ds : list Q) :
  (5 <= List.length ds)%nat -> sample_of ds <> [].
Proof.
  intros Hlen Hnil. apply (f_equal (@List.length Q)) in Hnil.
  rewrite sample_of_last_20 in Hnil. unfold Py.last_n in Hnil.
  rewrite length_skipn in Hnil. cbn in Hnil. lia.
Qed.

(** X4. Every inter-frame duration the monitor records is strictly
    positive, and so is the average frame time it stores in the job:
    the status query, which tests the stored average for truth, never
    finds it zero. *)
Theorem recorded_durations_positive (job_id : string) (total : Z)
    (fin : StreamEnd) (evs : list LineEvent) (m : Monitor) (w : World) (j : Job) :
  ACTIVE_JOBS w !! job_id = Some j ->
  frame_durations m = [] ->
  avg_frame_time j = None ->
  exists m' exc w' j',
    monitor_lines job_id total m evs fin w = ((m', exc), w')
    /\ ACTIVE_JOBS w' !! job_id = Some j'
    /\ Forall (fun d => (0 < d)%Q) (frame_durations m')
    /\ (forall avg, avg_frame_time j' = Some avg ->
                    (0 < avg)%Q /\ Py.truthy avg = true).
Proof.
  intros Hj Hm Havg.
  destruct (monitor_lines_invariant
              (fun m j => Forall (fun d => (0 < d)%Q) (frame_durations m)
                          /\ (forall avg, avg_frame_time j = Some avg -> (0 < avg)%Q))
              job_id total fin) with (evs := evs) (m := m) (w := w) (j := j)
    as (m1 & exc & w1 & j1 & Hrun & Hj1 & [HP1 HP2] & _); auto.
  - intros m0 j0 j0' [H1 H2] (_ & _ & _ & _ & Ha & _). split; [exact H1|].
    rewrite Ha. exact H2.
  - intros m0 j0 ev f [H1 H2] _. unfold monitor_after_frame.
    cbn [frame_durations set_frame].
    pose proof (record_duration_positive m0 f (now ev) H1) as Hpos.
    split; [exact Hpos|].
    intros avg. unfold job_after_frame, eta_after.
    destruct (5 <=? List.length (record_duration m0 f (now ev)))%nat eqn:E.
    + cbn [avg_frame_time set_eta_seconds set_avg_frame_time].
      intros [= <-]. apply Nat.leb_le in E.
      apply avg_frame_pos;
        [apply sample_of_nonempty, E|apply sample_of_positive, Hpos].
    + cbn [avg_frame_time set_eta_seconds set_last_frame set_message
             set_progress]. apply H2.
  - split.
    + rewrite Hm. constructor.
    + rewrite Havg. discriminate.
  - exists m1, exc, w1, j1. split; [exact Hrun|]. split; [exact Hj1|].
    split; [exact HP1|]. intros avg Ha. specialize (HP2 avg Ha).
    split; [exact HP2|]. unfold Py.truthy. apply negb_true_iff.
    destruct (Qeq_bool avg 0) eqn:E; [|reflexivity].
    apply Qeq_bool_iff in E. rewrite E in HP2. discriminate HP2.
Qed.

(** ** Lines that are not frame observations *)



(** ** The terminal transition as a whole *)

Lemma alter_id_same (job_id : string) (jobs : gmap string Job) :
  jobs = alter (fun j => j) job_id jobs.
Proof.
  apply map_eq. intros k. destruct (decide (k = job_id)) as [->|Hne].
  - rewrite lookup_alter_eq. destruct (jobs !! job_id); reflexivity.
  - rewrite lookup_alter_ne by congruence. reflexivity.
Qed.

Lemma alter_twice (job_id : string) (F G : Job -> Job) (jobs : gmap string Job) :
  alter G job_id (alter F job_id jobs) = alter (fun j => G (F j)) job_id jobs.
Proof.
  apply map_eq. intros k. destruct (decide (k = job_id)) as [->|Hne].
  - rewrite !lookup_alter_eq. destruct (jobs !! job_id); reflexivity.
  - rewrite !lookup_alter_ne by congruence. reflexivity.
Qed.

Lemma keeps_handles_refl (job_id : string) (w : World) : keeps_handles job_id w w.
Proof.
  split; [|split; reflexivity]. exists (fun j => j). apply alter_id_same.
Qed.

Lemma keeps_handles_trans (job_id : string) (w1 w2 w3 : World) :
  keeps_handles job_id w1 w2 -> keeps_handles job_id w2 w3 ->
  keeps_handles job_id w1 w3.
Proof.
  intros ([F HF] & Hp & Hd) ([G HG] & Hq & He).
  split; [|split; congruence].
  exists (fun j => G (F j)). rewrite HG, HF. apply alter_twice.
Qed.

(** A world that differs only in jobs rewritten under [job_id], render
    records, files and appended effects other than deletions. *)
Lemma keeps_handles_intro (job_id : string) (w w' : World) (F : Job -> Job) :
  ACTIVE_JOBS w' = alter F job_id (ACTIVE_JOBS w) ->
  ACTIVE_PROCESSES w' = ACTIVE_PROCESSES w ->
  deletions w' = deletions w ->
  keeps_handles job_id w w'.
Proof. intros H1 H2 H3. split; [exists F; exact H1|split; assumption]. Qed.

Lemma quiet_ret {A} (job_id : string) (a : A) : quiet job_id (ret a).
Proof. intros w. apply keeps_handles_refl. Qed.

Lemma quiet_raise {A} (job_id : string) (k : ExcKind) (msg : string) :
  quiet job_id (@raise A k msg).
Proof. intros w. apply keeps_handles_refl. Qed.

Lemma quiet_fail {A} (job_id : string) (e : Exc) :
  quiet job_id (fun w => (@Raise A e, w)).
Proof. intros w. apply keeps_handles_refl. Qed.

Lemma quiet_bind {A B} (job_id : string) (c : M A) (k : A -> M B) :
  quiet job_id c -> (forall a, quiet job_id (k a)) -> quiet job_id (bind c k).
Proof.
  intros Hc Hk w. unfold bind. specialize (Hc w).
  destruct (c w) as [[a|e] w1]; cbn [snd] in *.
  - eapply keeps_handles_trans; [exact Hc|]. apply Hk.
  - exact Hc.
Qed.

Lemma quiet_try_except {A} (job_id : string) (c : M A) (h : Exc -> M A) :
  quiet job_id c -> (forall e, quiet job_id (h e)) ->
  quiet job_id (try_except c h).
Proof.
  intros Hc Hh w. unfold try_except. specialize (Hc w).
  destruct (c w) as [[a|e] w1]; cbn [snd] in *.
  - exact Hc.
  - eapply keeps_handles_trans; [exact Hc|]. apply Hh.
Qed.

Lemma quiet_update_job (job_id : string) (f : Job -> Job) :
  quiet job_id (update_job job_id f).
Proof.
  intros w. apply (keeps_handles_intro _ _ _ f); reflexivity.
Qed.

Lemma quiet_read_job (job_id : string) : quiet job_id (read_job job_id).
Proof.
  intros w. unfold read_job.
  destruct (ACTIVE_JOBS w !! job_id); apply keeps_handles_refl.
Qed.

Lemma quiet_path_exists (job_id p : string) : quiet job_id (path_exists p).
Proof. intros w. apply keeps_handles_refl. Qed.

Lemma quiet_emit (job_id : string) (e : Effect) :
  is_rmtree e = false -> quiet job_id (emit e).
Proof.
  intros He w. apply (keeps_handles_intro _ _ _ (fun j => j)).
  - apply alter_id_same.
  - reflexivity.
  - unfold deletions, emit, modify. cbn [snd trace].
    rewrite List.filter_app. cbn [List.filter]. rewrite He. apply app_nil_r.
Qed.

Lemma quiet_renders (job_id : string) (f : list Render -> list Render) :
  quiet job_id (modify (set_renders f)).
Proof.
  intros w. apply (keeps_handles_intro _ _ _ (fun j => j));
    [apply alter_id_same|reflexivity|reflexivity].
Qed.

Lemma quiet_files (job_id : string) (f : gset string -> gset string) :
  quiet job_id (modify (set_files f)).
Proof.
  intros w. apply (keeps_handles_intro _ _ _ (fun j => j));
    [apply alter_id_same|reflexivity|reflexivity].
Qed.

Lemma quiet_when (job_id : string) (b : bool) (c : M unit) :
  quiet job_id c -> quiet job_id (when b c).
Proof. intros Hc. destruct b; [exact Hc|apply quiet_ret]. Qed.

Ltac quiet :=
  repeat first
    [ apply quiet_bind; [|intros ?]
    | apply quiet_try_except; [|intros ?]
    | apply quiet_ret
    | apply quiet_raise
    | apply quiet_fail
    | apply quiet_update_job
    | apply quiet_read_job
    | apply quiet_path_exists
    | apply quiet_emit; reflexivity
    | apply quiet_renders
    | apply quiet_files
    | apply quiet_when
    | match goal with
      | H : _ |- quiet _ _ => apply H
      | |- quiet _ (match ?x with _ => _ end) => destruct x
      | |- quiet _ (if ?b then _ else _) => destruct b
      end ].

Lemma quiet_move (job_id src dst : string) (err : option Exc) :
  quiet job_id (move src dst err).
Proof. unfold move. quiet. Qed.

Lemma quiet_interpolate (job_id input output : string) (fps : Z)
    (video_format : string) (o : Outcome) :
  quiet job_id (_interpolate_video input output fps video_format o).
Proof.
  unfold _interpolate_video.
  pose proof (quiet_move job_id input output (move_error o)) as Hmove.
  quiet.
Qed.

Lemma quiet_persist (job_id : string) (m : Monitor) (o : Outcome) :
  quiet job_id (persist job_id m o).
Proof. unfold persist. quiet. Qed.

Lemma quiet_db_mark_error (job_id msg : string) (o : Outcome) :
  quiet job_id (db_mark_error job_id msg o).
Proof. unfold db_mark_error. quiet. Qed.

Lemma quiet_on_success (job_id : string) (m : Monitor) (o : Outcome) :
  quiet job_id (on_success job_id m o).
Proof.
  unfold on_success.
  pose proof (quiet_interpolate job_id (m_blender_output_path m)
                (m_output_path m) (m_final_fps m) (m_video_format m) o) as Hi.
  pose proof (quiet_move job_id (m_blender_output_path m) (m_output_path m)
                (move_error o)) as Hm.
  pose proof (quiet_persist job_id m o) as Hp.
  pose proof (quiet_db_mark_error job_id) as Hd.
  quiet.
Qed.

Lemma quiet_on_failure (job_id : string) (m : Monitor) (o : Outcome) :
  quiet job_id (on_failure job_id m o).
Proof.
  unfold on_failure.
  pose proof (quiet_db_mark_error job_id) as Hd.
  quiet.
Qed.

(** X6. The [finally] block of the monitor, for every exit code and
    every outcome of the operations it attempts: it never touches
    another job; when it completes, the process handle of the job is
    released (and no other), and the workspace is deleted, once, exactly
    when the job ends in state [error], in which case the cleanup flag
    is set; when it is aborted by an exception, the handle stays
    registered and nothing is deleted. *)
Theorem finally_block_outcome (job_id : string) (m : Monitor) (o : Outcome)
    (w : World) (j : Job) :
  ACTIVE_JOBS w !! job_id = Some j ->
  exists r w' j',
    monitor_finally job_id m o w = (r, w')
    /\ ACTIVE_JOBS w' !! job_id = Some j'
    /\ (forall other, other <> job_id ->
          ACTIVE_JOBS w' !! other = ACTIVE_JOBS w !! other)
    /\ match r with
       | Ok _ =>
           ACTIVE_PROCESSES w' = delete job_id (ACTIVE_PROCESSES w)
           /\ (state j' = error ->
               cleanup_done j' = true
               /\ deletions w' = (deletions w ++ [Rmtree (m_workdir m)])%list
               /\ (forall p, under (m_workdir m) p = true -> p ∉ files w'))
           /\ (state j' <> error -> deletions w' = deletions w)
       | Raise _ =>
           ACTIVE_PROCESSES w' = ACTIVE_PROCESSES w
           /\ deletions w' = deletions w
       end.
Proof.
  intros Hj. unfold monitor_finally.
  unfold bind at 1. unfold path_exists at 1.
  set (branch := if (return_code o =? 0)%Z
                      && bool_decide (m_blender_output_path m ∈ files w)
                 then on_success job_id m o else on_failure job_id m o).
  assert (Hq : quiet job_id branch).
  { unfold branch. destruct (_ && _);
      [apply quiet_on_success|apply quiet_on_failure]. }
  unfold bind at 1. specialize (Hq w).
  destruct (branch w) as [[[]|e] w1] eqn:Eb; cbn [snd] in Hq;
    destruct Hq as ([F HF] & Hp & Hd).
  - assert (Hj1 : ACTIVE_JOBS w1 !! job_id = Some (F j))
      by (rewrite HF, lookup_alter_eq, Hj; reflexivity).
    unfold bind at 1. unfold read_job at 1. rewrite Hj1.
    destruct (State_eqb (state (F j)) error) eqn:Est.
    + destruct (rmtree_removes (m_workdir m) w1)
        as (w2 & Hrm & Hjobs & Hprocs & _ & Htrace & Hgone).
      cbn [when]. unfold bind at 1. unfold bind at 1. rewrite Hrm.
      run_monad. do 3 eexists. split; [reflexivity|]. simpl_world.
      rewrite Hjobs, Hprocs, Hp, lookup_alter_eq, Hj1.
      split; [reflexivity|]. split.
      * intros other Hne. rewrite lookup_alter_ne, HF, lookup_alter_ne
          by congruence. reflexivity.
      * split; [reflexivity|]. split.
        -- intros _. split; [reflexivity|]. split; [|exact Hgone].
           unfold deletions in *. simpl_world. rewrite Htrace, List.filter_app, Hd.
           reflexivity.
        -- intros Hne. exfalso. apply Hne. cbn [state set_cleanup_done].
           destruct (state (F j)); try discriminate. reflexivity.
    + cbn [when]. run_monad. do 3 eexists. split; [reflexivity|]. simpl_world.
      rewrite Hp, Hj1. split; [reflexivity|]. split.
      * intros other Hne. rewrite HF, lookup_alter_ne by congruence. reflexivity.
      * split; [reflexivity|]. split.
        -- intros Herr. rewrite Herr in Est. discriminate.
        -- intros _. exact Hd.
  - exists (Raise e), w1, (F j). split; [reflexivity|].
    split; [rewrite HF, lookup_alter_eq, Hj; reflexivity|]. split.
    + intros other Hne. rewrite HF, lookup_alter_ne by congruence. reflexivity.
    + split; assumption.
Qed.

(** X7. When the renderer exits with a non-zero code, or exits but
    leaves no artifact, and the job was not already marked [error], the
    job ends in state [error] with the exit code and the last line of
    output in its message (a fixed text when there was no output), its
    ETA cleared, its progress kept and its cleanup flag set. *)
Theorem render_failure_reported (job_id : string) (m : Monitor) (o : Outcome)
    (w : World) (j : Job) :
  ACTIVE_JOBS w !! job_id = Some j ->
  state j <> error ->
  (return_code o <> 0%Z \/ m_blender_output_path m ∉ files w) ->
  (truthy_id (user_id j) = true -> commit_error o = None) ->
  exists w' j',
    monitor_finally job_id m o w = (Ok tt, w')
    /\ ACTIVE_JOBS w' !! job_id = Some j'
    /\ state j' = error
    /\ message j'
       = "Blender rendering failed (code " ++ Py.str (return_code o)
         ++ "). Last line: "
         ++ List.last (recent_lines m) "No additional output from Blender."
    /\ eta_seconds j' = None
    /\ progress j' = progress j
    /\ cleanup_done j' = true.
Proof.
  intros Hj Hst Hfail Hdb.
  assert (Hcond : (return_code o =? 0)%Z
                  && bool_decide (m_blender_output_path m ∈ files w) = false).
  { destruct Hfail as [Hrc|Hmiss].
    - apply andb_false_iff. left. apply Z.eqb_neq. exact Hrc.
    - apply andb_false_iff. right. apply bool_decide_eq_false_2. exact Hmiss. }
  assert (Hne : negb (State_eqb (state j) error) = true)
    by (destruct (state j); try reflexivity; contradiction).
  unfold monitor_finally, on_failure. run_all. rewrite Hcond.
  cbn beta iota. rewrite Hj. cbn beta iota. rewrite Hne.
  job_lookup Hj. cbn [user_id mark_error set_eta_seconds set_progress
    set_message set_state].
  destruct (truthy_id (user_id j)) eqn:Eu.
  - unfold db_mark_error. rewrite (Hdb eq_refl). run_all. job_lookup Hj.
    cbn [state mark_error set_eta_seconds set_progress set_message set_state
         State_eqb].
    do 2 eexists. split; [reflexivity|]. job_lookup Hj.
    split; [reflexivity|]. repeat split.
  - run_all. job_lookup Hj.
    cbn [state mark_error set_eta_seconds set_progress set_message set_state
         State_eqb].
    do 2 eexists. split; [reflexivity|]. job_lookup Hj.
    split; [reflexivity|]. repeat split.
Qed.

(** X8. The database update of the failure path is not guarded: when
    its commit fails for an owned job, the exception leaves the
    [finally] block at once. The job is already marked [error], but its
    cleanup flag is not set, its workspace stays on disk and its process
    handle stays registered. *)
Theorem failed_commit_aborts_cleanup (job_id : string) (m : Monitor) (o : Outcome)
    (w : World) (j : Job) (e : string) :
  ACTIVE_JOBS w !! job_id = Some j ->
  state j <> error ->
  return_code o <> 0%Z ->
  truthy_id (user_id j) = true ->
  commit_error o = Some e ->
  exists w' j',
    monitor_finally job_id m o w
    = (Raise {| exc_kind := DatabaseError; exc_str := e |}, w')
    /\ ACTIVE_JOBS w' !! job_id = Some j'
    /\ state j' = error
    /\ cleanup_done j' = cleanup_done j
    /\ files w' = files w
    /\ ACTIVE_PROCESSES w' = ACTIVE_PROCESSES w
    /\ renders w' = renders w.
Proof.
  intros Hj Hst Hrc Hu Hc.
  assert (Hcond : (return_code o =? 0)%Z = false) by (apply Z.eqb_neq; exact Hrc).
  assert (Hne : negb (State_eqb (state j) error) = true)
    by (destruct (state j); try reflexivity; contradiction).
  unfold monitor_finally, on_failure, db_mark_error. run_all.
  rewrite Hcond. cbn [andb]. cbn beta iota. rewrite Hj. cbn beta iota.
  rewrite Hne. job_lookup Hj.
  cbn [user_id mark_error set_eta_seconds set_progress set_message set_state].
  rewrite Hu, Hc. do 2 eexists. split; [reflexivity|]. job_lookup Hj.
  split; [reflexivity|]. repeat split.
Qed.

(** ** A stream that breaks *)

Lemma monitor_lines_read_error (job_id : string) (total : Z)
    (evs : list LineEvent) (e : Exc) (m : Monitor) (w : World) (j : Job) :
  ACTIVE_JOBS w !! job_id = Some j -> total <> 0%Z ->
  exists m1 w1 j1,
    monitor_lines job_id total m evs (ReadError e) w = ((m1, Some e), w1)
    /\ ACTIVE_JOBS w1 !! job_id = Some j1
    /\ m_workdir m1 = m_workdir m
    /\ files w1 = files w
    /\ ACTIVE_PROCESSES w1 = ACTIVE_PROCESSES w.
Proof.
  intros Hj Ht.
  destruct (monitor_lines_invariant (fun m' _ => m_workdir m' = m_workdir m)
              job_id total EOF) with (evs := evs) (m := m) (w := w) (j := j)
    as (m1 & exc & w1 & j1 & Hrun & Hj1 & HP & Hf & Hp & Hexc); auto.
  rewrite (Hexc Ht eq_refl) in Hrun.
  exists m1, w1, j1.
  rewrite <- (app_nil_r evs) at 1. rewrite monitor_lines_app, Hrun.
  cbn [monitor_lines]. repeat split; assumption.
Qed.

(** X9. When reading the stream fails and the renderer then exits with a
    non-zero code, the worker ends with the job in state [error] under
    the message of the read failure (the message about the exit code is
    not written over it), the workspace deleted, the cleanup flag set
    and the process handle released. *)
Theorem read_failure_reported (job_id : string) (total : Z)
    (evs : list LineEvent) (e : Exc) (o : Outcome) (w : World) (j : Job) :
  ACTIVE_JOBS w !! job_id = Some j ->
  total <> 0%Z ->
  return_code o <> 0%Z ->
  exists w' j',
    _monitor_blender_job job_id total evs (ReadError e) o w = (Ok tt, w')
    /\ ACTIVE_JOBS w' !! job_id = Some j'
    /\ state j' = error
    /\ message j' = "Blender output error: " ++ exc_str e
    /\ cleanup_done j' = true
    /\ (forall p, under (workdir j) p = true -> p ∉ files w')
    /\ ACTIVE_PROCESSES w' = delete job_id (ACTIVE_PROCESSES w).
Proof.
  intros Hj Ht Hrc.
  unfold _monitor_blender_job, monitor_init.
  unfold bind at 1. unfold bind at 1. unfold read_job at 1. rewrite Hj.
  cbn [ret]. unfold bind at 1. unfold monitor_stream.
  match goal with
  | |- context [monitor_lines job_id total ?m0 evs (ReadError e) w] =>
      destruct (monitor_lines_read_error job_id total evs e m0 w j Hj Ht)
        as (m1 & w1 & j1 & Hrun & Hj1 & Hwd & Hf & Hp)
  end.
  rewrite Hrun. cbn [m_workdir] in Hwd.
  assert (Hcond : (return_code o =? 0)%Z = false) by (apply Z.eqb_neq; exact Hrc).
  destruct (rmtree_removes (m_workdir m1)
              (set_jobs (alter (set_message ("Blender output error: " ++ exc_str e))
                           job_id)
                 (set_jobs (alter (set_state error) job_id) w1)))
    as (w2 & Hrm & Hjobs & Hprocs & _ & _ & Hgone).
  unfold monitor_finally, on_failure.
  run_monad. rewrite Hcond. cbn [andb]. job_lookup Hj1.
  cbn [state set_message set_state State_eqb negb].
  job_lookup Hj1. cbn [state set_message set_state State_eqb negb].
  rewrite Hrm. do 2 eexists. split; [reflexivity|]. simpl_world.
  rewrite Hjobs, Hprocs. simpl_world. rewrite !lookup_alter_eq, Hj1, Hp.
  split; [reflexivity|]. repeat split.
  rewrite <- Hwd. exact Hgone.
Qed.

(** ** Cancellation *)

Lemma under_refl (dir : string) : under dir dir = true.
Proof. unfold under. rewrite String.eqb_refl. reflexivity. Qed.

Lemma filter_under_gone (dir p : string) (fs : gset string) :
  under dir p = true -> p ∉ filter (fun p => under dir p = false) fs.
Proof.
  intros Hp Hin. apply elem_of_filter in Hin. destruct Hin as [Hf _]. congruence.
Qed.

(** [if workdir.exists(): shutil.rmtree(workdir, ignore_errors=True)]
    followed by [k]. *)
Lemma remove_if_present {A} (dir : string) (k : unit -> M A) (w : World) :
  exists w1,
    bind (path_exists dir) (fun present => bind (when present (rmtree dir)) k) w
    = k tt w1
    /\ ACTIVE_JOBS w1 = ACTIVE_JOBS w
    /\ ACTIVE_PROCESSES w1 = ACTIVE_PROCESSES w
    /\ renders w1 = renders w
    /\ (dir ∉ files w1)
    /\ (dir ∈ files w -> forall p, under dir p = true -> p ∉ files w1)
    /\ deletions w1
       = (deletions w ++ if bool_decide (dir ∈ files w) then [Rmtree dir] else [])%list.
Proof.
  unfold bind at 1. unfold path_exists at 1.
  destruct (bool_decide (dir ∈ files w)) eqn:Ex.
  - apply bool_decide_eq_true in Ex.
    destruct (rmtree_removes dir w) as (w1 & Hrm & Hj & Hp & Hr & Ht & Hgone).
    exists w1. cbn [when]. unfold bind at 1. rewrite Hrm.
    split; [reflexivity|].
    split; [exact Hj|]. split; [exact Hp|]. split; [exact Hr|].
    split; [apply Hgone, under_refl|]. split; [intros _; exact Hgone|].
    unfold deletions. rewrite Ht, List.filter_app. reflexivity.
  - apply bool_decide_eq_false in Ex. exists w. cbn [when].
    split; [reflexivity|].
    split; [reflexivity|]. split; [reflexivity|]. split; [reflexivity|].
    split; [exact Ex|]. split; [intros Hin; contradiction|].
    rewrite app_nil_r. reflexivity.
Qed.

(** What [cancel_job] does to a running job. *)
Lemma cancel_job_effect (job_id : string) (still_alive : bool) (w : World)
    (j : Job) :
  ACTIVE_JOBS w !! job_id = Some j ->
  state j = running ->
  exists w' j',
    cancel_job job_id still_alive w
    = (Ok {| body := JsonMessage "Job cancelled successfully."; status := 200 |},
       w')
    /\ ACTIVE_JOBS w' = <[job_id := j']> (ACTIVE_JOBS w)
    /\ state j' = cancelled
    /\ message j' = "Render cancelled by user."
    /\ eta_seconds j' = None
    /\ progress j' = progress j
    /\ cleanup_done j' = true
    /\ ACTIVE_PROCESSES w' = delete job_id (ACTIVE_PROCESSES w)
    /\ (workdir j ∉ files w')
    /\ (workdir j ∈ files w ->
        forall p, under (workdir j) p = true -> p ∉ files w')
    /\ renders w' = renders w.
Proof.
  intros Hj Hst. unfold cancel_job.
  unfold bind at 1. unfold lookup_job at 1. rewrite Hj, Hst.
  cbn [State_eqb negb]. unfold bind at 1. unfold get at 1.
  assert (Halter : forall jobs : gmap string Job,
             jobs !! job_id = Some j ->
             alter mark_cancelled job_id jobs = <[job_id := mark_cancelled j]> jobs).
  { intros jobs H. apply map_eq. intros k.
    destruct (decide (k = job_id)) as [->|Hne].
    - rewrite lookup_alter_eq, lookup_insert_eq, H. reflexivity.
    - rewrite lookup_alter_ne, lookup_insert_ne by congruence. reflexivity. }
  assert (Hdel : forall procs : gmap string (list string),
             procs !! job_id = None -> procs = delete job_id procs).
  { intros procs H. symmetry. apply delete_id. exact H. }
  set (handle := match ACTIVE_PROCESSES w !! job_id with
                 | Some _ =>
                     let* _ := emit (Terminate job_id) in
                     let* _ := when still_alive (emit (Kill job_id)) in
                     modify (set_processes (delete job_id))
                 | None => ret tt
                 end).
  assert (Hh : exists w0,
             handle w = (Ok tt, w0)
             /\ ACTIVE_JOBS w0 = ACTIVE_JOBS w
             /\ ACTIVE_PROCESSES w0 = delete job_id (ACTIVE_PROCESSES w)
             /\ renders w0 = renders w /\ files w0 = files w).
  { unfold handle. destruct (ACTIVE_PROCESSES w !! job_id) as [proc|] eqn:Ep.
    - destruct still_alive; run_all; eexists; (split; [reflexivity|]);
        repeat split.
    - exists w. split; [reflexivity|]. repeat split. apply Hdel, Ep. }
  destruct Hh as (w0 & Hrun0 & Hj0 & Hp0 & Hr0 & Hf0).
  unfold bind at 1. rewrite Hrun0.
  match goal with
  | |- context [bind (path_exists (workdir j)) (fun present => bind _ ?k) w0] =>
      destruct (remove_if_present (workdir j) k w0)
        as (w1 & Hrun1 & Hj1 & Hp1 & Hr1 & Hgone & Hkids & _)
  end.
  rewrite Hrun1. run_monad.
  exists (set_jobs (alter mark_cancelled job_id) w1), (mark_cancelled j).
  split; [reflexivity|]. simpl_world.
  rewrite Hj1, Hj0, Hp1, Hp0, Hr1, Hr0.
  split; [apply Halter, Hj|].
  repeat (split; [reflexivity|]).
  split; [exact Hgone|]. split; [|reflexivity].
  intros Hin. apply Hkids. rewrite Hf0. exact Hin.
Qed.

(** X10. Cancelling a running job answers 200 and, at once: marks the
    job [cancelled] with the fixed message, clears its ETA, keeps its
    progress, sets its cleanup flag, releases its process handle and
    deletes its workspace directory. No other job and no render record
    is touched. *)
Theorem cancel_running_job (job_id : string) (still_alive : bool) (w : World)
    (j : Job) :
  ACTIVE_JOBS w !! job_id = Some j ->
  state j = running ->
  exists w' j',
    cancel_job job_id still_alive w
    = (Ok {| body := JsonMessage "Job cancelled successfully."; status := 200 |},
       w')
    /\ ACTIVE_JOBS w' = <[job_id := j']> (ACTIVE_JOBS w)
    /\ state j' = cancelled
    /\ message j' = "Render cancelled by user."
    /\ eta_seconds j' = None
    /\ progress j' = progress j
    /\ cleanup_done j' = true
    /\ ACTIVE_PROCESSES w' = delete job_id (ACTIVE_PROCESSES w)
    /\ (workdir j ∉ files w')
    /\ (workdir j ∈ files w ->
        forall p, under (workdir j) p = true -> p ∉ files w')
    /\ renders w' = renders w.
Proof.
  intros Hj Hst.
  destruct (cancel_job_effect job_id still_alive w j Hj Hst) as (w' & j' & H).
  exists w', j'. exact H.
Qed.

(** X11. A cancellation is refused, and changes nothing, unless the job
    is registered and running: 404 for an unknown identifier, 400 for a
    job in any other state. *)
Theorem cancel_needs_running_job (job_id : string) (still_alive : bool)
    (w : World) :
  (forall j, ACTIVE_JOBS w !! job_id = Some j -> state j <> running) ->
  exists msg,
    cancel_job job_id still_alive w
    = (Ok {| body := JsonMessage msg;
             status := match ACTIVE_JOBS w !! job_id with
                       | Some _ => 400
                       | None => 404
                       end |}, w).
Proof.
  intros Hnot. unfold cancel_job. unfold bind at 1. unfold lookup_job at 1.
  destruct (ACTIVE_JOBS w !! job_id) as [j|] eqn:Ej.
  - specialize (Hnot j eq_refl).
    destruct (state j); try contradiction; cbn [State_eqb negb];
      eexists; reflexivity.
  - eexists. reflexivity.
Qed.

(** X12. Cancellation is not repeatable: after a running job has been
    cancelled, a second cancellation of the same job is refused with
    400 and changes nothing. *)
Theorem second_cancel_refused (job_id : string) (a b : bool) (w : World) (j : Job) :
  ACTIVE_JOBS w !! job_id = Some j ->
  state j = running ->
  exists w1,
    cancel_job job_id a w
    = (Ok {| body := JsonMessage "Job cancelled successfully."; status := 200 |},
       w1)
    /\ cancel_job job_id b w1
       = (Ok {| body := JsonMessage "Job is not running."; status := 400 |}, w1).
Proof.
  intros Hj Hst.
  destruct (cancel_job_effect job_id a w j Hj Hst)
    as (w1 & j1 & Hrun & Hjobs & Hs1 & _).
  exists w1. split; [exact Hrun|].
  unfold cancel_job. unfold bind at 1. unfold lookup_job at 1.
  rewrite Hjobs, lookup_insert_eq, Hs1. reflexivity.
Qed.

(** ** Status queries, continued *)

(** X13. The status of a job that was submitted anonymously (no render
    record) and then cancelled is [cancelled], with the message of the
    cancellation, the progress reached and no ETA; the query itself
    changes nothing. *)
Theorem status_after_cancel (job_id : string) (still_alive : bool) (t : Q)
    (w : World) (j : Job) :
  ACTIVE_JOBS w !! job_id = Some j ->
  state j = running ->
  render_first job_id (renders w) = None ->
  exists r w1,
    cancel_job job_id still_alive w = (Ok r, w1)
    /\ job_status job_id t w1
       = (Ok {| body := JsonStatus
                          {| v_state := cancelled;
                             v_message := "Render cancelled by user.";
                             v_progress := progress j;
                             v_eta_seconds := None |};
                status := 200 |}, w1).
Proof.
  intros Hj Hst Hdb.
  destruct (cancel_job_effect job_id still_alive w j Hj Hst)
    as (w1 & j1 & Hrun & Hjobs & Hs1 & Hm1 & He1 & Hp1 & Hc1 & _ & _ & _ & Hr1).
  do 2 eexists. split; [exact Hrun|].
  unfold job_status, status_eta. run_monad.
  rewrite Hr1, Hdb, Hjobs, lookup_insert_eq, Hs1, Hc1.
  cbn [State_eqb andb negb]. rewrite Hm1, Hp1, He1. reflexivity.
Qed.

(** An identifier with neither a record nor a job is answered 404. *)
Lemma status_of_unknown_job (job_id : string) (t : Q) (w : World) :
  render_first job_id (renders w) = None ->
  ACTIVE_JOBS w !! job_id = None ->
  job_status job_id t w = (Ok {| body := JsonUnknown; status := 404 |}, w).
Proof.
  intros Hdb Hj. unfold job_status. run_monad. rewrite Hdb, Hj. reflexivity.
Qed.

(** X15. Apart from the cleanup of a failed in-memory job, a status
    query is read-only: whatever it answers, and also when it fails, the
    registry, the process handles, the render records, the files and
    the effects are as before. *)
Theorem status_query_read_only (job_id : string) (t : Q) (w : World) :
  (forall j, render_first job_id (renders w) = None ->
             ACTIVE_JOBS w !! job_id = Some j ->
             state j = error -> cleanup_done j = true) ->
  snd (job_status job_id t w) = w.
Proof.
  intros Hclean. unfold job_status. unfold bind at 1. unfold get at 1.
  destruct (render_first job_id (renders w)) as [rec|] eqn:Edb; [reflexivity|].
  unfold bind at 1. unfold lookup_job at 1.
  destruct (ACTIVE_JOBS w !! job_id) as [j|] eqn:Ej; [|reflexivity].
  specialize (Hclean j eq_refl eq_refl).
  assert (Hskip : State_eqb (state j) error && negb (cleanup_done j) = false).
  { destruct (state j); try reflexivity. rewrite (Hclean eq_refl). reflexivity. }
  rewrite Hskip. cbn [when]. unfold bind at 1. cbn [ret].
  unfold bind. destruct (status_eta j t w) as [[eta|e] w1] eqn:Eeta.
  - assert (Hw : w1 = w); [|rewrite Hw; reflexivity].
    revert Eeta. unfold status_eta.
    repeat match goal with
           | |- context [match ?x with _ => _ end] => destruct x
           end; run_monad; intros [= _ <-]; reflexivity.
  - assert (Hw : w1 = w); [|rewrite Hw; reflexivity].
    revert Eeta. unfold status_eta.
    repeat match goal with
           | |- context [match ?x with _ => _ end] => destruct x
           end; run_monad; intros [= _ <-]; reflexivity.
Qed.

Lemma status_eta_nonneg (j : Job) (t : Q) (w w' : World) (eta : Q) :
  (forall e, eta_seconds j = Some e -> (0 <= e)%Q) ->
  status_eta j t w = (Ok (Some eta), w') -> (0 <= eta)%Q.
Proof.
  intros Hstored. unfold status_eta.
  repeat match goal with
         | |- context [match ?x with _ => _ end] => destruct x eqn:?
         end; run_monad; intros H; try discriminate H;
    injection H as H1 _; try discriminate H1; try injection H1 as H1;
    subst;
    first [apply py_max_nonneg | eapply Hstored; eassumption
          | apply Hstored; reflexivity].
Qed.

(** X16. A status query never reports a negative ETA: as long as the ETA
    stored in the job (if any) is non-negative, so is the one returned,
    whether it is the stored one, the one inflated for a slow frame or
    the one projected from the progress so far. *)
Theorem status_eta_is_never_negative (job_id : string) (t : Q) (w w' : World)
    (view : StatusView) (code : Z) (eta : Q) :
  (forall j e, ACTIVE_JOBS w !! job_id = Some j ->
               eta_seconds j = Some e -> (0 <= e)%Q) ->
  job_status job_id t w = (Ok {| body := JsonStatus view; status := code |}, w') ->
  v_eta_seconds view = Some eta ->
  (0 <= eta)%Q.
Proof.
  intros Hstored. unfold job_status. unfold bind at 1. unfold get at 1.
  destruct (render_first job_id (renders w)) as [rec|].
  - run_monad. intros [= <- _ _]. discriminate.
  - unfold bind at 1. unfold lookup_job at 1.
    destruct (ACTIVE_JOBS w !! job_id) as [j|] eqn:Ej;
      [|run_monad; discriminate].
    unfold bind at 1.
    destruct (when _ _ w) as [[[]|e0] w1]; [|discriminate].
    unfold bind at 1.
    destruct (status_eta j t w1) as [[o|e1] w2] eqn:Eeta; [|discriminate].
    run_monad. intros [= <- _ _]. cbn [v_eta_seconds]. intros ->.
    eapply status_eta_nonneg; [|exact Eeta].
    intros e He. exact (Hstored j e eq_refl He).
Qed.

(** ** Submissions, continued *)

Lemma clamp_bounds (lo hi x : Q) :
  (lo <= hi)%Q -> (lo <= Py.max lo (Py.min hi x) <= hi)%Q.
Proof.
  intros Hle. rewrite py_max_Qmax, py_min_Qmin. split.
  - apply Q.le_max_l.
  - apply Q.max_lub; [exact Hle|apply Q.le_min_l].
Qed.

Lemma validated_choice (choices : list string) (s d : string) :
  In (if one_of choices s then s else d) choices
  \/ (if one_of choices s then s else d) = d.
Proof.
  destruct (one_of choices s) eqn:E; [left|right; reflexivity].
  unfold one_of in E. apply existsb_exists in E.
  destruct E as (c & Hin & Heq). apply String.eqb_eq in Heq. subst. exact Hin.
Qed.

(** X17. The options that pass validation are always in range, whatever
    the form held: the offset within 0 and 360 degrees, the colour
    temperature within 2000 and 10000 kelvin, the exposure within -2 and
    2 (and 0 under automatic brightness), and the resolution, quality,
    format and axis either one of the supported values or the
    configured default. *)
Theorem validated_options_in_range (rq : Submission) (w w' : World) (o : Options) :
  parse_options rq w = (Ok o, w') ->
  (0 <= o_offset o <= 360)%Q
  /\ (2000 <= o_kelvin o <= 10000)%Z
  /\ (-2 <= o_exposure o <= 2)%Q
  /\ (o_auto_brightness o = true -> o_exposure o = 0%Q)
  /\ (In (o_render_size o) [720; 1080; 1440; 2160]%Z
      \/ o_render_size o = RENDER_SIZE cfg)
  /\ (In (o_quality o) ["fast"; "standard"; "ultra"]
      \/ o_quality o = DEFAULT_QUALITY cfg)
  /\ (In (o_video_format o) ["webm"; "mp4"]
      \/ o_video_format o = OUTPUT_FORMAT cfg)
  /\ (In (o_axis o) ["X"; "Y"; "Z"] \/ o_axis o = ROTATION_AXIS cfg).
Proof.
  unfold parse_options, parse_float, parse_int.
  destruct (float_of_str (form_get rq "offset" "0")) as [q|];
    [|unfold bind, raise; discriminate].
  destruct (int_of_str (form_get rq "resolution" (Py.str (RENDER_SIZE cfg))))
    as [n|]; [|unfold bind, ret, raise; discriminate].
  destruct (int_of_str (form_get rq "kelvin" "5600")) as [k|];
    [|unfold bind, ret, raise; discriminate].
  unfold bind, ret. intros H. injection H as Ho _. subst o.
  cbn [o_offset o_kelvin o_exposure o_auto_brightness o_render_size o_quality
       o_video_format o_axis].
  split; [apply clamp_bounds; discriminate|].
  split; [lia|].
  split.
  { destruct (String.eqb (form_get rq "auto_brightness" "1") "1");
      [split; discriminate|].
    destruct (float_of_str (form_get rq "exposure" "0.0"));
      [apply clamp_bounds; discriminate|split; discriminate]. }
  split.
  { intros ->. reflexivity. }
  split.
  { destruct ((n =? 720)%Z || _)%bool eqn:E; [left|right; reflexivity].
    repeat (apply orb_true_iff in E; destruct E as [E|E]);
      try discriminate E; apply Z.eqb_eq in E; subst n; cbn; auto. }
  split.
  { exact (validated_choice ["fast"; "standard"; "ultra"]
             (lower (form_get rq "quality" (DEFAULT_QUALITY cfg)))
             (DEFAULT_QUALITY cfg)). }
  split.
  { exact (validated_choice ["webm"; "mp4"]
             (lower (form_get rq "format" (OUTPUT_FORMAT cfg)))
             (OUTPUT_FORMAT cfg)). }
  exact (validated_choice ["X"; "Y"; "Z"]
           (upper (form_get rq "axis" (ROTATION_AXIS cfg))) (ROTATION_AXIS cfg)).
Qed.

Lemma prefix_append (s t : string) : String.prefix s (s ++ t) = true.
Proof.
  induction s as [|c s IH]; simpl.
  - destruct t; reflexivity.
  - destruct (ascii_dec c c) as [_|Hne]; [exact IH|contradiction].
Qed.

Lemma append_assoc_str (a b c : string) : (a ++ b) ++ c = a ++ (b ++ c).
Proof.
  induction a as [|x a IH]; [reflexivity|].
  change (String x ((a ++ b) ++ c) = String x (a ++ b ++ c)).
  f_equal. exact IH.
Qed.

Lemma under_child (dir name : string) : under dir (dir ++ "/" ++ name) = true.
Proof.
  unfold under. rewrite <- append_assoc_str, prefix_append.
  apply orb_true_r.
Qed.

Lemma watermark_flag (bin input_model output : string) (o : Options) :
  In "--watermark" (blender_command bin input_model output o true).
Proof.
  unfold blender_command.
  apply in_or_app; right. apply in_or_app; right. apply in_or_app; right.
  apply in_or_app; left. cbn. auto.
Qed.

(** What [launch] leaves behind: on success the job and its handle
    registered under the token drawn; on an exception, the registry as
    it was. It never touches the files. *)
Lemma launch_outcome (rq : Submission) (o : Options) (wd input_path : string)
    (wm : bool) (uid : option Z) (w : World) :
  exists r w',
    launch rq o wd input_path wm uid w = (r, w')
    /\ files w' = files w
    /\ match r with
       | Ok resp =>
           resp = {| body := JsonJobId (token rq); status := 202 |}
           /\ registered rq wd uid wm w w'
       | Raise _ => nothing_registered w w'
       end.
Proof.
  unfold launch, invoke_blender, registered, nothing_registered.
  destruct (blender_bin rq) as [bin|];
    [|run_all; do 2 eexists; split; [reflexivity|]; repeat split].
  destruct (popen_error rq) as [e|];
    [run_all; do 2 eexists; split; [reflexivity|]; repeat split|].
  destruct (truthy_id uid) eqn:Eu; [destruct (add_error rq) as [e|]|];
    run_all; do 2 eexists; (split; [reflexivity|]); simpl_world;
    (split; [reflexivity|]); try (repeat split; reflexivity).
  - split; [reflexivity|]. do 3 eexists.
    split; [reflexivity|]. split; [reflexivity|].
    cbn [state progress eta_seconds avg_frame_time cleanup_done total_frames
         workdir user_id started_at new_job message].
    repeat (split; [first [reflexivity | lia]|]).
    split; [rewrite <- !app_assoc; reflexivity|].
    split; [reflexivity|].
    repeat (split; [reflexivity|]). intros ->. apply watermark_flag.
  - split; [reflexivity|]. do 2 eexists.
    exists {| r_job_id := token rq; r_user_id := uid;
              r_file_path := EmptyString; r_file_size := None;
              r_state := running; r_progress := 0;
              r_message :=
                message (new_job rq o wd EmptyString EmptyString
                  (if o_auto_orientation o
                   then "Launching Blender (" ++ capitalize (o_quality o)
                        ++ ", auto orientation)…"
                   else "Launching Blender (" ++ capitalize (o_quality o)
                        ++ ", axis " ++ o_axis o ++ ", start "
                        ++ format_1f (o_offset o) ++ "°)…") 1 uid) |}.
    split; [reflexivity|]. split; [reflexivity|].
    cbn [state progress eta_seconds avg_frame_time cleanup_done total_frames
         workdir user_id started_at new_job message].
    repeat (split; [first [reflexivity | lia]|]).
    split; [rewrite <- !app_assoc; reflexivity|].
    split; [rewrite app_nil_r; reflexivity|].
    repeat (split; [reflexivity|]). intros ->. apply watermark_flag.
Qed.

Lemma parse_options_result (rq : Submission) (w : World) :
  exists r, parse_options rq w = (r, w).
Proof.
  unfold parse_options, parse_float, parse_int.
  destruct (float_of_str (form_get rq "offset" "0")) as [q|];
    [|unfold bind, raise; eexists; reflexivity].
  destruct (int_of_str (form_get rq "resolution" (Py.str (RENDER_SIZE cfg))))
    as [n|]; [|unfold bind, ret, raise; eexists; reflexivity].
  destruct (int_of_str (form_get rq "kelvin" "5600")) as [k|];
    [|unfold bind, ret, raise; eexists; reflexivity].
  unfold bind, ret. eexists; reflexivity.
Qed.

(** The body of the [try] in [render_page]: it registers a job and
    answers 202, or it deletes the workspace and answers 400 or 429, or
    it raises with the registry and the files as they were. *)
Lemma submit_outcome (rq : Submission) (wd input_path : string) (w : World) :
  exists r w',
    submit rq wd input_path w = (r, w')
    /\ match r with
       | Ok resp =>
           (resp = {| body := JsonJobId (token rq); status := 202 |}
            /\ registered rq wd (owner_of rq) (needs_watermark rq) w w'
            /\ files w' = files w)
           \/ ((status resp = 400%Z
                \/ (status resp = 429%Z
                    /\ exists u, current_user rq = Some u
                         /\ (MAX_CONCURRENT_RENDERS
                             <= running_renders (id u) (renders w))%nat))
               /\ nothing_registered w w'
               /\ files w' = filter (fun p => under wd p = false) (files w))
       | Raise _ => nothing_registered w w' /\ files w' = files w
       end.
Proof.
  unfold submit, owner_of, needs_watermark.
  destruct (parse_options_result rq w) as (ro & Ho).
  unfold bind at 1. rewrite Ho. destruct ro as [o|e];
    [|do 2 eexists; split; [reflexivity|]; repeat split].
  destruct (100 * 1024 * 1024 <? stl_size rq)%Z.
  { run_all. do 2 eexists. split; [reflexivity|]. right.
    split; [left; reflexivity|]. repeat split. }
  destruct (current_user rq) as [u|].
  - unfold bind at 1, get.
    destruct (MAX_CONCURRENT_RENDERS <=? running_renders (id u) (renders w))%nat
      eqn:Ec.
    + run_all. do 2 eexists. split; [reflexivity|]. right.
      split; [right; split; [reflexivity|]|repeat split].
      exists u. split; [reflexivity|]. apply Nat.leb_le. exact Ec.
    + match goal with
      | |- context [launch rq o wd input_path ?wm ?uid w] =>
          destruct (launch_outcome rq o wd input_path wm uid w)
            as (r & w' & Hl & Hf & Hr)
      end.
      exists r, w'. split; [exact Hl|].
      destruct r as [resp|e]; [left|split; assumption].
      destruct Hr as (-> & Hreg). repeat split; assumption.
  - match goal with
    | |- context [launch rq o wd input_path ?wm ?uid w] =>
        destruct (launch_outcome rq o wd input_path wm uid w)
          as (r & w' & Hl & Hf & Hr)
    end.
    exists r, w'. split; [exact Hl|].
    destruct r as [resp|e]; [left|split; assumption].
    destruct Hr as (-> & Hreg). repeat split; assumption.
Qed.

Lemma workspace_removed (wd name : string) (fs : gset string) :
  filter (fun p => under wd p = false) (fs ∪ {[wd]} ∪ {[wd ++ "/" ++ name]}) ⊆ fs.
Proof.
  intros p Hp. apply elem_of_filter in Hp as [Hu Hp].
  apply elem_of_union in Hp as [Hp|Hp].
  - apply elem_of_union in Hp as [Hp|Hp]; [exact Hp|].
    apply elem_of_singleton in Hp. subst p. rewrite under_refl in Hu.
    discriminate Hu.
  - apply elem_of_singleton in Hp. subst p. rewrite under_child in Hu.
    discriminate Hu.
Qed.

Ltac answered_without_job :=
  right; cbn [status]; (split; [cbn; auto|]); (split; [discriminate|]);
  (split; [repeat split|reflexivity]).

(** Every way [render_page] can end: with a job registered and 202, or
    with nothing registered, no new path, and one of 200, 400, 429 and
    500. *)
Lemma render_page_outcome (rq : Submission) (w : World) :
  exists resp w',
    render_page rq w = (Ok resp, w')
    /\ ((resp = {| body := JsonJobId (token rq); status := 202 |}
         /\ exists raw,
              upload_filename rq = Some raw
              /\ String.eqb (method rq) "GET" = false
              /\ allowed_file (secure_filename raw) = true
              /\ registered rq (tmp_dir rq) (owner_of rq) (needs_watermark rq)
                   (uploaded (tmp_dir rq)
                      (tmp_dir rq ++ "/" ++ secure_filename raw) w) w'
              /\ files w'
                 = files w ∪ {[tmp_dir rq]}
                   ∪ {[tmp_dir rq ++ "/" ++ secure_filename raw]})
        \/ (In (status resp) [200; 400; 429; 500]%Z
            /\ (status resp = 429%Z ->
                exists u, current_user rq = Some u
                  /\ (MAX_CONCURRENT_RENDERS
                      <= running_renders (id u) (renders w))%nat)
            /\ nothing_registered w w'
            /\ files w' ⊆ files w)).
Proof.
  unfold render_page.
  destruct (String.eqb (method rq) "GET") eqn:Em.
  { destruct (marketing rq); run_all; do 2 eexists; (split; [reflexivity|]);
      answered_without_job. }
  destruct (upload_filename rq) as [raw|];
    [|run_all; do 2 eexists; (split; [reflexivity|]);
      answered_without_job].
  destruct (String.eqb raw EmptyString);
    [run_all; do 2 eexists; (split; [reflexivity|]);
     answered_without_job|].
  destruct (allowed_file (secure_filename raw)) eqn:Ea; cbn [negb];
    [|run_all; do 2 eexists; (split; [reflexivity|]);
      answered_without_job].
  unfold bind at 1, emit at 1, modify at 1.
  unfold bind at 1, modify at 1.
  unfold bind at 1, emit at 1, modify at 1.
  unfold bind at 1, modify at 1.
  cbn [set_files ACTIVE_JOBS ACTIVE_PROCESSES renders files trace].
  rewrite <- app_assoc. cbn [app].
  match goal with
  | |- context [try_except _ _ ?w1] =>
      change w1 with (uploaded (tmp_dir rq)
                        (tmp_dir rq ++ "/" ++ secure_filename raw) w)
  end.
  set (w1 := uploaded (tmp_dir rq) (tmp_dir rq ++ "/" ++ secure_filename raw) w).
  destruct (submit_outcome rq (tmp_dir rq)
              (tmp_dir rq ++ "/" ++ secure_filename raw) w1)
    as (r & w' & Hs & Hr).
  unfold try_except. rewrite Hs. destruct r as [resp|e].
  - exists resp, w'. split; [reflexivity|].
    destruct Hr as [(-> & Hreg & Hf)|(Hst & Hn & Hf)].
    + left. split; [reflexivity|]. exists raw.
      split; [reflexivity|]. split; [reflexivity|]. split; [exact Ea|].
      split; [exact Hreg|]. rewrite Hf. reflexivity.
    + right. split.
      { destruct Hst as [->|[-> _]]; cbn; auto. }
      split.
      { intros H9. destruct Hst as [H4|[_ Hu]]; [rewrite H4 in H9; discriminate H9|].
        exact Hu. }
      split; [exact Hn|].
      rewrite Hf. apply workspace_removed.
  - destruct Hr as (Hn & Hf).
    assert (Hfs : filter (fun p => under (tmp_dir rq) p = false) (files w')
                  ⊆ files w)
      by (rewrite Hf; apply workspace_removed).
    destruct Hn as (Hj & Hp & Hrn).
    destruct (exc_kind e); run_all; do 2 eexists; (split; [reflexivity|]);
      right; cbn [status]; (split; [cbn; auto|]); (split; [discriminate|]);
      simpl_world; (split; [repeat split; assumption|exact Hfs]).
Qed.


(** X19. An accepted submission (answer 202) returns the token drawn as
    the job identifier and registers under it a job in state [running]
    with progress 0, no estimate, at least one frame to render, the
    workspace of the upload and the submitter as owner, together with the
    handle of the renderer it started; the workspace and the upload are on
    disk, and the effects are, in this order, the workspace, the upload,
    the launch of the renderer and the start of its monitor. *)
Theorem accepted_submission_registers_job (rq : Submission) (w w' : World)
    (resp : Response) :
  render_page rq w = (Ok resp, w') ->
  status resp = 202%Z ->
  body resp = JsonJobId (token rq)
  /\ exists job command input_path,
       ACTIVE_JOBS w' = <[token rq := job]> (ACTIVE_JOBS w)
       /\ ACTIVE_PROCESSES w' = <[token rq := command]> (ACTIVE_PROCESSES w)
       /\ state job = running /\ progress job = 0%Q
       /\ eta_seconds job = None
       /\ (1 <= total_frames job)%Z
       /\ workdir job = tmp_dir rq
       /\ user_id job = owner_of rq
       /\ started_at job = clock rq
       /\ tmp_dir rq ∈ files w' /\ input_path ∈ files w'
       /\ under (tmp_dir rq) input_path = true
       /\ trace w'
          = (trace w
             ++ [Mkdtemp (tmp_dir rq); SaveUpload input_path;
                 Print ("[Server] Launching Blender: " ++ join " " command);
                 Popen command; StartMonitor (token rq)])%list.
Proof.
  intros Hrun H202.
  destruct (render_page_outcome rq w) as (resp0 & w0 & Hr & Hcases).
  rewrite Hrun in Hr. injection Hr as <- <-.
  destruct Hcases as [(-> & raw & _ & _ & _ & Hreg & Hf)|(Hin & _)];
    [|rewrite H202 in Hin; cbn in Hin; intuition discriminate].
  split; [reflexivity|].
  destruct Hreg as (job & command & row & Hj & Hp & Hs & Hpr & He & _ & _ & Ht
                    & Hw & Hu & Hst & Htr & _).
  exists job, command, (tmp_dir rq ++ "/" ++ secure_filename raw).
  repeat (split; [assumption|]).
  split; [rewrite Hf; apply elem_of_union_l, elem_of_union_r,
                     elem_of_singleton; reflexivity|].
  split; [rewrite Hf; apply elem_of_union_r, elem_of_singleton; reflexivity|].
  split; [apply under_child|].
  rewrite Htr. cbn [uploaded trace]. rewrite <- app_assoc. reflexivity.
Qed.

Lemma render_first_app (job_id : string) (rows more : list Render) :
  render_first job_id rows = None ->
  render_first job_id (rows ++ more) = render_first job_id more.
Proof.
  unfold render_first. induction rows as [|r rows IH]; [reflexivity|].
  cbn [find app]. destruct (String.eqb (r_job_id r) job_id); [discriminate|].
  exact IH.
Qed.

(** X20. Submission and status query compose: once a submission is
    accepted, and provided no earlier render record carries the token
    drawn, a status query for the returned identifier answers 200 with
    state [running], progress 0 and no estimate, and changes nothing. *)
Theorem status_of_accepted_submission (rq : Submission) (w w' : World)
    (resp : Response) (t : Q) :
  render_page rq w = (Ok resp, w') ->
  status resp = 202%Z ->
  render_first (token rq) (renders w) = None ->
  exists view,
    job_status (token rq) t w'
    = (Ok {| body := JsonStatus view; status := 200 |}, w')
    /\ v_state view = running
    /\ v_progress view = 0%Q
    /\ v_eta_seconds view = None.
Proof.
  intros Hrun H202 Hfresh.
  destruct (render_page_outcome rq w) as (resp0 & w0 & Hr & Hcases).
  rewrite Hrun in Hr. injection Hr as <- <-.
  destruct Hcases as [(-> & raw & _ & _ & _ & Hreg & Hf)|(Hin & _)];
    [|rewrite H202 in Hin; cbn in Hin; intuition discriminate].
  destruct Hreg as (job & command & row & Hj & Hp & Hs & Hpr & He & Ha & _ & _
                    & _ & _ & _ & _ & Hrn & Hid & Hrs & Hrp & _).
  cbn [uploaded renders ACTIVE_JOBS] in Hrn, Hj.
  unfold job_status. run_all. rewrite Hrn, (render_first_app _ _ _ Hfresh).
  destruct (truthy_id (owner_of rq)).
  - unfold render_first. cbn [find]. rewrite Hid, String.eqb_refl.
    eexists. split; [reflexivity|]. cbn [v_state v_progress v_eta_seconds].
    repeat split; assumption.
  - unfold render_first. cbn [find]. rewrite Hj, lookup_insert_eq.
    rewrite Hs. cbn [State_eqb andb]. unfold status_eta.
    rewrite Hs, Ha, Hpr. cbn [State_eqb].
    replace (Py.Qltb 0 0) with false by reflexivity.
    rewrite andb_false_r, He.
    eexists. split; [reflexivity|]. cbn [v_state v_progress v_eta_seconds].
    repeat split.
Qed.

(** X21. Outside development mode an accepted submission of an anonymous
    visitor or of an owner on the free tier starts the renderer with the
    [--watermark] flag: the command registered as its handle carries
    it. *)
Theorem free_render_is_watermarked (rq : Submission) (w w' : World)
    (resp : Response) :
  render_page rq w = (Ok resp, w') ->
  status resp = 202%Z ->
  dev_mode rq = false ->
  (forall u, current_user rq = Some u -> tier u = "free") ->
  exists command,
    ACTIVE_PROCESSES w' !! token rq = Some command
    /\ In (Popen command) (trace w')
    /\ In "--watermark" command.
Proof.
  intros Hrun H202 Hdev Hfree.
  destruct (render_page_outcome rq w) as (resp0 & w0 & Hr & Hcases).
  rewrite Hrun in Hr. injection Hr as <- <-.
  destruct Hcases as [(-> & raw & _ & _ & _ & Hreg & Hf)|(Hin & _)];
    [|rewrite H202 in Hin; cbn in Hin; intuition discriminate].
  destruct Hreg as (job & command & row & _ & Hp & _ & _ & _ & _ & _ & _
                    & _ & _ & _ & Htr & _ & _ & _ & _ & _ & Hwm).
  exists command. split; [rewrite Hp; apply lookup_insert_eq|].
  split.
  { rewrite Htr. apply in_or_app. right. cbn. auto. }
  apply Hwm. unfold needs_watermark. rewrite Hdev.
  destruct (current_user rq) as [u|] eqn:Eu; [|reflexivity].
  rewrite (Hfree u eq_refl). reflexivity.
Qed.

(** X22. When the insert of the render record fails after the renderer
    was started, [render_page] answers 500 and deletes the workspace, but
    the renderer it started is neither terminated nor registered: no
    handle and no job exist for it. *)
Theorem failed_insert_orphans_renderer (rq : Submission) (w : World) (u : User)
    (raw bin e : string) (q : Q) (n k : Z) :
  String.eqb (method rq) "GET" = false ->
  upload_filename rq = Some raw ->
  String.eqb raw EmptyString = false ->
  allowed_file (secure_filename raw) = true ->
  float_of_str (form_get rq "offset" "0") = Some q ->
  int_of_str (form_get rq "resolution" (Py.str (RENDER_SIZE cfg))) = Some n ->
  int_of_str (form_get rq "kelvin" "5600") = Some k ->
  (stl_size rq <= 100 * 1024 * 1024)%Z ->
  current_user rq = Some u ->
  id u <> 0%Z ->
  (running_renders (id u) (renders w) < MAX_CONCURRENT_RENDERS)%nat ->
  blender_bin rq = Some bin ->
  popen_error rq = None ->
  add_error rq = Some e ->
  exists command w',
    render_page rq w
    = (Ok {| body := JsonMessage ("Rendering failed: " ++ e); status := 500 |},
       w')
    /\ trace w'
       = (trace w
          ++ [Mkdtemp (tmp_dir rq);
              SaveUpload (tmp_dir rq ++ "/" ++ secure_filename raw);
              Print ("[Server] Launching Blender: " ++ join " " command);
              Popen command; Rmtree (tmp_dir rq)])%list
    /\ ACTIVE_JOBS w' = ACTIVE_JOBS w
    /\ ACTIVE_PROCESSES w' = ACTIVE_PROCESSES w
    /\ renders w' = renders w
    /\ (forall p, under (tmp_dir rq) p = true -> p ∉ files w').
Proof.
  intros Hm Hup Hraw Hok Hq Hn Hk Hsize Hu Hid Hmax Hbin Hpo Hadd.
  destruct (parse_options_ok rq q n k Hq Hn Hk) as (o & Ho).
  unfold render_page. rewrite Hm, Hup, Hraw, Hok. cbn [negb].
  unfold try_except, submit, launch, invoke_blender.
  rewrite Hu, Hbin, Hpo, Hadd.
  assert (Es : (100 * 1024 * 1024 <? stl_size rq)%Z = false)
    by (apply Z.ltb_ge; exact Hsize).
  assert (Ec : (MAX_CONCURRENT_RENDERS <=? running_renders (id u) (renders w))%nat
               = false) by (apply Nat.leb_gt; exact Hmax).
  assert (Et : truthy_id (Some (id u)) = true).
  { unfold truthy_id. apply negb_true_iff, Z.eqb_neq. exact Hid. }
  run_all. rewrite Ho, Es. simpl_world. rewrite Ec. rewrite Et.
  cbn [when]. run_all.
  do 2 eexists. split; [reflexivity|]. simpl_world.
  split; [rewrite <- !app_assoc; reflexivity|].
  split; [reflexivity|]. split; [reflexivity|]. split; [reflexivity|].
  intros p Hp Hin. apply elem_of_filter in Hin as [Hn' _].
  rewrite Hp in Hn'. discriminate Hn'.
Qed.

Lemma discard_job_result (job_id : string) (job : Job) (w : World) :
  exists w',
    discard_job job_id job w = (Ok tt, w')
    /\ ACTIVE_JOBS w' = delete job_id (ACTIVE_JOBS w)
    /\ ACTIVE_PROCESSES w' = ACTIVE_PROCESSES w
    /\ renders w' = renders w
    /\ files w' ⊆ files w
    /\ (workdir job ∉ files w')
    /\ (workdir job ∈ files w ->
        forall p, under (workdir job) p = true -> p ∉ files w').
Proof.
  unfold discard_job. unfold bind at 1. unfold path_exists at 1.
  destruct (bool_decide (workdir job ∈ files w)) eqn:Ex; cbn [when]; run_all;
    eexists; (split; [reflexivity|]); simpl_world;
    repeat (split; [reflexivity|]).
  - split; [intros p Hp; apply elem_of_filter in Hp as [_ Hp]; exact Hp|].
    split; [apply filter_under_gone, under_refl|].
    intros _ p Hp. apply filter_under_gone. exact Hp.
  - apply bool_decide_eq_false in Ex.
    split; [exact Ex|]. intros Hin. contradiction.
Qed.

(** The download of a render that has a record changes nothing, and
    sends the file only past the three checks. *)
Lemma download_record_outcome (rq : DownloadRequest) (render_record : Render)
    (w : World) :
  exists a,
    download_record rq render_record w = (Ok a, w)
    /\ (forall p, a = Attachment p ->
        p = r_file_path render_record
        /\ p ∈ files w
        /\ d_send_fails rq = false
        /\ (truthy_id (r_user_id render_record) = true ->
            exists u, d_user rq = Some u
              /\ r_user_id render_record = Some (id u))
        /\ (d_dev_mode rq = false -> is_authenticated rq = true ->
            user_can_download rq = true)
        /\ exists resolved root,
             d_resolve rq p = Some resolved
             /\ d_resolve rq (STORAGE_ROOT cfg) = Some root
             /\ Py.startswith resolved root = true).
Proof.
  unfold download_record.
  destruct (truthy_id (r_user_id render_record)
            && (negb (is_authenticated rq)
                || differs_from_user rq (r_user_id render_record))) eqn:Eo;
    [eexists; split; [reflexivity|]; intros p [=]|].
  destruct (negb (d_dev_mode rq) && is_authenticated rq
            && negb (user_can_download rq)) eqn:Ec;
    [eexists; split; [reflexivity|]; intros p [=]|].
  destruct (d_resolve rq (r_file_path render_record)) as [resolved|] eqn:Er;
    [|eexists; split; [reflexivity|]; intros p [=]].
  destruct (d_resolve rq (STORAGE_ROOT cfg)) as [root|] eqn:Es;
    [|eexists; split; [reflexivity|]; intros p [=]].
  destruct (Py.startswith resolved root) eqn:Ep; cbn [negb];
    [|eexists; split; [reflexivity|]; intros p [=]].
  unfold except_file_not_found, try_except, send_file.
  unfold bind at 1. unfold bind at 1. unfold path_exists at 1.
  destruct (bool_decide (r_file_path render_record ∈ files w)) eqn:Ex;
    [|eexists; split; [reflexivity|]; intros p [=]].
  destruct (d_send_fails rq) eqn:Ef;
    [run_monad; eexists; split; [reflexivity|]; intros p [=]|].
  run_monad. eexists. split; [reflexivity|]. intros p [= <-].
  split; [reflexivity|].
  split; [apply bool_decide_eq_true in Ex; exact Ex|].
  split; [reflexivity|].
  split.
  { intros Ht. rewrite Ht in Eo. cbn [andb] in Eo.
    apply orb_false_iff in Eo as [Ea Ed].
    unfold is_authenticated in Ea. unfold differs_from_user in Ed.
    destruct (d_user rq) as [u|]; [|discriminate Ea].
    destruct (r_user_id render_record) as [n|]; [|discriminate Ed].
    exists u. split; [reflexivity|].
    apply negb_false_iff, Z.eqb_eq in Ed. congruence. }
  split.
  { intros Hd Ha. rewrite Hd, Ha in Ec. cbn [negb andb] in Ec.
    apply negb_false_iff in Ec. exact Ec. }
  exists resolved, root. repeat split; assumption.
Qed.

(** The download of a render that is only in the registry: it changes
    nothing and sends no file, or the job is finished and the requester
    entitled, and the job is dropped from the registry with its
    workspace. *)
Lemma download_job_outcome (job_id : string) (rq : DownloadRequest) (w : World) :
  exists a w',
    download_job job_id rq w = (Ok a, w')
    /\ ((w' = w
         /\ (forall p, a <> Attachment p)
         /\ a <> FormPage "Rendered file could not be found.")
        \/ (exists job,
              ACTIVE_JOBS w !! job_id = Some job
              /\ state job = finished
              /\ (d_dev_mode rq = true
                  \/ (is_authenticated rq = true /\ user_can_download rq = true))
              /\ ACTIVE_JOBS w' = delete job_id (ACTIVE_JOBS w)
              /\ ACTIVE_PROCESSES w' = ACTIVE_PROCESSES w
              /\ renders w' = renders w
              /\ files w' ⊆ files w
              /\ ((a = Attachment (output_path job)
                   /\ output_path job ∈ files w
                   /\ d_send_fails rq = false
                   /\ (workdir job ∉ files w')
                   /\ (workdir job ∈ files w ->
                       forall p, under (workdir job) p = true -> p ∉ files w'))
                  \/ (a = FormPage "Rendered file could not be found."
                      /\ ((output_path job ∉ files w)
                          \/ d_send_fails rq = true))))).
Proof.
  unfold download_job. unfold bind at 1. unfold lookup_job at 1.
  destruct (ACTIVE_JOBS w !! job_id) as [job|] eqn:Ej;
    [|do 2 eexists; split; [reflexivity|]; left;
      split; [reflexivity|]; split; [intros p|]; discriminate].
  destruct (State_eqb (state job) finished) eqn:Es; cbn [negb];
    [|do 2 eexists; split; [reflexivity|]; left;
      split; [reflexivity|]; split; [intros p|]; discriminate].
  destruct (negb (d_dev_mode rq) && negb (is_authenticated rq)) eqn:Ea;
    [do 2 eexists; split; [reflexivity|]; left;
      split; [reflexivity|]; split; [intros p|]; discriminate|].
  destruct (negb (d_dev_mode rq) && negb (user_can_download rq)) eqn:Ec;
    [do 2 eexists; split; [reflexivity|]; left;
      split; [reflexivity|]; split; [intros p|]; discriminate|].
  assert (Hst : state job = finished) by (destruct (state job); try discriminate Es; reflexivity).
  assert (Hent : d_dev_mode rq = true
                 \/ (is_authenticated rq = true /\ user_can_download rq = true)).
  { destruct (d_dev_mode rq); [left; reflexivity|right].
    cbn [negb andb] in Ea, Ec. apply negb_false_iff in Ea, Ec. split; assumption. }
  destruct (discard_job_result job_id job w)
    as (w1 & Hd & Hj1 & Hp1 & Hr1 & Hf1 & Hgone & Hkids).
  unfold except_file_not_found, try_except, send_file.
  unfold bind at 1. unfold path_exists at 1.
  destruct (bool_decide (output_path job ∈ files w)) eqn:Ex; cbn [negb].
  - apply bool_decide_eq_true in Ex.
    destruct (d_send_fails rq) eqn:Ef.
    + run_monad. do 2 eexists. split; [reflexivity|]. right. exists job.
      simpl_world. repeat (split; [first [assumption | reflexivity]|]).
      right. split; [reflexivity|]. right. reflexivity.
    + unfold bind at 1. unfold ret at 1. unfold bind at 1. rewrite Hd.
      unfold ret. do 2 eexists. split; [reflexivity|]. right. exists job.
      repeat (split; [first [assumption | reflexivity]|]).
      left. repeat (split; [first [assumption | reflexivity]|]). exact Hkids.
  - apply bool_decide_eq_false in Ex.
    unfold bind at 1. rewrite Hd.
    unfold ret. do 2 eexists. split; [reflexivity|]. right. exists job.
    repeat (split; [first [assumption | reflexivity]|]).
    right. split; [reflexivity|]. left. exact Ex.
Qed.


(** X24. Any answer of a download other than the file itself and the
    page saying that the file could not be found leaves everything as it
    was: the refusals (403), the unknown job and the unfinished job cost
    the job nothing. *)
Theorem refused_download_changes_nothing (job_id : string)
    (rq : DownloadRequest) (w w' : World) (a : DownloadAnswer) :
  download job_id rq w = (Ok a, w') ->
  (forall p, a <> Attachment p) ->
  a <> FormPage "Rendered file could not be found." ->
  w' = w.
Proof.
  unfold download. unfold bind at 1. unfold get at 1.
  destruct (render_first job_id (renders w)) as [rec|].
  - destruct (download_record_outcome rq rec w) as (a0 & Ha & _).
    rewrite Ha. intros [= _ <-] _ _. reflexivity.
  - destruct (download_job_outcome job_id rq w) as (a0 & w0 & Ha & Hc).
    rewrite Ha. intros [= <- <-] Hno Hlost.
    destruct Hc as [(-> & _)|(job & _ & _ & _ & _ & _ & _ & _ & Hans)];
      [reflexivity|].
    destruct Hans as [(-> & _)|(-> & _)]; [|contradiction].
    exfalso. exact (Hno _ eq_refl).
Qed.

(** X25. Outside development mode the file is sent only to a signed-in
    principal whose tier allows downloads, with one exception: a render
    record that has no owner is sent to an anonymous visitor. *)
Theorem download_needs_entitlement (job_id p : string) (rq : DownloadRequest)
    (w w' : World) :
  download job_id rq w = (Ok (Attachment p), w') ->
  d_dev_mode rq = false ->
  (exists u, d_user rq = Some u /\ can_download (tier u) = true)
  \/ (d_user rq = None
      /\ exists render_record,
           render_first job_id (renders w) = Some render_record
           /\ truthy_id (r_user_id render_record) = false).
Proof.
  unfold download. unfold bind at 1. unfold get at 1.
  intros Hrun Hdev.
  assert (Hpaid : is_authenticated rq = true -> user_can_download rq = true ->
                  exists u, d_user rq = Some u /\ can_download (tier u) = true).
  { unfold is_authenticated, user_can_download, get_user_tier. rewrite Hdev.
    destruct (d_user rq) as [u|]; [|discriminate].
    intros _ Hc. exists u. split; [reflexivity|exact Hc]. }
  destruct (render_first job_id (renders w)) as [rec|].
  - destruct (download_record_outcome rq rec w) as (a & Ha & Hatt).
    rewrite Ha in Hrun. injection Hrun as -> _.
    destruct (Hatt p eq_refl) as (_ & _ & _ & Hown & Hent & _).
    destruct (is_authenticated rq) eqn:Eauth.
    + left. apply Hpaid; [reflexivity|]. apply Hent; [exact Hdev|reflexivity].
    + right. unfold is_authenticated in Eauth.
      destruct (d_user rq) as [u|]; [discriminate Eauth|].
      split; [reflexivity|]. exists rec. split; [reflexivity|].
      destruct (truthy_id (r_user_id rec)); [|reflexivity].
      destruct (Hown eq_refl) as (u & Hu & _). discriminate Hu.
  - destruct (download_job_outcome job_id rq w) as (a & w0 & Ha & Hc).
    rewrite Ha in Hrun. injection Hrun as -> _.
    destruct Hc as [(_ & Hno & _)|(job & _ & _ & Hent & _)].
    + exfalso. exact (Hno p eq_refl).
    + left. destruct Hent as [Hd|(Hauth & Hcan)]; [congruence|].
      apply Hpaid; assumption.
Qed.

(** The entitled download of a finished job whose artifact exists: the
    artifact is sent and the job discarded. *)
Lemma download_job_served (job_id : string) (rq : DownloadRequest)
    (w w1 : World) (job : Job) :
  render_first job_id (renders w) = None ->
  ACTIVE_JOBS w !! job_id = Some job ->
  state job = finished ->
  (d_dev_mode rq = true
   \/ (is_authenticated rq = true /\ user_can_download rq = true)) ->
  output_path job ∈ files w ->
  d_send_fails rq = false ->
  discard_job job_id job w = (Ok tt, w1) ->
  download job_id rq w = (Ok (Attachment (output_path job)), w1).
Proof.
  intros Hrec Hj Hst Hent Hout Hsend Hd.
  unfold download. unfold bind at 1. unfold get at 1. rewrite Hrec.
  unfold download_job. unfold bind at 1. unfold lookup_job at 1.
  rewrite Hj, Hst. cbn [State_eqb negb].
  replace (negb (d_dev_mode rq) && negb (is_authenticated rq)) with false
    by (destruct Hent as [->|(-> & _)]; [reflexivity|];
        rewrite andb_false_r; reflexivity).
  replace (negb (d_dev_mode rq) && negb (user_can_download rq)) with false
    by (destruct Hent as [->|(_ & ->)]; [reflexivity|];
        rewrite andb_false_r; reflexivity).
  unfold except_file_not_found, try_except, send_file.
  unfold bind at 1. unfold path_exists at 1.
  rewrite (bool_decide_eq_true_2 _ Hout), Hsend. cbn [negb].
  unfold bind at 1. unfold ret at 1. unfold bind at 1. rewrite Hd.
  reflexivity.
Qed.

(** X26. A download from the registry is good for one use: a finished
    job without a render record, asked for by an entitled requester while
    its artifact exists, is answered with the artifact; the job is then
    gone from the registry and its workspace from the disk, and any
    further download of it answers that the job was not found. *)
Theorem download_is_single_use (job_id : string) (rq : DownloadRequest)
    (w : World) (job : Job) :
  render_first job_id (renders w) = None ->
  ACTIVE_JOBS w !! job_id = Some job ->
  state job = finished ->
  (d_dev_mode rq = true
   \/ (is_authenticated rq = true /\ user_can_download rq = true)) ->
  output_path job ∈ files w ->
  d_send_fails rq = false ->
  exists w',
    download job_id rq w = (Ok (Attachment (output_path job)), w')
    /\ ACTIVE_JOBS w' = delete job_id (ACTIVE_JOBS w)
    /\ (workdir job ∉ files w')
    /\ (workdir job ∈ files w ->
        forall p, under (workdir job) p = true -> p ∉ files w')
    /\ (forall again,
        download job_id again w' = (Ok (FormPage "Render job not found."), w')).
Proof.
  intros Hrec Hj Hst Hent Hout Hsend.
  destruct (discard_job_result job_id job w)
    as (w1 & Hd & Hj1 & Hp1 & Hr1 & Hf1 & Hgone & Hkids).
  exists w1. split.
  { apply download_job_served; assumption. }
  split; [exact Hj1|]. split; [exact Hgone|]. split; [exact Hkids|].
  intros again. unfold download. unfold bind at 1. unfold get at 1.
  rewrite Hr1, Hrec. unfold download_job. unfold bind at 1.
  unfold lookup_job at 1. rewrite Hj1, lookup_delete_eq. reflexivity.
Qed.

(** X27. When the artifact of an entitled download from the registry is
    missing, or vanishes while it is sent, the answer is the page saying
    that the file could not be found and the job is dropped from the
    registry. The workspace is deleted in the first case only: when
    [send_file] fails, the files are left as they were. *)
Theorem download_of_lost_artifact (job_id : string) (rq : DownloadRequest)
    (w : World) (job : Job) :
  render_first job_id (renders w) = None ->
  ACTIVE_JOBS w !! job_id = Some job ->
  state job = finished ->
  (d_dev_mode rq = true
   \/ (is_authenticated rq = true /\ user_can_download rq = true)) ->
  (output_path job ∉ files w) \/ d_send_fails rq = true ->
  exists w',
    download job_id rq w
    = (Ok (FormPage "Rendered file could not be found."), w')
    /\ ACTIVE_JOBS w' = delete job_id (ACTIVE_JOBS w)
    /\ ACTIVE_PROCESSES w' = ACTIVE_PROCESSES w
    /\ ((output_path job ∉ files w) -> workdir job ∉ files w')
    /\ (output_path job ∈ files w -> w' = set_jobs (delete job_id) w).
Proof.
  intros Hrec Hj Hst Hent Hlost.
  destruct (discard_job_result job_id job w)
    as (w1 & Hd & Hj1 & Hp1 & Hr1 & Hf1 & Hgone & Hkids).
  unfold download. unfold bind at 1. unfold get at 1. rewrite Hrec.
  unfold download_job. unfold bind at 1. unfold lookup_job at 1.
  rewrite Hj, Hst. cbn [State_eqb negb].
  replace (negb (d_dev_mode rq) && negb (is_authenticated rq)) with false
    by (destruct Hent as [->|(-> & _)]; [reflexivity|];
        rewrite andb_false_r; reflexivity).
  replace (negb (d_dev_mode rq) && negb (user_can_download rq)) with false
    by (destruct Hent as [->|(_ & ->)]; [reflexivity|];
        rewrite andb_false_r; reflexivity).
  unfold except_file_not_found, try_except, send_file.
  unfold bind at 1. unfold path_exists at 1.
  destruct (bool_decide (output_path job ∈ files w)) eqn:Ex; cbn [negb].
  - apply bool_decide_eq_true in Ex.
    destruct Hlost as [Hmiss|Hfail]; [contradiction|]. rewrite Hfail.
    run_monad. eexists. split; [reflexivity|]. simpl_world.
    split; [reflexivity|]. split; [reflexivity|].
    split; [intros Hmiss; contradiction|]. intros _. reflexivity.
  - apply bool_decide_eq_false in Ex.
    unfold bind at 1. rewrite Hd. unfold ret.
    exists w1. split; [reflexivity|].
    split; [exact Hj1|]. split; [exact Hp1|].
    split; [intros _; exact Hgone|]. intros Hin. contradiction.
Qed.

(** X28. A render record that has an owner is never served to anyone
    else: an anonymous visitor or another principal is answered with the
    refusal [Unauthorized], in development mode too, and nothing
    changes. *)
Theorem download_of_foreign_record (job_id : string) (rq : DownloadRequest)
    (w : World) (render_record : Render) (owner : Z) :
  render_first job_id (renders w) = Some render_record ->
  r_user_id render_record = Some owner ->
  owner <> 0%Z ->
  (forall u, d_user rq = Some u -> id u <> owner) ->
  download job_id rq w = (Ok (Forbidden "Unauthorized" false), w).
Proof.
  intros Hrec Hown Hnz Hother.
  unfold download. unfold bind at 1. unfold get at 1. rewrite Hrec.
  unfold download_record. rewrite Hown.
  assert (Et : truthy_id (Some owner) = true).
  { unfold truthy_id. apply negb_true_iff, Z.eqb_neq. exact Hnz. }
  rewrite Et. cbn [andb].
  unfold is_authenticated, differs_from_user.
  destruct (d_user rq) as [u|]; [|reflexivity].
  cbn [negb orb].
  assert (En : (owner =? id u)%Z = false).
  { apply Z.eqb_neq. intros ->. exact (Hother u eq_refl eq_refl). }
  rewrite En. reflexivity.
Qed.

(** X29. A file served from a render record is the file of the record,
    it exists, its resolved path begins with the resolved storage root,
    and serving it changes nothing: a record can be downloaded again. *)
Theorem served_record_is_inside_storage (job_id p : string)
    (rq : DownloadRequest) (w w' : World) (render_record : Render) :
  render_first job_id (renders w) = Some render_record ->
  download job_id rq w = (Ok (Attachment p), w') ->
  w' = w
  /\ p = r_file_path render_record
  /\ p ∈ files w
  /\ exists resolved root,
       d_resolve rq p = Some resolved
       /\ d_resolve rq (STORAGE_ROOT cfg) = Some root
       /\ Py.startswith resolved root = true.
Proof.
  intros Hrec. unfold download. unfold bind at 1. unfold get at 1.
  rewrite Hrec.
  destruct (download_record_outcome rq render_record w) as (a & Ha & Hatt).
  rewrite Ha. intros [= -> <-].
  destruct (Hatt p eq_refl) as (Hp & Hin & _ & _ & _ & Hres).
  split; [reflexivity|]. split; [exact Hp|]. split; [exact Hin|]. exact Hres.
Qed.

Lemma status_eta_returns (j : Job) (t : Q) (w : World) :
  (avg_frame_time j <> None -> eta_seconds j <> None) ->
  exists eta, status_eta j t w = (Ok eta, w).
Proof.
  intros H. unfold status_eta.
  destruct (State_eqb (state j) running); [|eexists; reflexivity].
  destruct (avg_frame_time j) as [avg|];
    [|destruct (Py.truthy (started_at j) && Py.Qltb 0 (progress j));
      eexists; reflexivity].
  destruct (last_frame_timestamp j) as [last_ts|];
    [|destruct (Py.truthy (started_at j) && Py.Qltb 0 (progress j));
      eexists; reflexivity].
  destruct (Py.truthy avg && Py.truthy last_ts && negb (total_frames j =? 0)%Z);
    [|destruct (Py.truthy (started_at j) && Py.Qltb 0 (progress j));
      eexists; reflexivity].
  destruct (Py.Qltb (avg * (15 # 10)) (t - last_ts)); [|eexists; reflexivity].
  destruct (eta_seconds j) as [base_eta|]; [eexists; reflexivity|].
  exfalso. apply H; [discriminate|reflexivity].
Qed.

(** X14. Monitor and status query compose: once the monitor, started on
    a job without a stored average, has processed any sequence of
    lines, a status query for the job answers 200 with the job's view.
    The addition of line 857 never meets a missing estimate, because the
    monitor stores an average only together with an estimate. *)
Theorem status_query_answers_while_rendering (job_id : string) (total : Z)
    (fin : StreamEnd) (evs : list LineEvent) (m : Monitor) (w : World)
    (j : Job) (t : Q) :
  ACTIVE_JOBS w !! job_id = Some j ->
  avg_frame_time j = None ->
  exists view w'',
    job_status job_id t (snd (monitor_lines job_id total m evs fin w))
    = (Ok {| body := JsonStatus view; status := 200 |}, w'').
Proof.
  intros Hj Havg.
  destruct (monitor_lines_invariant
              (fun m j => avg_frame_time j <> None ->
                          (5 <= List.length (frame_durations m))%nat
                          /\ eta_seconds j <> None)
              job_id total fin) with (evs := evs) (m := m) (w := w) (j := j)
    as (m1 & exc & w1 & j1 & Hrun & Hj1 & HP & _); auto.
  - intros m0 j0 j0' H (_ & _ & He & _ & Ha & _). rewrite Ha, He. exact H.
  - intros m0 j0 ev f H _. unfold monitor_after_frame, job_after_frame, eta_after.
    cbn [frame_durations set_frame].
    destruct (5 <=? List.length (record_duration m0 f (now ev)))%nat eqn:E.
    + cbn [avg_frame_time eta_seconds set_eta_seconds set_avg_frame_time].
      intros _. apply Nat.leb_le in E. split; [exact E|discriminate].
    + cbn [avg_frame_time eta_seconds set_eta_seconds set_last_frame
             set_message set_progress].
      intros Ha. destruct (H Ha) as [Hlen _].
      apply (record_duration_length m0 f (now ev)) in Hlen.
      apply Nat.leb_gt in E. lia.
  - rewrite Havg. intros H. contradiction.
  - rewrite Hrun. cbn [snd]. unfold job_status.
    unfold bind at 1. unfold get at 1.
    destruct (render_first job_id (renders w1)) as [rec|];
      [run_all; do 2 eexists; reflexivity|].
    unfold bind at 1. unfold lookup_job at 1. rewrite Hj1.
    assert (Hok : avg_frame_time j1 <> None -> eta_seconds j1 <> None)
      by (intros Ha; apply HP, Ha).
    destruct (State_eqb (state j1) error && negb (cleanup_done j1)).
    + cbn [when]. run_all.
      match goal with
      | |- context [status_eta j1 t ?w2] =>
          destruct (status_eta_returns j1 t w2 Hok) as (eta & He)
      end.
      rewrite He. do 2 eexists. reflexivity.
    + cbn [when]. run_all.
      destruct (status_eta_returns j1 t w1 Hok) as (eta & He).
      rewrite He. do 2 eexists. reflexivity.
Qed.

(** X30. Monitor and download compose for an anonymous render without
    frame-rate conversion: when the renderer exits with code 0 and its
    artifact exists, the monitor ends with the job [finished] at 100
    percent with estimate 0, the handle released and no file deleted;
    an entitled download then returns the artifact, after which the job
    is gone from the registry and its workspace from the disk. The locals
    of the monitor are those that lines 378-385 read from the job. *)
Theorem finished_render_can_be_downloaded (job_id : string) (m : Monitor)
    (o : Outcome) (rq : DownloadRequest) (w : World) (j : Job) :
  ACTIVE_JOBS w !! job_id = Some j ->
  truthy_id (user_id j) = false ->
  render_first job_id (renders w) = None ->
  m_needs_interpolation m = false ->
  m_blender_output_path m = output_path j ->
  m_output_path m = output_path j ->
  return_code o = 0%Z ->
  output_path j ∈ files w ->
  (d_dev_mode rq = true
   \/ (is_authenticated rq = true /\ user_can_download rq = true)) ->
  d_send_fails rq = false ->
  exists w1 j1 w2,
    monitor_finally job_id m o w = (Ok tt, w1)
    /\ ACTIVE_JOBS w1 !! job_id = Some j1
    /\ state j1 = finished
    /\ progress j1 = 100%Q
    /\ eta_seconds j1 = Some 0%Q
    /\ message j1 = "Render complete (axis " ++ m_axis m ++ ")."
    /\ files w1 = files w
    /\ ACTIVE_PROCESSES w1 = delete job_id (ACTIVE_PROCESSES w)
    /\ download job_id rq w1 = (Ok (Attachment (output_path j)), w2)
    /\ ACTIVE_JOBS w2 = delete job_id (ACTIVE_JOBS w1)
    /\ (workdir j ∉ files w2).
Proof.
  intros Hj Hanon Hrec Hni Hbo Hop Hrc Hout Hent Hsend.
  set (w1 := set_processes (delete job_id)
               (set_jobs (alter (mark_finished m) job_id) w)).
  assert (Hrun : monitor_finally job_id m o w = (Ok tt, w1)).
  { unfold monitor_finally. unfold bind at 1. unfold path_exists at 1.
    rewrite Hbo, (bool_decide_eq_true_2 _ Hout), Hrc. cbn [Z.eqb andb].
    unfold on_success, try_except. rewrite Hni, Hbo, Hop, String.eqb_refl.
    cbn [negb]. unfold read_job. run_monad. rewrite Hj.
    cbn [fst snd]. rewrite Hanon. cbn [when]. run_monad.
    rewrite lookup_alter_eq, Hj. cbn [fmap option_fmap option_map].
    cbn [state mark_finished set_eta_seconds set_progress set_message
         set_state State_eqb when]. reflexivity. }
  assert (Hj1 : ACTIVE_JOBS w1 !! job_id = Some (mark_finished m j)).
  { unfold w1. simpl_world. rewrite lookup_alter_eq, Hj. reflexivity. }
  destruct (discard_job_result job_id (mark_finished m j) w1)
    as (w2 & Hd & Hj2 & _ & _ & _ & Hgone & _).
  exists w1, (mark_finished m j), w2.
  split; [exact Hrun|]. split; [exact Hj1|].
  repeat (split; [reflexivity|]).
  split.
  { apply (download_job_served job_id rq w1 w2 (mark_finished m j));
      try assumption; reflexivity. }
  split; [exact Hj2|exact Hgone].
Qed.

End Orchestrator.

(** * Instances on sample inputs *)

(** C1 (defect). A running job is cancelled, then the monitor sees the
    end of the stream and the exit code of the killed renderer: the
    state [cancelled] is overwritten with [error], the message of the
    cancellation is replaced, and the workspace is deleted a second
    time. *)
Theorem cancelled_job_rewritten_by_monitor :
  exists resp w1 w2 j1 j2,
    cancel_job sample_id true (sample_world (sample_job running None) [])
    = (Ok resp, w1)
    /\ status resp = 200%Z
    /\ ACTIVE_JOBS w1 !! sample_id = Some j1
    /\ state j1 = cancelled
    /\ monitor_finally sample_cfg sample_id sample_monitor killed w1 = (Ok tt, w2)
    /\ ACTIVE_JOBS w2 !! sample_id = Some j2
    /\ state j2 = error
    /\ message j2
       = "Blender rendering failed (code -15). Last line: No additional output from Blender."
    /\ List.filter (fun e => match e with Rmtree _ => true | _ => false end)
         (trace w2)
       = [Rmtree "/tmp/bellarue_1"; Rmtree "/tmp/bellarue_1"].
Proof.
  do 5 eexists.
  split; [vm_compute; reflexivity|].
  split; [reflexivity|].
  split; [vm_compute; reflexivity|].
  split; [reflexivity|].
  split; [vm_compute; reflexivity|].
  split; [vm_compute; reflexivity|].
  split; [reflexivity|].
  split; [vm_compute; reflexivity|].
  vm_compute. reflexivity.
Qed.

(** Witness of C2: frame 5 of 10, one second after frame 4, with four
    durations of one second recorded before. *)
Lemma eta_formula_after_warmup_witness :
  (exists m' w' j',
      monitor_lines sample_float sample_id 10 warm_monitor
        [line_at "Fra:5 Mem:12.3M" 1005] EOF
        (sample_world (sample_job running None) [])
      = ((m', None), w')
      /\ ACTIVE_JOBS w' !! sample_id = Some j'
      /\ ((5 <= List.length (frame_durations m'))%nat ->
          exists eta last_ts,
            eta_seconds j' = Some eta
            /\ last_frame_timestamp j' = Some last_ts
            /\ (eta == eta_of_spec (frame_durations m') 10 5 (1005 - last_ts))%Q))
  /\ (avg_frame (sample_of [1; 1; 1; 1; 1]) == 1)%Q
  /\ (forall t, exists eta,
         eta_after 10 5 t [1; 1; 1; 1; 1]%Q (Some t) = Some eta
         /\ (eta == 25 # 4)%Q).
Proof.
  apply (eta_formula_after_warmup sample_float sample_id 10 warm_monitor
           (line_at "Fra:5 Mem:12.3M" 1005) 5
           (sample_world (sample_job running None) [])
           (sample_job running None)).
  - vm_compute. reflexivity.
  - lia.
  - vm_compute. reflexivity.
Defined.

(** A whole run: after six frame lines
    one second apart, with 10 frames in total, the stored ETA is 6.25
    seconds and the stored average is one second. *)
Example eta_after_six_frames :
  exists m' w' j' eta avg,
    monitor_lines sample_float sample_id 10 sample_monitor six_frames EOF
      (sample_world (sample_job running None) [])
    = ((m', None), w')
    /\ ACTIVE_JOBS w' !! sample_id = Some j'
    /\ frame_durations m' = [1; 1; 1; 1; 1]%Q
    /\ eta_seconds j' = Some eta /\ (eta == 25 # 4)%Q
    /\ avg_frame_time j' = Some avg /\ (avg == 1)%Q.
Proof.
  do 5 eexists.
  split; [vm_compute; reflexivity|].
  split; [vm_compute; reflexivity|].
  split; [vm_compute; reflexivity|].
  split; [vm_compute; reflexivity|].
  split; [vm_compute; reflexivity|].
  split; [vm_compute; reflexivity|].
  vm_compute. reflexivity.
Qed.

(** Witness of C3: frames 1, 2 and 3 of 110. *)
Lemma progress_follows_increasing_frames_witness :
  exists ps : list Q,
    progress_history sample_float sample_id 110 sample_monitor
      [line_at "Fra:1 Mem:12.3M" 1001; line_at "Fra:2 Mem:12.3M" 1002;
       line_at "Fra:3 Mem:12.3M" 1003]
      (sample_world (sample_job running None) [])
    = map Some ps
    /\ Forall2 (fun p f => (p == clamped_percentage f 110)%Q) ps [1; 2; 3]%Z
    /\ StronglySorted Qle ps.
Proof.
  apply (progress_follows_increasing_frames sample_float sample_id 110
           sample_monitor (sample_world (sample_job running None) [])
           (sample_job running None)).
  - vm_compute. reflexivity.
  - lia.
  - repeat constructor.
  - repeat constructor; lia.
Defined.

(** Witness of C4 as amended: frames 2, 2 and 3 of 110. *)
Lemma progress_monotone_for_ordered_frames_witness :
  exists ps : list Q,
    progress_history sample_float sample_id 110 sample_monitor
      [line_at "Fra:2 Mem:12.3M" 1001; line_at "Fra:2 Mem:12.4M" 1002;
       line_at "Fra:3 Mem:12.3M" 1003]
      (sample_world (sample_job running None) [])
    = map Some ps
    /\ StronglySorted Qle ps.
Proof.
  apply (progress_monotone_for_ordered_frames sample_float sample_id 110
           sample_monitor (sample_world (sample_job running None) [])
           (sample_job running None) _ [2; 2; 3]%Z).
  - vm_compute. reflexivity.
  - lia.
  - repeat constructor.
  - repeat constructor; lia.
Defined.

(** Counterexample to C4: frame 10 and then frame 5 of 110; the progress
    falls from 1000/110 to 500/110 percent. *)
Lemma progress_regresses_on_earlier_frame :
  exists p q : Q,
    progress_history sample_float sample_id 110 sample_monitor
      [line_at "Fra:10 Mem:12.3M" 1001; line_at "Fra:5 Mem:12.3M" 1002]
      (sample_world (sample_job running None) [])
    = [Some p; Some q]
    /\ (q < p)%Q.
Proof.
  do 2 eexists. split; vm_compute; reflexivity.
Qed.

(** Witness of C7: the six frame lines, from a fresh monitor. *)
Lemma eta_null_until_five_durations_witness :
  exists m' exc w' j',
    monitor_lines sample_float sample_id 10 sample_monitor six_frames EOF
      (sample_world (sample_job running None) [])
    = ((m', exc), w')
    /\ ACTIVE_JOBS w' !! sample_id = Some j'
    /\ (eta_seconds j' = None <-> (List.length (frame_durations m') < 5)%nat)
    /\ ((5 <= List.length (frame_durations m'))%nat ->
        exists eta, eta_seconds j' = Some eta /\ (0 <= eta)%Q)
    /\ (forall pre suf,
           six_frames = (pre ++ suf)%list ->
           (5 <= List.length
                   (frame_durations
                      (fst (fst (monitor_lines sample_float sample_id 10
                                   sample_monitor pre EOF
                                   (sample_world (sample_job running None) []))))))%nat ->
           (5 <= List.length (frame_durations m'))%nat).
Proof.
  apply (eta_null_until_five_durations sample_float sample_id 10 EOF six_frames
           sample_monitor (sample_world (sample_job running None) [])
           (sample_job running None)).
  - vm_compute. reflexivity.
  - reflexivity.
  - reflexivity.
Defined.

(** Witness of C5: exit code 0, the artifact present, the encoder
    exiting with code 1. *)
Lemma encoder_failure_marks_error_witness :
  exists r w' j',
    monitor_finally sample_cfg sample_id sample_monitor encoder_failed
      (sample_world (sample_job running None) [])
    = (r, w')
    /\ ACTIVE_JOBS w' !! sample_id = Some j'
    /\ state j' = error
    /\ message j'
       = "Post-processing failed: FFmpeg interpolation failed (" ++ Py.str 1
         ++ "). Command: "
         ++ join " " (encoder_cmd sample_cfg (m_blender_output_path sample_monitor)
                        (m_output_path sample_monitor)
                        (m_final_fps sample_monitor)
                        (m_video_format sample_monitor))
         ++ nl ++ "Stdout: " ++ EmptyString ++ nl ++ "Stderr: "
         ++ "Unknown encoder 'libx264'"
    /\ eta_seconds j' = None
    /\ progress j' = progress (sample_job running None).
Proof.
  apply (encoder_failure_marks_error sample_cfg sample_id sample_monitor
           encoder_failed (sample_world (sample_job running None) [])
           (sample_job running None) 1 EmptyString "Unknown encoder 'libx264'").
  - vm_compute. reflexivity.
  - reflexivity.
  - cbn. set_solver.
  - reflexivity.
  - cbn. lia.
  - reflexivity.
  - lia.
Defined.

(** Witness of C6: an owned job, everything succeeding but the copy. *)
Lemma copy_failure_keeps_finished_witness :
  exists w' j',
    monitor_finally sample_cfg sample_id sample_monitor copy_failed
      (sample_world (sample_job running (Some 7%Z))
         [sample_render sample_id 7 running])
    = (Ok tt, w')
    /\ ACTIVE_JOBS w' !! sample_id = Some j'
    /\ state j' = finished
    /\ progress j' = 100%Q
    /\ eta_seconds j' = Some 0%Q.
Proof.
  apply (copy_failure_keeps_finished sample_cfg sample_id sample_monitor
           copy_failed _ (sample_job running (Some 7%Z))
           {| exc_kind := OSError; exc_str := "No space left on device" |}).
  - vm_compute. reflexivity.
  - reflexivity.
  - reflexivity.
  - cbn. set_solver.
  - cbn. do 2 eexists. reflexivity.
  - reflexivity.
Defined.

(** Witness of C8 as amended: a signed-in owner with five running
    renders submits [model.stl]. *)
Lemma submission_at_ceiling_rejected_witness :
  exists msg w',
    render_page sample_cfg sample_float sample_int sample_str sample_str
      sample_secure (sample_submission (Some sample_user))
      (sample_world (sample_job running (Some 7%Z)) five_running)
    = (Ok {| body := JsonMessage msg; status := 429 |}, w')
    /\ ACTIVE_JOBS w'
       = ACTIVE_JOBS (sample_world (sample_job running (Some 7%Z)) five_running)
    /\ ACTIVE_PROCESSES w'
       = ACTIVE_PROCESSES (sample_world (sample_job running (Some 7%Z)) five_running)
    /\ renders w' = five_running
    /\ trace w'
       = [Mkdtemp "/tmp/bellarue_9"; SaveUpload "/tmp/bellarue_9/model.stl";
          Rmtree "/tmp/bellarue_9"]
    /\ (forall p, under "/tmp/bellarue_9" p = true -> p ∉ files w').
Proof.
  apply (proj1 (submission_at_ceiling_rejected sample_cfg sample_float
                  sample_int sample_str sample_str sample_secure
                  (sample_submission (Some sample_user))
                  (sample_world (sample_job running (Some 7%Z)) five_running)
                  sample_user "model.stl" 0 1080 5600
                  eq_refl eq_refl eq_refl eq_refl eq_refl eq_refl eq_refl
                  eq_refl ltac:(cbn [stl_size sample_submission]; lia)
                  ltac:(vm_compute; lia))).
Defined.

(** Counterexample to C8: the rejected submission has created a
    workspace (and saved the upload into it) before the ceiling was
    checked. *)
Lemma rejected_submission_created_workspace :
  exists resp w',
    render_page sample_cfg sample_float sample_int sample_str sample_str
      sample_secure (sample_submission (Some sample_user))
      (sample_world (sample_job running (Some 7%Z)) five_running)
    = (Ok resp, w')
    /\ status resp = 429%Z
    /\ In (Mkdtemp "/tmp/bellarue_9") (trace w')
    /\ In (SaveUpload "/tmp/bellarue_9/model.stl") (trace w').
Proof.
  do 2 eexists. split; [vm_compute; reflexivity|].
  split; [reflexivity|]. split; cbn; auto.
Qed.

(** Witness of C9 as amended: an anonymous job, queried 100 seconds
    after its last frame. *)
Lemma status_query_inflates_eta_witness :
  exists view,
    job_status sample_id 1200 (sample_world (sample_job_midway None) [])
    = (Ok {| body := JsonStatus view; status := 200 |},
       sample_world (sample_job_midway None) [])
    /\ ((1 * (3 # 2) < 1200 - 1100)%Q ->
        exists eta,
          v_eta_seconds view = Some eta
          /\ (eta == Qmax 0 (90 + (1200 - 1100 - 1) * (1 # 2)))%Q)
    /\ (~ (1 * (3 # 2) < 1200 - 1100)%Q -> v_eta_seconds view = Some 90%Q).
Proof.
  apply (status_query_inflates_eta sample_id 1200
           (sample_world (sample_job_midway None) [])
           (sample_job_midway None) 1 1100 90).
  - reflexivity.
  - vm_compute. reflexivity.
  - reflexivity.
  - reflexivity.
  - reflexivity.
  - reflexivity.
  - reflexivity.
  - cbn. lia.
  - reflexivity.
Defined.

(** Counterexample to C9: the same job owned by a signed-in user, with
    its render record; the query answers from the record and returns no
    ETA at all, although the current frame has run for 100 seconds
    against an average of one. *)
Lemma owned_job_status_has_no_eta :
  exists view w',
    job_status sample_id 1200
      (sample_world (sample_job_midway (Some 7%Z))
         [sample_render sample_id 7 running])
    = (Ok {| body := JsonStatus view; status := 200 |}, w')
    /\ v_state view = running
    /\ v_eta_seconds view = None.
Proof.
  do 2 eexists. split; [vm_compute; reflexivity|]. split; reflexivity.
Qed.

(** Witness of C10 as amended: an anonymous job in state [error] that
    has not been cleaned up. *)
Lemma status_query_cleans_failed_job_witness :
  exists view w',
    job_status sample_id 1200 (sample_world (sample_job error None) [])
    = (Ok {| body := JsonStatus view; status := 200 |}, w')
    /\ ACTIVE_JOBS w'
       = <[sample_id := set_cleanup_done true (sample_job error None)]>
           (ACTIVE_JOBS (sample_world (sample_job error None) []))
    /\ trace w' = [Rmtree "/tmp/bellarue_1"]
    /\ (forall p, under "/tmp/bellarue_1" p = true -> p ∉ files w')
    /\ v_state view = error.
Proof.
  apply (status_query_cleans_failed_job sample_id 1200
           (sample_world (sample_job error None) []) (sample_job error None)).
  - reflexivity.
  - vm_compute. reflexivity.
  - reflexivity.
  - reflexivity.
Defined.

(** Counterexample to C10: the same failed job owned by a signed-in
    user, with its render record; the query answers from the record and
    leaves the world as it is: the workspace stays on disk and the
    cleanup flag stays unset. *)
Lemma owned_failed_job_not_cleaned :
  exists view,
    job_status sample_id 1200
      (sample_world (sample_job error (Some 7%Z))
         [sample_render sample_id 7 error])
    = (Ok {| body := JsonStatus view; status := 200 |},
       sample_world (sample_job error (Some 7%Z))
         [sample_render sample_id 7 error])
    /\ "/tmp/bellarue_1" ∈ files (sample_world (sample_job error (Some 7%Z))
                                    [sample_render sample_id 7 error])
    /\ cleanup_done (sample_job error (Some 7%Z)) = false.
Proof.
  eexists. split; [vm_compute; reflexivity|].
  split; [cbn; set_solver|reflexivity].
Qed.

(** The worker from start to end on a successful render of an anonymous
    job: six frame lines, exit code 0, the encoder succeeding; the job
    ends [finished] at 100 percent with an ETA of 0, and its process
    handle is released. *)
Example whole_run_finishes :
  exists w' j',
    _monitor_blender_job sample_cfg sample_float sample_id 10 six_frames EOF
      {| return_code := 0; move_error := None;
         encoder := Completed 0 EmptyString EmptyString;
         copy_result := Ok 0%Z; commit_error := None |}
      (sample_world (sample_job running None) [])
    = (Ok tt, w')
    /\ ACTIVE_JOBS w' !! sample_id = Some j'
    /\ state j' = finished
    /\ progress j' = 100%Q
    /\ eta_seconds j' = Some 0%Q
    /\ ACTIVE_PROCESSES w' !! sample_id = None.
Proof.
  do 2 eexists.
  split; [vm_compute; reflexivity|].
  split; [vm_compute; reflexivity|].
  split; [reflexivity|]. split; [reflexivity|]. split; [reflexivity|].
  vm_compute. reflexivity.
Qed.

(** ** Instances of the further properties *)

(** Witness of X1: six frame lines for the sample job leave an unknown
    identifier, the handles and the files alone. *)
Lemma monitor_loop_is_isolated_witness :
  let w := sample_world (sample_job running None) [] in
  let w' :=
    snd (monitor_lines sample_float sample_id 110 sample_monitor six_frames
           EOF w) in
  ACTIVE_JOBS w' !! "0000000000000000" = ACTIVE_JOBS w !! "0000000000000000"
  /\ ACTIVE_PROCESSES w' = ACTIVE_PROCESSES w
  /\ files w' = files w.
Proof.
  apply (monitor_loop_is_isolated sample_float sample_id "0000000000000000"
           110 EOF six_frames sample_monitor
           (sample_world (sample_job running None) [])).
  discriminate.
Defined.

(** Witness of X2: six frame lines from empty buffers. *)
Lemma monitor_buffers_bounded_witness :
  let m' :=
    fst (fst (monitor_lines sample_float sample_id 110 sample_monitor
                six_frames EOF (sample_world (sample_job running None) []))) in
  (List.length (recent_lines m') <= 10)%nat
  /\ (List.length (frame_durations m') <= 20)%nat.
Proof.
  apply (monitor_buffers_bounded sample_float sample_id 110 EOF six_frames
           sample_monitor (sample_world (sample_job running None) [])
           (sample_job running None)).
  - vm_compute. reflexivity.
  - cbn. lia.
  - cbn. lia.
Defined.

(** Witness of X3: six frame lines for a job at progress 0. *)
Lemma monitor_progress_in_range_witness :
  exists j',
    ACTIVE_JOBS
      (snd (monitor_lines sample_float sample_id 110 sample_monitor six_frames
              EOF (sample_world (sample_job running None) [])))
      !! sample_id = Some j'
    /\ (0 <= progress j' <= 100)%Q.
Proof.
  apply (monitor_progress_in_range sample_float sample_id 110 EOF six_frames
           sample_monitor (sample_world (sample_job running None) [])
           (sample_job running None)).
  - vm_compute. reflexivity.
  - split; discriminate.
Defined.

(** Witness of X4: six frame lines one second apart. *)
Lemma recorded_durations_positive_witness :
  exists m' exc w' j',
    monitor_lines sample_float sample_id 110 sample_monitor six_frames EOF
      (sample_world (sample_job running None) [])
    = ((m', exc), w')
    /\ ACTIVE_JOBS w' !! sample_id = Some j'
    /\ Forall (fun d => (0 < d)%Q) (frame_durations m')
    /\ (forall avg, avg_frame_time j' = Some avg ->
                    (0 < avg)%Q /\ Py.truthy avg = true).
Proof.
  apply (recorded_durations_positive sample_float sample_id 110 EOF six_frames
           sample_monitor (sample_world (sample_job running None) [])
           (sample_job running None)).
  - vm_compute. reflexivity.
  - reflexivity.
  - reflexivity.
Defined.


(** Witness of X6: the end of the monitor for a renderer killed by
    [SIGTERM]. *)
Lemma finally_block_outcome_witness :
  exists r w' j',
    monitor_finally sample_cfg sample_id sample_monitor killed
      (sample_world (sample_job running None) [])
    = (r, w')
    /\ ACTIVE_JOBS w' !! sample_id = Some j'
    /\ (forall other, other <> sample_id ->
          ACTIVE_JOBS w' !! other
          = ACTIVE_JOBS (sample_world (sample_job running None) []) !! other)
    /\ match r with
       | Ok _ =>
           ACTIVE_PROCESSES w'
           = delete sample_id
               (ACTIVE_PROCESSES (sample_world (sample_job running None) []))
           /\ (state j' = error ->
               cleanup_done j' = true
               /\ deletions w'
                  = (deletions (sample_world (sample_job running None) [])
                     ++ [Rmtree (m_workdir sample_monitor)])%list
               /\ (forall p, under (m_workdir sample_monitor) p = true ->
                             p ∉ files w'))
           /\ (state j' <> error ->
               deletions w'
               = deletions (sample_world (sample_job running None) []))
       | Raise _ =>
           ACTIVE_PROCESSES w'
           = ACTIVE_PROCESSES (sample_world (sample_job running None) [])
           /\ deletions w'
              = deletions (sample_world (sample_job running None) [])
       end.
Proof.
  apply (finally_block_outcome sample_cfg sample_id sample_monitor killed
           (sample_world (sample_job running None) [])
           (sample_job running None)).
  vm_compute. reflexivity.
Defined.

(** Witness of X7: the renderer killed by [SIGTERM] before any line. *)
Lemma render_failure_reported_witness :
  exists w' j',
    monitor_finally sample_cfg sample_id sample_monitor killed
      (sample_world (sample_job running None) [])
    = (Ok tt, w')
    /\ ACTIVE_JOBS w' !! sample_id = Some j'
    /\ state j' = error
    /\ message j'
       = "Blender rendering failed (code " ++ Py.str (return_code killed)
         ++ "). Last line: "
         ++ List.last (recent_lines sample_monitor)
              "No additional output from Blender."
    /\ eta_seconds j' = None
    /\ progress j' = progress (sample_job running None)
    /\ cleanup_done j' = true.
Proof.
  apply (render_failure_reported sample_cfg sample_id sample_monitor killed
           (sample_world (sample_job running None) [])
           (sample_job running None)).
  - vm_compute. reflexivity.
  - discriminate.
  - left. discriminate.
  - intros _. reflexivity.
Defined.

(** Witness of X8: the renderer of owner 7 fails while the database is
    locked. *)
Lemma failed_commit_aborts_cleanup_witness :
  exists w' j',
    monitor_finally sample_cfg sample_id sample_monitor failed_and_db_down
      (sample_world (sample_job running (Some 7%Z))
         [sample_render sample_id 7 running])
    = (Raise {| exc_kind := DatabaseError; exc_str := "database is locked" |},
       w')
    /\ ACTIVE_JOBS w' !! sample_id = Some j'
    /\ state j' = error
    /\ cleanup_done j' = cleanup_done (sample_job running (Some 7%Z))
    /\ files w'
       = files (sample_world (sample_job running (Some 7%Z))
                  [sample_render sample_id 7 running])
    /\ ACTIVE_PROCESSES w'
       = ACTIVE_PROCESSES (sample_world (sample_job running (Some 7%Z))
                             [sample_render sample_id 7 running])
    /\ renders w' = [sample_render sample_id 7 running].
Proof.
  apply (failed_commit_aborts_cleanup sample_cfg sample_id sample_monitor
           failed_and_db_down
           (sample_world (sample_job running (Some 7%Z))
              [sample_render sample_id 7 running])
           (sample_job running (Some 7%Z)) "database is locked").
  - vm_compute. reflexivity.
  - discriminate.
  - discriminate.
  - reflexivity.
  - reflexivity.
Defined.

(** Witness of X9: the pipe breaks before the first line and the
    renderer is killed. *)
Lemma read_failure_reported_witness :
  exists w' j',
    _monitor_blender_job sample_cfg sample_float sample_id 110 []
      (ReadError {| exc_kind := OSError; exc_str := "Broken pipe" |}) killed
      (sample_world (sample_job running None) [])
    = (Ok tt, w')
    /\ ACTIVE_JOBS w' !! sample_id = Some j'
    /\ state j' = error
    /\ message j' = "Blender output error: Broken pipe"
    /\ cleanup_done j' = true
    /\ (forall p, under (workdir (sample_job running None)) p = true ->
                  p ∉ files w')
    /\ ACTIVE_PROCESSES w'
       = delete sample_id
           (ACTIVE_PROCESSES (sample_world (sample_job running None) [])).
Proof.
  apply (read_failure_reported sample_cfg sample_float sample_id 110 []
           {| exc_kind := OSError; exc_str := "Broken pipe" |} killed
           (sample_world (sample_job running None) [])
           (sample_job running None)).
  - vm_compute. reflexivity.
  - discriminate.
  - discriminate.
Defined.

(** Witness of X10: the sample job is cancelled while it runs. *)
Lemma cancel_running_job_witness :
  exists w' j',
    cancel_job sample_id true (sample_world (sample_job running None) [])
    = (Ok {| body := JsonMessage "Job cancelled successfully."; status := 200 |},
       w')
    /\ ACTIVE_JOBS w'
       = <[sample_id := j']>
           (ACTIVE_JOBS (sample_world (sample_job running None) []))
    /\ state j' = cancelled
    /\ message j' = "Render cancelled by user."
    /\ eta_seconds j' = None
    /\ progress j' = progress (sample_job running None)
    /\ cleanup_done j' = true
    /\ ACTIVE_PROCESSES w'
       = delete sample_id
           (ACTIVE_PROCESSES (sample_world (sample_job running None) []))
    /\ (workdir (sample_job running None) ∉ files w')
    /\ (workdir (sample_job running None)
          ∈ files (sample_world (sample_job running None) []) ->
        forall p, under (workdir (sample_job running None)) p = true ->
                  p ∉ files w')
    /\ renders w' = renders (sample_world (sample_job running None) []).
Proof.
  apply (cancel_running_job sample_id true
           (sample_world (sample_job running None) [])
           (sample_job running None)).
  - vm_compute. reflexivity.
  - reflexivity.
Defined.

(** Witness of X11: a finished job cannot be cancelled. *)
Lemma cancel_needs_running_job_witness :
  exists msg,
    cancel_job sample_id true (sample_world (sample_job finished None) [])
    = (Ok {| body := JsonMessage msg;
             status :=
               match ACTIVE_JOBS (sample_world (sample_job finished None) [])
                       !! sample_id with
               | Some _ => 400
               | None => 404
               end |},
       sample_world (sample_job finished None) []).
Proof.
  apply (cancel_needs_running_job sample_id true
           (sample_world (sample_job finished None) [])).
  intros j Hj. vm_compute in Hj. injection Hj as <-. discriminate.
Defined.

(** Witness of X12: the sample job is cancelled twice. *)
Lemma second_cancel_refused_witness :
  exists w1,
    cancel_job sample_id true (sample_world (sample_job running None) [])
    = (Ok {| body := JsonMessage "Job cancelled successfully."; status := 200 |},
       w1)
    /\ cancel_job sample_id false w1
       = (Ok {| body := JsonMessage "Job is not running."; status := 400 |}, w1).
Proof.
  apply (second_cancel_refused sample_id true false
           (sample_world (sample_job running None) [])
           (sample_job running None)).
  - vm_compute. reflexivity.
  - reflexivity.
Defined.

(** Witness of X13: the job in the middle of its render is cancelled and
    then queried. *)
Lemma status_after_cancel_witness :
  exists r w1,
    cancel_job sample_id true (sample_world (sample_job_midway None) [])
    = (Ok r, w1)
    /\ job_status sample_id 1100 w1
       = (Ok {| body := JsonStatus
                          {| v_state := cancelled;
                             v_message := "Render cancelled by user.";
                             v_progress := progress (sample_job_midway None);
                             v_eta_seconds := None |};
                status := 200 |}, w1).
Proof.
  apply (status_after_cancel sample_id true 1100
           (sample_world (sample_job_midway None) [])
           (sample_job_midway None)).
  - vm_compute. reflexivity.
  - reflexivity.
  - reflexivity.
Defined.

(** Witness of X15: a query for the job in the middle of its render. *)
Lemma status_query_read_only_witness :
  snd (job_status sample_id 1100 (sample_world (sample_job_midway None) []))
  = sample_world (sample_job_midway None) [].
Proof.
  apply (status_query_read_only sample_id 1100
           (sample_world (sample_job_midway None) [])).
  intros j _ Hj. vm_compute in Hj. injection Hj as <-. discriminate.
Defined.

(** Witness of X16: the job in the middle of its render, queried at the
    time of its last frame, reports the 90 seconds stored. *)
Lemma status_eta_is_never_negative_witness :
  job_status sample_id 1100 (sample_world (sample_job_midway None) [])
  = (Ok {| body := JsonStatus
                     {| v_state := running;
                        v_message := "Rendering frame 40 of 110 (axis Z)";
                        v_progress := 4000 # 110;
                        v_eta_seconds := Some 90%Q |};
           status := 200 |},
     sample_world (sample_job_midway None) [])
  /\ (0 <= 90)%Q.
Proof.
  assert (H : job_status sample_id 1100
                (sample_world (sample_job_midway None) [])
              = (Ok {| body := JsonStatus
                                 {| v_state := running;
                                    v_message :=
                                      "Rendering frame 40 of 110 (axis Z)";
                                    v_progress := 4000 # 110;
                                    v_eta_seconds := Some 90%Q |};
                       status := 200 |},
                 sample_world (sample_job_midway None) []))
    by (vm_compute; reflexivity).
  split; [exact H|].
  apply (status_eta_is_never_negative sample_id 1100
           (sample_world (sample_job_midway None) [])
           (sample_world (sample_job_midway None) []) _ 200 90 ltac:(
             intros j e Hj He; vm_compute in Hj; injection Hj as <-;
             injection He as <-; discriminate) H).
  reflexivity.
Defined.

(** Witness of X17: a form that asks for 400 degrees, 12000 kelvin and a
    resolution of 999. *)
Lemma validated_options_in_range_witness :
  exists o,
    parse_options sample_cfg sample_float sample_int
      {| method := "POST"; marketing := false; current_user := None;
         upload_filename := Some "model.stl";
         form := {[ "offset" := "400"; "kelvin" := "12000";
                    "resolution" := "999" ]};
         tmp_dir := "/tmp/bellarue_9"; stl_size := 4096; dev_mode := false;
         blender_bin := Some "/usr/bin/blender"; popen_error := None;
         token := "00ff00ff00ff00ff"; clock := 2000; add_error := None |}
      (sample_world (sample_job running None) [])
    = (Ok o, sample_world (sample_job running None) [])
    /\ (o_offset o == 360)%Q
    /\ o_kelvin o = 10000%Z
    /\ o_render_size o = 1080%Z
    /\ (0 <= o_offset o <= 360)%Q
    /\ (2000 <= o_kelvin o <= 10000)%Z
    /\ (-2 <= o_exposure o <= 2)%Q
    /\ (o_auto_brightness o = true -> o_exposure o = 0%Q)
    /\ (In (o_render_size o) [720; 1080; 1440; 2160]%Z
        \/ o_render_size o = RENDER_SIZE sample_cfg)
    /\ (In (o_quality o) ["fast"; "standard"; "ultra"]
        \/ o_quality o = DEFAULT_QUALITY sample_cfg)
    /\ (In (o_video_format o) ["webm"; "mp4"]
        \/ o_video_format o = OUTPUT_FORMAT sample_cfg)
    /\ (In (o_axis o) ["X"; "Y"; "Z"] \/ o_axis o = ROTATION_AXIS sample_cfg).
Proof.
  eexists. split; [vm_compute; reflexivity|].
  split; [reflexivity|]. split; [reflexivity|]. split; [reflexivity|].
  eapply (validated_options_in_range sample_cfg sample_float sample_int
            {| method := "POST"; marketing := false; current_user := None;
               upload_filename := Some "model.stl";
               form := {[ "offset" := "400"; "kelvin" := "12000";
                          "resolution" := "999" ]};
               tmp_dir := "/tmp/bellarue_9"; stl_size := 4096;
               dev_mode := false;
               blender_bin := Some "/usr/bin/blender"; popen_error := None;
               token := "00ff00ff00ff00ff"; clock := 2000;
               add_error := None |}
            (sample_world (sample_job running None) [])
            (sample_world (sample_job running None) [])).
  vm_compute. reflexivity.
Defined.


(** Witness of X19: an anonymous submission of [model.stl]. *)
Lemma accepted_submission_registers_job_witness :
  exists resp w',
    render_page sample_cfg sample_float sample_int sample_str sample_str
      sample_secure (sample_submission None)
      (sample_world (sample_job running None) [])
    = (Ok resp, w')
    /\ status resp = 202%Z
    /\ body resp = JsonJobId "00ff00ff00ff00ff"
    /\ exists job command input_path,
         ACTIVE_JOBS w'
         = <["00ff00ff00ff00ff" := job]>
             (ACTIVE_JOBS (sample_world (sample_job running None) []))
         /\ ACTIVE_PROCESSES w'
            = <["00ff00ff00ff00ff" := command]>
                (ACTIVE_PROCESSES (sample_world (sample_job running None) []))
         /\ state job = running /\ progress job = 0%Q
         /\ eta_seconds job = None
         /\ (1 <= total_frames job)%Z
         /\ workdir job = "/tmp/bellarue_9"
         /\ user_id job = owner_of (sample_submission None)
         /\ started_at job = 2000%Q
         /\ "/tmp/bellarue_9" ∈ files w' /\ input_path ∈ files w'
         /\ under "/tmp/bellarue_9" input_path = true
         /\ trace w'
            = (trace (sample_world (sample_job running None) [])
               ++ [Mkdtemp "/tmp/bellarue_9"; SaveUpload input_path;
                   Print ("[Server] Launching Blender: " ++ join " " command);
                   Popen command; StartMonitor "00ff00ff00ff00ff"])%list.
Proof.
  do 2 eexists. split; [vm_compute; reflexivity|].
  split; [reflexivity|].
  apply (accepted_submission_registers_job sample_cfg sample_float sample_int
           sample_str sample_str sample_secure (sample_submission None)
           (sample_world (sample_job running None) [])).
  - vm_compute. reflexivity.
  - reflexivity.
Defined.

(** Witness of X20: an anonymous submission of [model.stl], queried one
    second later. *)
Lemma status_of_accepted_submission_witness :
  exists resp w',
    render_page sample_cfg sample_float sample_int sample_str sample_str
      sample_secure (sample_submission None)
      (sample_world (sample_job running None) [])
    = (Ok resp, w')
    /\ exists view,
         job_status "00ff00ff00ff00ff" 2001 w'
         = (Ok {| body := JsonStatus view; status := 200 |}, w')
         /\ v_state view = running
         /\ v_progress view = 0%Q
         /\ v_eta_seconds view = None.
Proof.
  do 2 eexists. split; [vm_compute; reflexivity|].
  eapply (status_of_accepted_submission sample_cfg sample_float sample_int
           sample_str sample_str sample_secure (sample_submission None)
           (sample_world (sample_job running None) [])).
  - vm_compute. reflexivity.
  - reflexivity.
  - reflexivity.
Defined.

(** Witness of X21: an anonymous submission of [model.stl]. *)
Lemma free_render_is_watermarked_witness :
  exists resp w',
    render_page sample_cfg sample_float sample_int sample_str sample_str
      sample_secure (sample_submission None)
      (sample_world (sample_job running None) [])
    = (Ok resp, w')
    /\ exists command,
         ACTIVE_PROCESSES w' !! "00ff00ff00ff00ff" = Some command
         /\ In (Popen command) (trace w')
         /\ In "--watermark" command.
Proof.
  do 2 eexists. split; [vm_compute; reflexivity|].
  eapply (free_render_is_watermarked sample_cfg sample_float sample_int
           sample_str sample_str sample_secure (sample_submission None)
           (sample_world (sample_job running None) [])).
  - vm_compute. reflexivity.
  - reflexivity.
  - reflexivity.
  - intros u Hu. discriminate Hu.
Defined.

(** Witness of X22: the submission of a signed-in owner while the
    database is locked. *)
Lemma failed_insert_orphans_renderer_witness :
  exists command w',
    render_page sample_cfg sample_float sample_int sample_str sample_str
      sample_secure sample_submission_db_down
      (sample_world (sample_job running None) [])
    = (Ok {| body := JsonMessage "Rendering failed: database is locked";
             status := 500 |}, w')
    /\ trace w'
       = [Mkdtemp "/tmp/bellarue_9"; SaveUpload "/tmp/bellarue_9/model.stl";
          Print ("[Server] Launching Blender: " ++ join " " command);
          Popen command; Rmtree "/tmp/bellarue_9"]
    /\ ACTIVE_JOBS w'
       = ACTIVE_JOBS (sample_world (sample_job running None) [])
    /\ ACTIVE_PROCESSES w'
       = ACTIVE_PROCESSES (sample_world (sample_job running None) [])
    /\ renders w' = []
    /\ (forall p, under "/tmp/bellarue_9" p = true -> p ∉ files w').
Proof.
  apply (failed_insert_orphans_renderer sample_cfg sample_float sample_int
           sample_str sample_str sample_secure sample_submission_db_down
           (sample_world (sample_job running None) []) sample_user
           "model.stl" "/usr/bin/blender" "database is locked" 0 1080 5600
           eq_refl eq_refl eq_refl eq_refl eq_refl eq_refl eq_refl
           ltac:(cbn [stl_size sample_submission_db_down]; lia)
           eq_refl ltac:(discriminate) ltac:(vm_compute; lia)
           eq_refl eq_refl eq_refl).
Defined.


(** Witness of X24: an anonymous visitor is refused the finished sample
    job, which stays as it was. *)
Lemma refused_download_changes_nothing_witness :
  exists msg w',
    download sample_cfg sample_id (sample_download None) sample_finished_world
    = (Ok (Forbidden msg true), w')
    /\ w' = sample_finished_world.
Proof.
  do 2 eexists. split; [vm_compute; reflexivity|].
  eapply (refused_download_changes_nothing sample_cfg sample_id
            (sample_download None) sample_finished_world).
  - vm_compute. reflexivity.
  - intros p. discriminate.
  - discriminate.
Defined.

(** Witness of X25: a principal on the [pro] tier is sent the finished
    sample job. *)
Lemma download_needs_entitlement_witness :
  (exists w',
      download sample_cfg sample_id (sample_download (Some sample_user))
        sample_finished_world
      = (Ok (Attachment "/tmp/bellarue_1/turntable.mp4"), w'))
  /\ ((exists u, d_user (sample_download (Some sample_user)) = Some u
                 /\ can_download (tier u) = true)
      \/ (d_user (sample_download (Some sample_user)) = None
          /\ exists render_record,
               render_first sample_id (renders sample_finished_world)
               = Some render_record
               /\ truthy_id (r_user_id render_record) = false)).
Proof.
  split; [eexists; vm_compute; reflexivity|].
  eapply (download_needs_entitlement sample_cfg sample_id
            "/tmp/bellarue_1/turntable.mp4" (sample_download (Some sample_user))
            sample_finished_world).
  - vm_compute. reflexivity.
  - reflexivity.
Defined.

(** Witness of X26: a principal on the [pro] tier downloads the finished
    sample job. *)
Lemma download_is_single_use_witness :
  exists w',
    download sample_cfg sample_id (sample_download (Some sample_user))
      sample_finished_world
    = (Ok (Attachment (output_path (sample_job finished None))), w')
    /\ ACTIVE_JOBS w' = delete sample_id (ACTIVE_JOBS sample_finished_world)
    /\ (workdir (sample_job finished None) ∉ files w')
    /\ (workdir (sample_job finished None) ∈ files sample_finished_world ->
        forall p, under (workdir (sample_job finished None)) p = true ->
                  p ∉ files w')
    /\ (forall again,
        download sample_cfg sample_id again w'
        = (Ok (FormPage "Render job not found."), w')).
Proof.
  apply (download_is_single_use sample_cfg sample_id
           (sample_download (Some sample_user)) sample_finished_world
           (sample_job finished None)).
  - reflexivity.
  - vm_compute. reflexivity.
  - reflexivity.
  - right. split; reflexivity.
  - apply (bool_decide_eq_true_1 _). vm_compute. reflexivity.
  - reflexivity.
Defined.

(** Witness of X27: the artifact of the finished sample job is not on
    disk. *)
Lemma download_of_lost_artifact_witness :
  exists w',
    download sample_cfg sample_id (sample_download (Some sample_user))
      (sample_world (sample_job finished None) [])
    = (Ok (FormPage "Rendered file could not be found."), w')
    /\ ACTIVE_JOBS w'
       = delete sample_id
           (ACTIVE_JOBS (sample_world (sample_job finished None) []))
    /\ ACTIVE_PROCESSES w'
       = ACTIVE_PROCESSES (sample_world (sample_job finished None) [])
    /\ ((output_path (sample_job finished None)
           ∉ files (sample_world (sample_job finished None) [])) ->
        workdir (sample_job finished None) ∉ files w')
    /\ (output_path (sample_job finished None)
          ∈ files (sample_world (sample_job finished None) []) ->
        w' = set_jobs (delete sample_id)
               (sample_world (sample_job finished None) [])).
Proof.
  apply (download_of_lost_artifact sample_cfg sample_id
           (sample_download (Some sample_user))
           (sample_world (sample_job finished None) [])
           (sample_job finished None)).
  - reflexivity.
  - vm_compute. reflexivity.
  - reflexivity.
  - right. split; reflexivity.
  - left. apply (bool_decide_eq_false_1 _). vm_compute. reflexivity.
Defined.

(** Witness of X28: an anonymous visitor asks for the stored render of
    owner 7. *)
Lemma download_of_foreign_record_witness :
  download sample_cfg sample_id (sample_download None) stored_world
  = (Ok (Forbidden "Unauthorized" false), stored_world).
Proof.
  apply (download_of_foreign_record sample_cfg sample_id (sample_download None)
           stored_world stored_render 7).
  - reflexivity.
  - reflexivity.
  - discriminate.
  - intros u Hu. discriminate Hu.
Defined.

(** Witness of X29: owner 7, on the [pro] tier, downloads the stored
    render. *)
Lemma served_record_is_inside_storage_witness :
  exists p w',
    download sample_cfg sample_id (sample_download (Some sample_user))
      stored_world
    = (Ok (Attachment p), w')
    /\ w' = stored_world
    /\ p = r_file_path stored_render
    /\ p ∈ files stored_world
    /\ exists resolved root,
         d_resolve (sample_download (Some sample_user)) p = Some resolved
         /\ d_resolve (sample_download (Some sample_user))
              (STORAGE_ROOT sample_cfg) = Some root
         /\ Py.startswith resolved root = true.
Proof.
  do 2 eexists. split; [vm_compute; reflexivity|].
  eapply (served_record_is_inside_storage sample_cfg sample_id _
            (sample_download (Some sample_user)) stored_world _ stored_render).
  - reflexivity.
  - vm_compute. reflexivity.
Defined.

(** Witness of X14: the sample job is queried, one minute after the last
    of six frame lines. *)
Lemma status_query_answers_while_rendering_witness :
  exists view w'',
    job_status sample_id 1065
      (snd (monitor_lines sample_float sample_id 110 sample_monitor six_frames
              EOF (sample_world (sample_job running None) [])))
    = (Ok {| body := JsonStatus view; status := 200 |}, w'').
Proof.
  apply (status_query_answers_while_rendering sample_float sample_id 110 EOF
           six_frames sample_monitor
           (sample_world (sample_job running None) [])
           (sample_job running None) 1065).
  - vm_compute. reflexivity.
  - reflexivity.
Defined.

(** Witness of X30: a job rendered at the final frame rate, downloaded
    by a principal on the [pro] tier. *)
Lemma finished_render_can_be_downloaded_witness :
  exists w1 j1 w2,
    monitor_finally sample_cfg sample_id direct_monitor
      {| return_code := 0; move_error := None;
         encoder := Completed 0 EmptyString EmptyString; copy_result := Ok 0%Z;
         commit_error := None |}
      rendered_world
    = (Ok tt, w1)
    /\ ACTIVE_JOBS w1 !! sample_id = Some j1
    /\ state j1 = finished
    /\ progress j1 = 100%Q
    /\ eta_seconds j1 = Some 0%Q
    /\ message j1 = "Render complete (axis " ++ m_axis direct_monitor ++ ")."
    /\ files w1 = files rendered_world
    /\ ACTIVE_PROCESSES w1 = delete sample_id (ACTIVE_PROCESSES rendered_world)
    /\ download sample_cfg sample_id (sample_download (Some sample_user)) w1
       = (Ok (Attachment (output_path direct_job)), w2)
    /\ ACTIVE_JOBS w2 = delete sample_id (ACTIVE_JOBS w1)
    /\ (workdir direct_job ∉ files w2).
Proof.
  apply (finished_render_can_be_downloaded sample_cfg sample_id direct_monitor
           _ (sample_download (Some sample_user)) rendered_world
           direct_job).
  - vm_compute. reflexivity.
  - reflexivity.
  - reflexivity.
  - reflexivity.
  - reflexivity.
  - reflexivity.
  - reflexivity.
  - apply (bool_decide_eq_true_1 _). vm_compute. reflexivity.
  - right. split; reflexivity.
  - reflexivity.
Defined.
